(** * gpt_sovits_go_sdk: a shallow embedding of [api.go]

    The SDK is a thin HTTP client.  Each exported method builds a request
    (a JSON body or a URL with a query string), hands it to the
    [http.Client] stored in the [Client] value, and turns the response into
    a [TTSResponse] or a Go [error].

    The embedding keeps the shape of the Go code:
    - a Go [string] is a byte sequence, here [string] (one [ascii] per byte);
      [[]byte] is [list byte];
    - Go's [int] is [Z]; a [float64] is its IEEE-754 bit pattern as a [Z];
    - [map[string]string] is a [gmap string string]; [http.Header] is a
      [gmap string (list string)];
    - the network is the function stored in the [HTTPClient] field; every
      call of [Do] is recorded in a log of sent requests that is threaded
      through the methods by a small state monad;
    - [encoding/json] is modelled on JSON documents (abstract syntax), see
      the section on JSON below;
    - [url.Parse], which decides whether [http.NewRequestWithContext]
      accepts a URL, is a section variable. *)

From Stdlib Require Import ZArith Lia String Ascii List.
From Stdlib.Strings Require Import Byte.
From stdpp Require Import base strings gmap list pretty.

Open Scope string_scope.
Open Scope Z_scope.

(** ** Go errors *)

(** [errors.New] and [fmt.Errorf] values.  [wrapError] is what
    [fmt.Errorf] returns for a format with [%w]: the formatted message and
    the wrapped error. *)
Inductive error : Type :=
| errorString (s : string)
| wrapError (msg : string) (err : error).

Definition Error_msg (e : error) : string :=
  match e with
  | errorString s => s
  | wrapError msg _ => msg
  end.

(** [fmt.Errorf(prefix + "%w", err)] *)
Definition fmt_Errorf_w (prefix : string) (err : error) : error :=
  wrapError (prefix +:+ Error_msg err) err.

(** The verb [%d] on an [int]. *)
Definition fmt_d (n : Z) : string := pretty n.

(** [fmt.Errorf(prefix + "%d: %s", code, body)] *)
Definition fmt_Errorf_d_s (prefix : string) (code : Z) (body : string) : error :=
  errorString (prefix +:+ fmt_d code +:+ ": " +:+ body).

Inductive result (A : Type) : Type :=
| Ok (a : A)
| Err (e : error).
Arguments Ok {A} a.
Arguments Err {A} e.

(** ** Bytes and UTF-8 *)

(** The double quote character, for building string constants. *)
Definition dquote : string := String "034"%char EmptyString.

Definition byte_code (a : ascii) : Z := Z.of_N (N_of_ascii a).

Definition in_range (lo hi x : Z) : bool := (lo <=? x) && (x <=? hi).

Definition is_cont (a : ascii) : bool := in_range 128 191 (byte_code a).

(** Length in bytes of the well-formed UTF-8 sequence at the head of [s],
    or [0%nat] when the head is not the start of one ([utf8.DecodeRune]
    then returns [RuneError] with size 1).  The ranges are those of the
    table in package [unicode/utf8]: no overlong forms, no surrogates,
    nothing above U+10FFFF. *)
Definition utf8_seq_len (s : string) : nat :=
  match s with
  | EmptyString => 0%nat
  | String b0 r =>
    let c0 := byte_code b0 in
    if c0 <? 128 then 1%nat
    else if in_range 194 223 c0 then
      match r with
      | String b1 _ => if is_cont b1 then 2%nat else 0%nat
      | _ => 0%nat
      end
    else if in_range 224 239 c0 then
      match r with
      | String b1 (String b2 _) =>
        let lo := if c0 =? 224 then 160 else 128 in
        let hi := if c0 =? 237 then 159 else 191 in
        if in_range lo hi (byte_code b1) && is_cont b2 then 3%nat else 0%nat
      | _ => 0%nat
      end
    else if in_range 240 244 c0 then
      match r with
      | String b1 (String b2 (String b3 _)) =>
        let lo := if c0 =? 240 then 144 else 128 in
        let hi := if c0 =? 244 then 143 else 191 in
        if in_range lo hi (byte_code b1) && is_cont b2 && is_cont b3
        then 4%nat else 0%nat
      | _ => 0%nat
      end
    else 0%nat
  end.

(** U+FFFD, the replacement character, in UTF-8. *)
Definition RuneError : string :=
  String (ascii_of_nat 239) (String (ascii_of_nat 191) (String (ascii_of_nat 189) EmptyString)).

(** [utf8_valid_from k s]: [s] is valid UTF-8 once its first [k] bytes,
    the rest of a sequence already accepted, are skipped. *)
Fixpoint utf8_valid_from (k : nat) (s : string) : bool :=
  match s with
  | EmptyString => true
  | String b r =>
    match k with
    | S k' => utf8_valid_from k' r
    | O =>
      match utf8_seq_len s with
      | O => false
      | S k' => utf8_valid_from k' r
      end
    end
  end.

(** [utf8.ValidString] *)
Definition utf8_ValidString (s : string) : bool := utf8_valid_from 0 s.

(** The coercion to valid UTF-8 that [encoding/json] applies to every
    string it writes or reads: each byte that does not start a well-formed
    sequence becomes U+FFFD. *)
Fixpoint utf8_coerce_from (k : nat) (s : string) : string :=
  match s with
  | EmptyString => EmptyString
  | String b r =>
    match k with
    | S k' => String b (utf8_coerce_from k' r)
    | O =>
      match utf8_seq_len s with
      | O => RuneError +:+ utf8_coerce_from 0 r
      | S k' => String b (utf8_coerce_from k' r)
      end
    end
  end.

Definition utf8_coerce (s : string) : string := utf8_coerce_from 0 s.

(** ** float64 and int *)

(** A [float64] is its 64-bit pattern: sign, 11 exponent bits, 52
    mantissa bits. *)
Definition float64 : Type := Z.

Definition float64_exponent (f : float64) : Z := Z.land (Z.shiftr f 52) 2047.

(** [math.IsInf(f, 0) || math.IsNaN(f)]: the exponent field is all ones. *)
Definition math_IsInfOrNaN (f : float64) : bool := float64_exponent f =? 2047.

(** The range of Go's [int] on a 64-bit platform. *)
Definition int_in_range (n : Z) : bool := in_range (- 2 ^ 63) (2 ^ 63 - 1) n.

(** ** JSON documents

    [encoding/json] is modelled at the level of the JSON document, not of
    its bytes: [json.Marshal] yields the document that the bytes it writes
    denote, [json.Unmarshal] reads one.  A number is kept with the Go value
    it was printed from ([JInt] for an [int], [JFloat] for a finite
    [float64]); the decimal text of numbers and the escaping of strings are
    below this level. *)
#[warnings="-register-all"] Inductive json : Type :=
| JNull
| JBool (b : bool)
| JInt (n : Z)
| JFloat (f : float64)
| JString (s : string)
| JArray (elems : list json)
| JObject (members : list (string * json)).

(** The values found in the fields of the request structs, as package
    [reflect] presents them to the encoder. *)
Inductive govalue : Type :=
| VString (s : string)
| VInt (n : Z)
| VFloat64 (f : float64)
| VBool (b : bool)
| VStringSlice (l : option (list string)).

(** [strconv.FormatFloat(f, 'g', -1, 64)] on the values the encoder
    rejects. *)
Definition format_non_finite (f : float64) : string :=
  if Z.land f (2 ^ 52 - 1) =? 0
  then (if Z.testbit f 63 then "-Inf" else "+Inf")
  else "NaN".

(** The encoder of one value: strings are coerced to valid UTF-8, a
    [float64] that is infinite or NaN is an [UnsupportedValueError], a nil
    slice is [null]. *)
Definition json_encode_value (v : govalue) : result json :=
  match v with
  | VString s => Ok (JString (utf8_coerce s))
  | VInt n => Ok (JInt n)
  | VFloat64 f =>
    if math_IsInfOrNaN f
    then Err (errorString ("json: unsupported value: " +:+ format_non_finite f))
    else Ok (JFloat f)
  | VBool b => Ok (JBool b)
  | VStringSlice None => Ok JNull
  | VStringSlice (Some l) => Ok (JArray (map (fun s => JString (utf8_coerce s)) l))
  end.

(** The encoder of a struct: one member per field, in declaration order,
    under the name of the field's [json] tag; the first field that cannot
    be encoded aborts the encoding. *)
Fixpoint json_encode_fields (fields : list (string * govalue))
  : result (list (string * json)) :=
  match fields with
  | [] => Ok []
  | (name, v) :: rest =>
    match json_encode_value v with
    | Err e => Err e
    | Ok j =>
      match json_encode_fields rest with
      | Err e => Err e
      | Ok js => Ok ((name, j) :: js)
      end
    end
  end.

Definition json_Marshal (fields : list (string * govalue)) : result json :=
  match json_encode_fields fields with
  | Err e => Err e
  | Ok ms => Ok (JObject ms)
  end.

(** ** The request and response structs of [api.go] *)

Record TTSRequest : Type := {
  Text : string;
  TextLang : string;
  RefAudioPath : string;
  AuxRefAudioPaths : option (list string);  (* [None] is the nil slice *)
  PromptText : string;
  PromptLang : string;
  TopK : Z;
  TopP : float64;
  Temperature : float64;
  TextSplitMethod : string;
  BatchSize : Z;
  BatchThreshold : float64;
  SplitBucket : bool;
  SpeedFactor : float64;
  FragmentInterval : float64;
  Seed : Z;
  MediaType : string;
  StreamingMode : bool;
  ParallelInfer : bool;
  RepetitionPenalty : float64;
  SampleSteps : Z;
  SuperSampling : bool
}.

(** The fields of [TTSRequest] with their [json] tags, in declaration
    order. *)
Definition TTSRequest_fields (req : TTSRequest) : list (string * govalue) :=
  [ ("text", VString (Text req));
    ("text_lang", VString (TextLang req));
    ("ref_audio_path", VString (RefAudioPath req));
    ("aux_ref_audio_paths", VStringSlice (AuxRefAudioPaths req));
    ("prompt_text", VString (PromptText req));
    ("prompt_lang", VString (PromptLang req));
    ("top_k", VInt (TopK req));
    ("top_p", VFloat64 (TopP req));
    ("temperature", VFloat64 (Temperature req));
    ("text_split_method", VString (TextSplitMethod req));
    ("batch_size", VInt (BatchSize req));
    ("batch_threshold", VFloat64 (BatchThreshold req));
    ("split_bucket", VBool (SplitBucket req));
    ("speed_factor", VFloat64 (SpeedFactor req));
    ("fragment_interval", VFloat64 (FragmentInterval req));
    ("seed", VInt (Seed req));
    ("media_type", VString (MediaType req));
    ("streaming_mode", VBool (StreamingMode req));
    ("parallel_infer", VBool (ParallelInfer req));
    ("repetition_penalty", VFloat64 (RepetitionPenalty req));
    ("sample_steps", VInt (SampleSteps req));
    ("super_sampling", VBool (SuperSampling req)) ].

Record TTSResponse : Type := {
  StatusCode : Z;
  AudioData : list byte;      (* [[]] is the nil slice *)
  Error : option error
}.

Record ControlRequest : Type := { Command : string }.

Definition ControlRequest_fields (r : ControlRequest) : list (string * govalue) :=
  [ ("command", VString (Command r)) ].

Record SetWeightsRequest : Type := { WeightsPath : string }.

Definition SetWeightsRequest_fields (r : SetWeightsRequest) : list (string * govalue) :=
  [ ("weights_path", VString (WeightsPath r)) ].

(** The zero value of [TTSRequest], and a composite literal that sets
    the nine fields [TTSSimple] names. *)
Definition TTSRequest_zero : TTSRequest :=
  {| Text := ""; TextLang := ""; RefAudioPath := ""; AuxRefAudioPaths := None;
     PromptText := ""; PromptLang := ""; TopK := 0; TopP := 0; Temperature := 0;
     TextSplitMethod := ""; BatchSize := 0; BatchThreshold := 0;
     SplitBucket := false; SpeedFactor := 0; FragmentInterval := 0; Seed := 0;
     MediaType := ""; StreamingMode := false; ParallelInfer := false;
     RepetitionPenalty := 0; SampleSteps := 0; SuperSampling := false |}.

(** ** Decoding a JSON document into a [TTSRequest]

    [json.Unmarshal] into a fresh struct walks the members of the object in
    order; a member whose key names a field (letter case ignored) is
    decoded into that field, other members are skipped, [null] leaves a
    field as it is (and makes a slice nil), a value of the wrong JSON kind
    is an [UnmarshalTypeError].  Fields do not interact, so the walk is
    written field by field. *)

Definition ascii_lower (a : ascii) : ascii :=
  let c := byte_code a in
  if in_range 65 90 c then ascii_of_N (Z.to_N (c + 32)) else a.

Fixpoint string_lower (s : string) : string :=
  match s with
  | EmptyString => EmptyString
  | String a r => String (ascii_lower a) (string_lower r)
  end.

(** Does the key of a member select the field tagged [name]?  All tags of
    [TTSRequest] are lower-case and pairwise distinct, so Go's lookup
    (exact match first, then a match up to letter case) selects the field
    whose tag is the lower-cased key.  Letter case is that of ASCII; the
    two letters outside ASCII that Go folds as well are left out. *)
Definition key_selects (name key : string) : bool :=
  String.eqb name (string_lower key).

Definition type_error (want : string) : error :=
  errorString ("json: cannot unmarshal value into Go value of type " +:+ want).

Definition decode_string (j : json) (old : string) : result string :=
  match j with
  | JNull => Ok old
  | JString s => Ok (utf8_coerce s)
  | _ => Err (type_error "string")
  end.

(** A number is read back into a field of the kind it was printed from:
    the text of a number is not modelled, so a number printed from a
    [float64] is not offered to an [int] field, nor the converse. *)
Definition decode_int (j : json) (old : Z) : result Z :=
  match j with
  | JNull => Ok old
  | JInt n => if int_in_range n then Ok n else Err (type_error "int")
  | _ => Err (type_error "int")
  end.

Definition decode_float64 (j : json) (old : float64) : result float64 :=
  match j with
  | JNull => Ok old
  | JFloat f => Ok f
  | _ => Err (type_error "float64")
  end.

Definition decode_bool (j : json) (old : bool) : result bool :=
  match j with
  | JNull => Ok old
  | JBool b => Ok b
  | _ => Err (type_error "bool")
  end.

Fixpoint decode_strings (elems : list json) : result (list string) :=
  match elems with
  | [] => Ok []
  | j :: rest =>
    match decode_string j "" with
    | Err e => Err e
    | Ok s =>
      match decode_strings rest with
      | Err e => Err e
      | Ok ss => Ok (s :: ss)
      end
    end
  end.

Definition decode_string_slice (j : json) (old : option (list string))
  : result (option (list string)) :=
  match j with
  | JNull => Ok None
  | JArray elems =>
    match decode_strings elems with
    | Err e => Err e
    | Ok ss => Ok (Some ss)
    end
  | _ => Err (type_error "[]string")
  end.

(** The value of the field tagged [name] after the walk over [members],
    starting from [zero]. *)
Fixpoint decode_field {A : Type} (dec : json -> A -> result A) (name : string)
    (members : list (string * json)) (cur : A) : result A :=
  match members with
  | [] => Ok cur
  | (key, v) :: rest =>
    if key_selects name key
    then match dec v cur with
         | Err e => Err e
         | Ok a => decode_field dec name rest a
         end
    else decode_field dec name rest cur
  end.

Definition rbind {A B : Type} (r : result A) (k : A -> result B) : result B :=
  match r with
  | Ok a => k a
  | Err e => Err e
  end.

#[global] Instance result_bind : MBind result := fun A B k r => rbind r k.

Definition json_Unmarshal_TTSRequest (j : json) : result TTSRequest :=
  match j with
  | JNull => Ok TTSRequest_zero
  | JObject ms =>
    text ← decode_field decode_string "text" ms "";
    text_lang ← decode_field decode_string "text_lang" ms "";
    ref_audio_path ← decode_field decode_string "ref_audio_path" ms "";
    aux ← decode_field decode_string_slice "aux_ref_audio_paths" ms None;
    prompt_text ← decode_field decode_string "prompt_text" ms "";
    prompt_lang ← decode_field decode_string "prompt_lang" ms "";
    top_k ← decode_field decode_int "top_k" ms 0;
    top_p ← decode_field decode_float64 "top_p" ms 0;
    temperature ← decode_field decode_float64 "temperature" ms 0;
    text_split_method ← decode_field decode_string "text_split_method" ms "";
    batch_size ← decode_field decode_int "batch_size" ms 0;
    batch_threshold ← decode_field decode_float64 "batch_threshold" ms 0;
    split_bucket ← decode_field decode_bool "split_bucket" ms false;
    speed_factor ← decode_field decode_float64 "speed_factor" ms 0;
    fragment_interval ← decode_field decode_float64 "fragment_interval" ms 0;
    seed ← decode_field decode_int "seed" ms 0;
    media_type ← decode_field decode_string "media_type" ms "";
    streaming_mode ← decode_field decode_bool "streaming_mode" ms false;
    parallel_infer ← decode_field decode_bool "parallel_infer" ms false;
    repetition_penalty ← decode_field decode_float64 "repetition_penalty" ms 0;
    sample_steps ← decode_field decode_int "sample_steps" ms 0;
    super_sampling ← decode_field decode_bool "super_sampling" ms false;
    Ok {| Text := text; TextLang := text_lang; RefAudioPath := ref_audio_path;
          AuxRefAudioPaths := aux; PromptText := prompt_text;
          PromptLang := prompt_lang; TopK := top_k; TopP := top_p;
          Temperature := temperature; TextSplitMethod := text_split_method;
          BatchSize := batch_size; BatchThreshold := batch_threshold;
          SplitBucket := split_bucket; SpeedFactor := speed_factor;
          FragmentInterval := fragment_interval; Seed := seed;
          MediaType := media_type; StreamingMode := streaming_mode;
          ParallelInfer := parallel_infer;
          RepetitionPenalty := repetition_penalty; SampleSteps := sample_steps;
          SuperSampling := super_sampling |}
  | _ => Err (type_error "TTSRequest")
  end.

(** ** Package [net/http] as the SDK uses it *)

(** A [context.Context]; [nil_Context] is Go's [nil].  The identifier
    lets the transport tell contexts apart (cancelled, past its deadline). *)
Inductive Context : Type :=
| nil_Context
| a_Context (id : nat).

Inductive Method : Type := MethodGet | MethodPost.

Definition http_StatusOK : Z := 200.
Definition http_StatusNoContent : Z := 204.

Record http_Request : Type := {
  Req_ctx : Context;
  Req_Method : Method;
  Req_URL : string;
  Req_Header : gmap string (list string);
  Req_Body : option json        (* [None] is the nil body of a GET *)
}.

(** A response body: what [io.ReadAll] returns for it, the bytes read and
    the error that stopped the reading, if any. *)
Record ReadCloser : Type := {
  rc_data : list byte;
  rc_err : option error
}.

Definition io_ReadAll (b : ReadCloser) : list byte * option error :=
  (rc_data b, rc_err b).

Record http_Response : Type := {
  Resp_StatusCode : Z;
  Resp_Body : ReadCloser
}.

(** [Header.Set]: the key replaces any values already stored under it.
    Both keys the SDK could pass are already in canonical form. *)
Definition Header_Set (r : http_Request) (key value : string) : http_Request :=
  {| Req_ctx := Req_ctx r; Req_Method := Req_Method r; Req_URL := Req_URL r;
     Req_Header := <[key := [value]]> (Req_Header r); Req_Body := Req_Body r |}.

(** [Client]: the base URL and the HTTP client.  The client is the
    function that [Do] applies: the network and the server behind it,
    answering a request with a transport error or a response. *)
Record Client : Type := {
  BaseURL : string;
  HTTPClient : http_Request -> result http_Response
}.

(** [NewClient]: the client for [baseURL].  The [http.Client] it creates
    talks to the network, which is a parameter here; its timeout of 60
    seconds shows only as a transport error of a request that takes too
    long. *)
Definition NewClient (network : http_Request -> result http_Response)
    (baseURL : string) : Client :=
  {| BaseURL := baseURL; HTTPClient := network |}.

(** Methods run in a state monad over the log of the requests handed to
    [Do] so far. *)
Definition M (A : Type) : Type := list http_Request -> A * list http_Request.

#[global] Instance M_ret : MRet M := fun A a log => (a, log).
#[global] Instance M_bind : MBind M :=
  fun A B k m log => let '(a, log') := m log in k a log'.

Definition HTTPClient_Do (c : Client) (req : http_Request) : M (result http_Response) :=
  fun log => (HTTPClient c req, (log ++ [req])%list).

(** [string(body)] *)
Definition string_of_bytes (b : list byte) : string := string_of_list_byte b.

(** [&TTSResponse{Error: err}] *)
Definition TTSResponse_Error (err : error) : TTSResponse :=
  {| StatusCode := 0; AudioData := []; Error := Some err |}.

(** ** The query string of [GetTTSWithURLParams] *)

(** The loop [for key, value := range params { query += ... }], over the
    sequence in which the entries are visited. *)
Definition query_loop (visited : list (string * string)) : string :=
  fold_left (fun query kv => query +:+ fst kv +:+ "=" +:+ snd kv +:+ "&")
            visited "?".

(** [if len(query) > 1 { query = query[:len(query)-1] }] *)
Definition query_trim (query : string) : string :=
  if (1 <? String.length query)%nat
  then substring 0 (String.length query - 1) query
  else query.

Definition build_query (visited : list (string * string)) : string :=
  query_trim (query_loop visited).

(** [range] over a Go map visits every entry once, in an order the
    language leaves unspecified (the runtime randomises it): the visiting
    sequences of [params] are the permutations of its entries. *)
Definition map_range (params : gmap string string)
    (visited : list (string * string)) : Prop :=
  visited ≡ₚ map_to_list params.

(** A map built by a sequence of assignments [params[k] = v]. *)
Definition map_of_inserts (ins : list (string * string)) : gmap string string :=
  fold_left (fun m kv => <[fst kv := snd kv]> m) ins ∅.

(** ** The receiving side of the wire contract

    What a server reads off a request: the parameters of a JSON body and
    those of the query string of the URL.  The query string is taken apart
    the usual way (RFC 3986 and the form encoding): the query is what
    stands between the first [?] and the fragment, pairs are separated by
    [&], a name is separated from its value by the first [=], [+] is a
    space and [%XX] is the byte with hexadecimal code [XX]. *)

(** [strings.Cut]: the text before the first [sep], and the text after it
    when there is one. *)
Fixpoint cut (sep : ascii) (s : string) : string * option string :=
  match s with
  | EmptyString => (EmptyString, None)
  | String a r =>
    if Ascii.eqb a sep then (EmptyString, Some r)
    else let '(before, after) := cut sep r in (String a before, after)
  end.

(** [strings.Split] on a one-byte separator. *)
Fixpoint split (sep : ascii) (s : string) : list string :=
  match s with
  | EmptyString => [EmptyString]
  | String a r =>
    if Ascii.eqb a sep then EmptyString :: split sep r
    else match split sep r with
         | piece :: pieces => String a piece :: pieces
         | [] => [String a EmptyString]
         end
  end.

Definition hex_val (a : ascii) : option Z :=
  let c := byte_code a in
  if in_range 48 57 c then Some (c - 48)
  else if in_range 65 70 c then Some (c - 55)
  else if in_range 97 102 c then Some (c - 87)
  else None.

Fixpoint unquote_plus (s : string) : string :=
  match s with
  | EmptyString => EmptyString
  | String a r =>
    if Ascii.eqb a "+" then String " " (unquote_plus r)
    else if Ascii.eqb a "%" then
      match r with
      | String h (String l r') =>
        match hex_val h, hex_val l with
        | Some x, Some y =>
          String (ascii_of_N (Z.to_N (16 * x + y))) (unquote_plus r')
        | _, _ => String a (unquote_plus r)
        end
      | _ => String a (unquote_plus r)
      end
    else String a (unquote_plus r)
  end.

(** The query component of a URL. *)
Definition url_query (url : string) : string :=
  match snd (cut "?" (fst (cut "#" url))) with
  | Some q => q
  | None => EmptyString
  end.

Definition parse_pair (piece : string) : string * string :=
  let '(name, value) := cut "=" piece in
  (unquote_plus name,
   match value with Some v => unquote_plus v | None => EmptyString end).

Definition parse_query (q : string) : list (string * string) :=
  map parse_pair (filter (fun piece => piece <> EmptyString) (split "&" q)).

(** The values a list of pairs holds under [name]. *)
Definition values_of (name : string) (pairs : list (string * string)) : list string :=
  map snd (filter (fun kv => fst kv = name) pairs).

(** The string members of a JSON object under [name]. *)
Fixpoint string_members (name : string) (members : list (string * json)) : list string :=
  match members with
  | [] => []
  | (key, JString s) :: rest =>
    if String.eqb key name then s :: string_members name rest
    else string_members name rest
  | _ :: rest => string_members name rest
  end.

(** The values the server observes for the parameter [name] of a request:
    from the JSON body of a POST, from the query string of a GET. *)
Definition server_observed (name : string) (r : http_Request) : list string :=
  match Req_Method r with
  | MethodPost =>
    match Req_Body r with
    | Some (JObject members) => string_members name members
    | _ => []
    end
  | MethodGet => values_of name (parse_query (url_query (Req_URL r)))
  end.

(** The characters a URI may contain (RFC 3986): unreserved, reserved and
    the percent sign of an escape.  Every other byte has to be
    percent-encoded. *)
Definition uri_char (a : ascii) : bool :=
  let c := byte_code a in
  in_range 48 57 c || in_range 65 90 c || in_range 97 122 c
  || existsb (Ascii.eqb a) (list_ascii_of_string "-._~:/?#[]@!$&'()*+,;=%").

Definition uri_text (s : string) : bool :=
  forallb uri_char (list_ascii_of_string s).

(** A base URL without query and fragment: no [?] and no [#]. *)
Definition plain_base (base : string) : bool :=
  forallb (fun a => negb (Ascii.eqb a "?") && negb (Ascii.eqb a "#"))
          (list_ascii_of_string base).

(** [sub] occurs in [s]. *)
Definition contains (s sub : string) : Prop :=
  exists before after, s = before +:+ sub +:+ after.

(** ** Vocabulary of the specifications *)

(** A run that started with the log [log] and ended with [log'] handed
    exactly one request to the client, which answered with [resp]. *)
Definition answered (c : Client) (log log' : list http_Request)
    (resp : http_Response) : Prop :=
  exists req, log' = (log ++ [req])%list /\ HTTPClient c req = Ok resp.

(** A run sent nothing, or one request, which satisfies [P]. *)
Definition sends_only (P : http_Request -> Prop)
    (log log' : list http_Request) : Prop :=
  log' = log \/ exists req, log' = (log ++ [req])%list /\ P req.


(** The request of a POST method: the JSON document [body] for [url],
    with the content type set. *)
Definition post_request (ctx : Context) (url : string) (body : json) : http_Request :=
  {| Req_ctx := ctx; Req_Method := MethodPost; Req_URL := url;
     Req_Header := {[ "Content-Type" := ["application/json"] ]};
     Req_Body := Some body |}.

(** The request of a GET method. *)
Definition get_request (ctx : Context) (url : string) : http_Request :=
  {| Req_ctx := ctx; Req_Method := MethodGet; Req_URL := url;
     Req_Header := ∅; Req_Body := None |}.

(** The text of one query parameter. *)
Definition pair_text (kv : string * string) : string :=
  fst kv +:+ "=" +:+ snd kv.

(** The first member of a JSON object under the key [name]. *)
Definition json_member (name : string) (j : json) : option json :=
  match j with
  | JObject members =>
    snd <$> List.find (fun kv => String.eqb (fst kv) name) members
  | _ => None
  end.

(** The check of the status code that ends the methods returning an
    [error]: nil when [accept] holds of the status code, otherwise an
    error made of [prefix], the status code and the body read. *)
Definition status_error (accept : Z -> bool) (prefix : string)
    (resp : http_Response) : option error :=
  if accept (Resp_StatusCode resp) then None
  else Some (fmt_Errorf_d_s prefix (Resp_StatusCode resp)
               (string_of_bytes (fst (io_ReadAll (Resp_Body resp))))).

(** The outcome [out] of such a method against the answer [resp]: nil
    exactly for the accepted status codes, otherwise an error whose
    message contains the status code and the text of the body. *)
Definition status_outcome (accepted : Z -> Prop) (resp : http_Response)
    (out : option error) : Prop :=
  (out = None <-> accepted (Resp_StatusCode resp)) /\
  (forall e, out = Some e ->
     contains (Error_msg e) (fmt_d (Resp_StatusCode resp)) /\
     contains (Error_msg e) (string_of_bytes (rc_data (Resp_Body resp)))).

(** The headers of a request sent by a POST method: the content type and
    nothing else, in particular no credentials. *)
Definition json_headers_only (r : http_Request) : Prop :=
  Req_Method r = MethodPost /\
  Req_Header r !! "Content-Type" = Some ["application/json"] /\
  Req_Header r !! "Authorization" = None /\
  (forall key, key <> "Content-Type" -> Req_Header r !! key = None).

(** The headers of a request sent by a GET method: none. *)
Definition no_headers (r : http_Request) : Prop :=
  Req_Method r = MethodGet /\
  Req_Header r !! "Authorization" = None /\
  (forall key, Req_Header r !! key = None).

(** The keys of a JSON object, in order. *)
Definition json_keys (j : json) : list string :=
  match j with
  | JObject members => map fst members
  | _ => []
  end.

(** A [TTSRequest] that JSON can carry without loss: every string is
    valid UTF-8, every [float64] is finite (neither infinite nor NaN),
    every [int] is in the range of the type. *)
Definition TTSRequest_valid (r : TTSRequest) : bool :=
  utf8_ValidString (Text r) && utf8_ValidString (TextLang r)
  && utf8_ValidString (RefAudioPath r)
  && match AuxRefAudioPaths r with
     | None => true
     | Some paths => forallb utf8_ValidString paths
     end
  && utf8_ValidString (PromptText r) && utf8_ValidString (PromptLang r)
  && int_in_range (TopK r)
  && negb (math_IsInfOrNaN (TopP r)) && negb (math_IsInfOrNaN (Temperature r))
  && utf8_ValidString (TextSplitMethod r)
  && int_in_range (BatchSize r)
  && negb (math_IsInfOrNaN (BatchThreshold r))
  && negb (math_IsInfOrNaN (SpeedFactor r))
  && negb (math_IsInfOrNaN (FragmentInterval r))
  && int_in_range (Seed r)
  && utf8_ValidString (MediaType r)
  && negb (math_IsInfOrNaN (RepetitionPenalty r))
  && int_in_range (SampleSteps r).

(** The members of an object that the field tagged [name] is decoded
    from, and the decoding of a field from them one after the other: the
    walk of [decode_field], with the members it skips left out. *)
Definition selected (name : string) (members : list (string * json)) : list json :=
  map snd (List.filter (fun kv => key_selects name (fst kv)) members).

Fixpoint decode_all {A : Type} (dec : json -> A -> result A) (js : list json)
    (cur : A) : result A :=
  match js with
  | [] => Ok cur
  | j :: rest =>
    match dec j cur with
    | Err e => Err e
    | Ok a => decode_all dec rest a
    end
  end.

(** ** Fixtures of the examples *)

(** A client for a server on the local host that answers every request
    the same way. *)
Definition local_client (answer : result http_Response) : Client :=
  NewClient (fun _ => answer) "http://127.0.0.1:9880".

(** An answer with a status code and a body that reads without error. *)
Definition answer (status : Z) (body : list byte) : result http_Response :=
  Ok {| Resp_StatusCode := status;
        Resp_Body := {| rc_data := body; rc_err := None |} |}.

(** A [url.Parse] that accepts every URL. *)
Definition any_url : string -> option error := fun _ => None.

(** The error body of the weights example: [{"error":"file not found"}]. *)
Definition file_not_found : string :=
  "{" +:+ dquote +:+ "error" +:+ dquote +:+ ":" +:+
  dquote +:+ "file not found" +:+ dquote +:+ "}".

(** A run sent exactly one request, which satisfies [P]. *)
Definition sends (P : http_Request -> Prop)
    (log log' : list http_Request) : Prop :=
  exists req, log' = (log ++ [req])%list /\ P req.

(** ** Vocabulary of the further properties *)

(** [errors.Unwrap]: the error that [fmt.Errorf] wrapped with [%w]. *)
Definition errors_Unwrap (e : error) : option error :=
  match e with
  | errorString _ => None
  | wrapError _ err => Some err
  end.

(** A request of the caller: it carries the caller's context and goes to
    a URL under the base URL of the client. *)
Definition request_of (c : Client) (ctx : Context) (r : http_Request) : Prop :=
  Req_ctx r = ctx /\ exists path, Req_URL r = BaseURL c +:+ path.

(** The error [e], made by [fmt.Errorf] from [prefix] and the cause
    [err]. *)
Definition wraps (e : error) (prefix : string) (err : error) : Prop :=
  errors_Unwrap e = Some err /\ Error_msg e = prefix +:+ Error_msg err.

(** The client [c], with the reading of every response body made to
    succeed on the bytes it delivers. *)
Definition forget_read_error (c : Client) : Client :=
  {| BaseURL := BaseURL c;
     HTTPClient := fun req =>
       match HTTPClient c req with
       | Err err => Err err
       | Ok resp =>
         Ok {| Resp_StatusCode := Resp_StatusCode resp;
               Resp_Body := {| rc_data := rc_data (Resp_Body resp);
                               rc_err := None |} |}
       end |}.

(** Every [float64] field of the request is finite. *)
Definition floats_finite (r : TTSRequest) : bool :=
  negb (math_IsInfOrNaN (TopP r)) && negb (math_IsInfOrNaN (Temperature r))
  && negb (math_IsInfOrNaN (BatchThreshold r))
  && negb (math_IsInfOrNaN (SpeedFactor r))
  && negb (math_IsInfOrNaN (FragmentInterval r))
  && negb (math_IsInfOrNaN (RepetitionPenalty r)).

(** [s] holds none of the bytes of [chars]. *)
Definition free_of (chars s : string) : bool :=
  forallb (fun a => negb (existsb (Ascii.eqb a) (list_ascii_of_string chars)))
          (list_ascii_of_string s).

(** The bytes that stand for themselves in every part of a URL and in a
    form-encoded query: the unreserved characters of RFC 3986 (letters,
    digits, [-], [.], [_], [~]) and [/], [:] and [,].  A space, [;], [&],
    [+], [%], [#], [?], a quote, a control character and every byte
    outside ASCII are not among them. *)
Definition query_plain (a : ascii) : bool :=
  let c := byte_code a in
  in_range 48 57 c || in_range 65 90 c || in_range 97 122 c
  || existsb (Ascii.eqb a) (list_ascii_of_string "-._~/:,").

(** A parameter name and a parameter value that a query string carries
    as they are: made of such bytes only, and, for a value, of [=], which
    ends the name at its first occurrence. *)
Definition query_safe_name (s : string) : bool :=
  forallb query_plain (list_ascii_of_string s).

Definition query_safe_value (s : string) : bool :=
  forallb (fun a => query_plain a || Ascii.eqb a "=") (list_ascii_of_string s).

Definition query_safe (kv : string * string) : bool :=
  query_safe_name (fst kv) && query_safe_value (snd kv).

(** The request with every string coerced to valid UTF-8: what
    [encoding/json] makes of its strings. *)
Definition TTSRequest_coerce (r : TTSRequest) : TTSRequest :=
  {| Text := utf8_coerce (Text r);
     TextLang := utf8_coerce (TextLang r);
     RefAudioPath := utf8_coerce (RefAudioPath r);
     AuxRefAudioPaths := map utf8_coerce <$> AuxRefAudioPaths r;
     PromptText := utf8_coerce (PromptText r);
     PromptLang := utf8_coerce (PromptLang r);
     TopK := TopK r; TopP := TopP r; Temperature := Temperature r;
     TextSplitMethod := utf8_coerce (TextSplitMethod r);
     BatchSize := BatchSize r; BatchThreshold := BatchThreshold r;
     SplitBucket := SplitBucket r; SpeedFactor := SpeedFactor r;
     FragmentInterval := FragmentInterval r; Seed := Seed r;
     MediaType := utf8_coerce (MediaType r);
     StreamingMode := StreamingMode r; ParallelInfer := ParallelInfer r;
     RepetitionPenalty := RepetitionPenalty r; SampleSteps := SampleSteps r;
     SuperSampling := SuperSampling r |}.

(** Every [int] field of the request is in the range of the type. *)
Definition ints_in_range (r : TTSRequest) : bool :=
  int_in_range (TopK r) && int_in_range (BatchSize r)
  && int_in_range (Seed r) && int_in_range (SampleSteps r).



Definition not_utf8 : string := String (ascii_of_nat 255) "a".

Definition no_url : string -> option error :=
  fun _ => Some (errorString "parse: invalid URL").

Definition documented_checkpoint : string :=
  "GPT_SoVITS/pretrained_models/s1bert25hz-2kh-longer-epoch=68e-step=50232.ckpt".

Section SDK.

(** [url.Parse], as far as [http.NewRequestWithContext] depends on it:
    the error it returns for a URL, if any. *)
Variable url_Parse : string -> option error.

Definition http_NewRequestWithContext (ctx : Context) (method : Method)
    (url : string) (body : option json) : result http_Request :=
  match ctx with
  | nil_Context => Err (errorString "net/http: nil Context")
  | a_Context _ =>
    match url_Parse url with
    | Some err => Err err
    | None =>
      Ok {| Req_ctx := ctx; Req_Method := method; Req_URL := url;
            Req_Header := ∅; Req_Body := body |}
    end
  end.

(** *** [TTS] *)
Definition TTS (c : Client) (ctx : Context) (req : TTSRequest)
  : M (TTSResponse * option error) :=
  match json_Marshal (TTSRequest_fields req) with
  | Err err => mret (TTSResponse_Error (fmt_Errorf_w "请求序列化失败: " err), None)
  | Ok jsonData =>
    let url := BaseURL c +:+ "/tts" in
    match http_NewRequestWithContext ctx MethodPost url (Some jsonData) with
    | Err err => mret (TTSResponse_Error (fmt_Errorf_w "创建请求失败: " err), None)
    | Ok httpReq =>
      let httpReq := Header_Set httpReq "Content-Type" "application/json" in
      resp ← HTTPClient_Do c httpReq;
      match resp with
      | Err err => mret (TTSResponse_Error (fmt_Errorf_w "请求失败: " err), None)
      | Ok resp =>
        match io_ReadAll (Resp_Body resp) with
        | (_, Some err) =>
          mret (TTSResponse_Error (fmt_Errorf_w "读取响应体失败: " err), None)
        | (audioData, None) =>
          mret ({| StatusCode := Resp_StatusCode resp;
                   AudioData := audioData;
                   Error := None |}, None)
        end
      end
    end
  end.

(** The composite literal of [TTSSimple]; the fields it does not name keep
    their zero values. *)
Definition TTSSimple_request (text textLang refAudioPath promptLang promptText : string)
  : TTSRequest :=
  {| Text := text;
     TextLang := textLang;
     RefAudioPath := refAudioPath;
     AuxRefAudioPaths := None;
     PromptText := promptText;
     PromptLang := promptLang;
     TopK := 0; TopP := 0; Temperature := 0;
     TextSplitMethod := "cut5";
     BatchSize := 1;
     BatchThreshold := 0; SplitBucket := false; SpeedFactor := 0;
     FragmentInterval := 0; Seed := 0;
     MediaType := "wav";
     StreamingMode := false;
     ParallelInfer := false; RepetitionPenalty := 0; SampleSteps := 0;
     SuperSampling := false |}.

(** *** [TTSSimple] *)
Definition TTSSimple (c : Client) (ctx : Context)
    (text textLang refAudioPath promptLang promptText : string)
  : M (TTSResponse * option error) :=
  let req := TTSSimple_request text textLang refAudioPath promptLang promptText in
  TTS c ctx req.

(** *** [Control] *)
Definition Control (c : Client) (ctx : Context) (command : string) : M (option error) :=
  let controlReq := {| Command := command |} in
  match json_Marshal (ControlRequest_fields controlReq) with
  | Err err => mret (Some (fmt_Errorf_w "控制请求序列化失败: " err))
  | Ok jsonData =>
    let url := BaseURL c +:+ "/control" in
    match http_NewRequestWithContext ctx MethodPost url (Some jsonData) with
    | Err err => mret (Some (fmt_Errorf_w "创建控制请求失败: " err))
    | Ok httpReq =>
      let httpReq := Header_Set httpReq "Content-Type" "application/json" in
      resp ← HTTPClient_Do c httpReq;
      match resp with
      | Err err => mret (Some (fmt_Errorf_w "控制请求失败: " err))
      | Ok resp =>
        if negb (Resp_StatusCode resp =? http_StatusOK)
           && negb (Resp_StatusCode resp =? http_StatusNoContent)
        then
          let body := fst (io_ReadAll (Resp_Body resp)) in
          mret (Some (fmt_Errorf_d_s "控制请求失败，状态码 "
                        (Resp_StatusCode resp) (string_of_bytes body)))
        else mret None
      end
    end
  end.

(** *** [SetGPTWeights] *)
Definition SetGPTWeights (c : Client) (ctx : Context) (weightsPath : string)
  : M (option error) :=
  let weightsReq := {| WeightsPath := weightsPath |} in
  match json_Marshal (SetWeightsRequest_fields weightsReq) with
  | Err err => mret (Some (fmt_Errorf_w "权重请求序列化失败: " err))
  | Ok jsonData =>
    let url := BaseURL c +:+ "/set_gpt_weights" in
    match http_NewRequestWithContext ctx MethodPost url (Some jsonData) with
    | Err err => mret (Some (fmt_Errorf_w "创建权重请求失败: " err))
    | Ok httpReq =>
      let httpReq := Header_Set httpReq "Content-Type" "application/json" in
      resp ← HTTPClient_Do c httpReq;
      match resp with
      | Err err => mret (Some (fmt_Errorf_w "设置GPT权重请求失败: " err))
      | Ok resp =>
        if negb (Resp_StatusCode resp =? http_StatusOK)
        then
          let body := fst (io_ReadAll (Resp_Body resp)) in
          mret (Some (fmt_Errorf_d_s "设置GPT权重失败，状态码 "
                        (Resp_StatusCode resp) (string_of_bytes body)))
        else mret None
      end
    end
  end.

(** *** [SetSoVITSWeights] *)
Definition SetSoVITSWeights (c : Client) (ctx : Context) (weightsPath : string)
  : M (option error) :=
  let weightsReq := {| WeightsPath := weightsPath |} in
  match json_Marshal (SetWeightsRequest_fields weightsReq) with
  | Err err => mret (Some (fmt_Errorf_w "权重请求序列化失败: " err))
  | Ok jsonData =>
    let url := BaseURL c +:+ "/set_sovits_weights" in
    match http_NewRequestWithContext ctx MethodPost url (Some jsonData) with
    | Err err => mret (Some (fmt_Errorf_w "创建权重请求失败: " err))
    | Ok httpReq =>
      let httpReq := Header_Set httpReq "Content-Type" "application/json" in
      resp ← HTTPClient_Do c httpReq;
      match resp with
      | Err err => mret (Some (fmt_Errorf_w "设置SoVITS权重请求失败: " err))
      | Ok resp =>
        if negb (Resp_StatusCode resp =? http_StatusOK)
        then
          let body := fst (io_ReadAll (Resp_Body resp)) in
          mret (Some (fmt_Errorf_d_s "设置SoVITS权重失败，状态码 "
                        (Resp_StatusCode resp) (string_of_bytes body)))
        else mret None
      end
    end
  end.

(** *** [GetTTSWithURLParams]

    The body of the method for one visiting sequence of [params]. *)
Definition GetTTSWithURLParams_visiting (c : Client) (ctx : Context)
    (visited : list (string * string)) : M (TTSResponse * option error) :=
  let url := BaseURL c +:+ "/tts" in
  let query := build_query visited in
  let url := url +:+ query in
  match http_NewRequestWithContext ctx MethodGet url None with
  | Err err => mret (TTSResponse_Error (fmt_Errorf_w "创建请求失败: " err), None)
  | Ok httpReq =>
    resp ← HTTPClient_Do c httpReq;
    match resp with
    | Err err => mret (TTSResponse_Error (fmt_Errorf_w "请求失败: " err), None)
    | Ok resp =>
      match io_ReadAll (Resp_Body resp) with
      | (_, Some err) =>
        mret (TTSResponse_Error (fmt_Errorf_w "读取响应体失败: " err), None)
      | (audioData, None) =>
        mret ({| StatusCode := Resp_StatusCode resp;
                 AudioData := audioData;
                 Error := None |}, None)
      end
    end
  end.

(** The method itself: from the log [log] it can end with [out] when some
    visiting sequence of [params] leads there. *)
Definition GetTTSWithURLParams (c : Client) (ctx : Context)
    (params : gmap string string) (log : list http_Request)
    (out : (TTSResponse * option error) * list http_Request) : Prop :=
  exists visited, map_range params visited /\
                  GetTTSWithURLParams_visiting c ctx visited log = out.

(** *** [ControlWithGet] *)
Definition ControlWithGet (c : Client) (ctx : Context) (command : string)
  : M (option error) :=
  let url := BaseURL c +:+ "/control?command=" +:+ command in
  match http_NewRequestWithContext ctx MethodGet url None with
  | Err err => mret (Some (fmt_Errorf_w "创建控制请求失败: " err))
  | Ok httpReq =>
    resp ← HTTPClient_Do c httpReq;
    match resp with
    | Err err => mret (Some (fmt_Errorf_w "控制请求失败: " err))
    | Ok resp =>
      if negb (Resp_StatusCode resp =? http_StatusOK)
         && negb (Resp_StatusCode resp =? http_StatusNoContent)
      then
        let body := fst (io_ReadAll (Resp_Body resp)) in
        mret (Some (fmt_Errorf_d_s "控制请求失败，状态码 "
                      (Resp_StatusCode resp) (string_of_bytes body)))
      else mret None
    end
  end.

(** *** [SetGPTWeightsWithGet] *)
Definition SetGPTWeightsWithGet (c : Client) (ctx : Context) (weightsPath : string)
  : M (option error) :=
  let url := BaseURL c +:+ "/set_gpt_weights?weights_path=" +:+ weightsPath in
  match http_NewRequestWithContext ctx MethodGet url None with
  | Err err => mret (Some (fmt_Errorf_w "创建权重请求失败: " err))
  | Ok httpReq =>
    resp ← HTTPClient_Do c httpReq;
    match resp with
    | Err err => mret (Some (fmt_Errorf_w "设置GPT权重请求失败: " err))
    | Ok resp =>
      if negb (Resp_StatusCode resp =? http_StatusOK)
      then
        let body := fst (io_ReadAll (Resp_Body resp)) in
        mret (Some (fmt_Errorf_d_s "设置GPT权重失败，状态码 "
                      (Resp_StatusCode resp) (string_of_bytes body)))
      else mret None
    end
  end.

(** *** [SetSoVITSWeightsWithGet] *)
Definition SetSoVITSWeightsWithGet (c : Client) (ctx : Context) (weightsPath : string)
  : M (option error) :=
  let url := BaseURL c +:+ "/set_sovits_weights?weights_path=" +:+ weightsPath in
  match http_NewRequestWithContext ctx MethodGet url None with
  | Err err => mret (Some (fmt_Errorf_w "创建权重请求失败: " err))
  | Ok httpReq =>
    resp ← HTTPClient_Do c httpReq;
    match resp with
    | Err err => mret (Some (fmt_Errorf_w "设置SoVITS权重请求失败: " err))
    | Ok resp =>
      if negb (Resp_StatusCode resp =? http_StatusOK)
      then
        let body := fst (io_ReadAll (Resp_Body resp)) in
        mret (Some (fmt_Errorf_d_s "设置SoVITS权重失败，状态码 "
                      (Resp_StatusCode resp) (string_of_bytes body)))
      else mret None
    end
  end.

(** The status codes [Control] and [ControlWithGet] accept, and the one
    the weight methods accept. *)
Definition accept_200_204 (sc : Z) : bool :=
  (sc =? http_StatusOK) || (sc =? http_StatusNoContent).

Definition accept_200 (sc : Z) : bool := sc =? http_StatusOK.

(** The common shape of the six methods that return an [error]: build
    the request, send it, check the status code.  It is what each of them
    is shown to compute, see the [_run] lemmas. *)
Definition exchange (c : Client) (ctx : Context) (method : Method) (url : string)
    (body : option json) (sent : http_Request)
    (on_new on_do on_status : string) (accept : Z -> bool)
    (log : list http_Request) : option error * list http_Request :=
  match http_NewRequestWithContext ctx method url body with
  | Err err => (Some (fmt_Errorf_w on_new err), log)
  | Ok _ =>
    (match HTTPClient c sent with
     | Err err => Some (fmt_Errorf_w on_do err)
     | Ok resp => status_error accept on_status resp
     end, (log ++ [sent])%list)
  end.


(** The error of [http.NewRequestWithContext] for a context and a URL,
    if any: the method and the body play no part in it. *)
Definition build_error (ctx : Context) (url : string) : option error :=
  match ctx with
  | nil_Context => Some (errorString "net/http: nil Context")
  | a_Context _ => url_Parse url
  end.

(** [TTS] and [GetTTSWithURLParams] once the request is built: what they
    return is read off the answer of the client. *)
Definition TTS_outcome (r : result http_Response) : TTSResponse * option error :=
  match r with
  | Err err => (TTSResponse_Error (fmt_Errorf_w "请求失败: " err), None)
  | Ok resp =>
    match rc_err (Resp_Body resp) with
    | Some err => (TTSResponse_Error (fmt_Errorf_w "读取响应体失败: " err), None)
    | None => ({| StatusCode := Resp_StatusCode resp;
                  AudioData := rc_data (Resp_Body resp);
                  Error := None |}, None)
    end
  end.

(** * Properties *)

(** ** The log *)

Lemma log_grows_ne (log : list http_Request) (r : http_Request) :
  (log ++ [r])%list <> log.
Proof.
  intros H. apply (f_equal (@List.length _)) in H.
  rewrite length_app in H. simpl in H. lia.
Qed.

Lemma log_last_inj (log : list http_Request) (r r' : http_Request) :
  (log ++ [r])%list = (log ++ [r'])%list -> r = r'.
Proof. intros H. apply app_inv_head in H. congruence. Qed.

Lemma not_answered_unsent (c : Client) (log : list http_Request) (resp : http_Response) :
  ~ answered c log log resp.
Proof. intros [r [H _]]. symmetry in H. exact (log_grows_ne _ _ H). Qed.

Lemma answered_sent (c : Client) (log : list http_Request) (r : http_Request)
    (resp : http_Response) :
  answered c log (log ++ [r])%list resp <-> HTTPClient c r = Ok resp.
Proof.
  split.
  - intros [r' [H1 H2]]. apply log_last_inj in H1. subst r'. exact H2.
  - intros H. exists r. split; [reflexivity | exact H].
Qed.

(** ** Building requests *)

Lemma NewRequest_nil (method : Method) (url : string) (body : option json) :
  http_NewRequestWithContext nil_Context method url body
  = Err (errorString "net/http: nil Context").
Proof. reflexivity. Qed.

Lemma NewRequest_ok (id : nat) (method : Method) (url : string) (body : option json) :
  url_Parse url = None ->
  http_NewRequestWithContext (a_Context id) method url body
  = Ok {| Req_ctx := a_Context id; Req_Method := method; Req_URL := url;
          Req_Header := ∅; Req_Body := body |}.
Proof. intros H. unfold http_NewRequestWithContext. rewrite H. reflexivity. Qed.

Lemma NewRequest_inv (ctx : Context) (method : Method) (url : string)
    (body : option json) (r : http_Request) :
  http_NewRequestWithContext ctx method url body = Ok r ->
  r = {| Req_ctx := ctx; Req_Method := method; Req_URL := url;
         Req_Header := ∅; Req_Body := body |}.
Proof.
  unfold http_NewRequestWithContext.
  destruct ctx; [discriminate |].
  destruct (url_Parse url); [discriminate |].
  intros H. injection H as <-. reflexivity.
Qed.

Lemma post_request_built (ctx : Context) (url : string) (body : json) (r : http_Request) :
  http_NewRequestWithContext ctx MethodPost url (Some body) = Ok r ->
  Header_Set r "Content-Type" "application/json" = post_request ctx url body.
Proof. intros H. apply NewRequest_inv in H. subst r. reflexivity. Qed.

Lemma get_request_built (ctx : Context) (url : string) (r : http_Request) :
  http_NewRequestWithContext ctx MethodGet url None = Ok r ->
  r = get_request ctx url.
Proof. intros H. apply NewRequest_inv in H. exact H. Qed.

(** ** The methods that return a [TTSResponse] *)

Ltac run_M := unfold mbind, M_bind, mret, M_ret, HTTPClient_Do; simpl.

(** [TTS], stage by stage. *)
Lemma TTS_run (c : Client) (ctx : Context) (req : TTSRequest) (log : list http_Request) :
  TTS c ctx req log =
  match json_Marshal (TTSRequest_fields req) with
  | Err err => (TTSResponse_Error (fmt_Errorf_w "请求序列化失败: " err), None, log)
  | Ok jsonData =>
    match http_NewRequestWithContext ctx MethodPost (BaseURL c +:+ "/tts") (Some jsonData) with
    | Err err => (TTSResponse_Error (fmt_Errorf_w "创建请求失败: " err), None, log)
    | Ok _ =>
      let sent := post_request ctx (BaseURL c +:+ "/tts") jsonData in
      (match HTTPClient c sent with
       | Err err => (TTSResponse_Error (fmt_Errorf_w "请求失败: " err), None)
       | Ok resp =>
         match rc_err (Resp_Body resp) with
         | Some err => (TTSResponse_Error (fmt_Errorf_w "读取响应体失败: " err), None)
         | None => ({| StatusCode := Resp_StatusCode resp;
                       AudioData := rc_data (Resp_Body resp);
                       Error := None |}, None)
         end
       end, (log ++ [sent])%list)
    end
  end.
Proof.
  unfold TTS.
  destruct (json_Marshal (TTSRequest_fields req)) as [j | e]; [| reflexivity].
  destruct (http_NewRequestWithContext ctx MethodPost (BaseURL c +:+ "/tts") (Some j))
    as [r | e] eqn:Hnew; [| reflexivity].
  run_M. rewrite (post_request_built _ _ _ _ Hnew).
  destruct (HTTPClient c _) as [resp | e]; [| reflexivity].
  unfold io_ReadAll. destruct (rc_err (Resp_Body resp)); reflexivity.
Qed.

(** [GetTTSWithURLParams] for one visiting sequence, stage by stage. *)
Lemma GetTTSWithURLParams_run (c : Client) (ctx : Context)
    (visited : list (string * string)) (log : list http_Request) :
  GetTTSWithURLParams_visiting c ctx visited log =
  let url := (BaseURL c +:+ "/tts") +:+ build_query visited in
  match http_NewRequestWithContext ctx MethodGet url None with
  | Err err => (TTSResponse_Error (fmt_Errorf_w "创建请求失败: " err), None, log)
  | Ok _ =>
    let sent := get_request ctx url in
    (match HTTPClient c sent with
     | Err err => (TTSResponse_Error (fmt_Errorf_w "请求失败: " err), None)
     | Ok resp =>
       match rc_err (Resp_Body resp) with
       | Some err => (TTSResponse_Error (fmt_Errorf_w "读取响应体失败: " err), None)
       | None => ({| StatusCode := Resp_StatusCode resp;
                     AudioData := rc_data (Resp_Body resp);
                     Error := None |}, None)
       end
     end, (log ++ [sent])%list)
  end.
Proof.
  unfold GetTTSWithURLParams_visiting. cbv zeta.
  destruct (http_NewRequestWithContext ctx MethodGet _ None) as [r | e] eqn:Hnew;
    [| reflexivity].
  run_M. rewrite (get_request_built _ _ _ Hnew).
  destruct (HTTPClient c _) as [resp | e]; [| reflexivity].
  unfold io_ReadAll. destruct (rc_err (Resp_Body resp)); reflexivity.
Qed.






(** ** Strings *)

Lemma string_app_nil_r (s : string) : s +:+ "" = s.
Proof.
  induction s as [| a s IH]; [reflexivity |].
  change (String a (s +:+ "") = String a s). rewrite IH. reflexivity.
Qed.

Lemma string_app_assoc (s1 s2 s3 : string) :
  (s1 +:+ s2) +:+ s3 = s1 +:+ (s2 +:+ s3).
Proof.
  induction s1 as [| a s1 IH]; [reflexivity |].
  change (String a ((s1 +:+ s2) +:+ s3) = String a (s1 +:+ (s2 +:+ s3))).
  rewrite IH. reflexivity.
Qed.

Lemma contains_status_code (prefix : string) (code : Z) (body : string) :
  contains (Error_msg (fmt_Errorf_d_s prefix code body)) (fmt_d code).
Proof. exists prefix, (": " +:+ body). reflexivity. Qed.

Lemma contains_body (prefix : string) (code : Z) (body : string) :
  contains (Error_msg (fmt_Errorf_d_s prefix code body)) body.
Proof.
  exists (prefix +:+ fmt_d code +:+ ": "), "".
  unfold fmt_Errorf_d_s, Error_msg.
  rewrite string_app_nil_r, !string_app_assoc. reflexivity.
Qed.

(** ** The methods that return an [error] *)

Lemma sends_only_impl (P Q : http_Request -> Prop) (log log' : list http_Request) :
  (forall r, P r -> Q r) -> sends_only P log log' -> sends_only Q log log'.
Proof.
  intros HPQ [H | [r [H1 H2]]]; [left; exact H | right].
  exists r. split; [exact H1 | exact (HPQ r H2)].
Qed.

Lemma exchange_sends_only c ctx method url body sent on_new on_do on_status accept log :
  sends_only (fun r => r = sent) log
    (snd (exchange c ctx method url body sent on_new on_do on_status accept log)).
Proof.
  unfold exchange. destruct (http_NewRequestWithContext ctx method url body); simpl.
  - right. exists sent. split; reflexivity.
  - left. reflexivity.
Qed.

Lemma status_error_outcome (accept : Z -> bool) (accepted : Z -> Prop)
    (prefix : string) (resp : http_Response) :
  (forall sc, accept sc = true <-> accepted sc) ->
  status_outcome accepted resp (status_error accept prefix resp).
Proof.
  intros Hacc. unfold status_outcome, status_error.
  destruct (accept (Resp_StatusCode resp)) eqn:Ha.
  - split; [| discriminate].
    split; [intros _; apply Hacc; exact Ha | reflexivity].
  - split.
    + split; [discriminate |].
      intros H. apply Hacc in H. congruence.
    + intros e He. injection He as <-. simpl.
      split; [apply contains_status_code | apply contains_body].
Qed.

Lemma accept_200_204_spec (sc : Z) : accept_200_204 sc = true <-> sc = 200 \/ sc = 204.
Proof.
  unfold accept_200_204, http_StatusOK, http_StatusNoContent.
  rewrite orb_true_iff, !Z.eqb_eq. reflexivity.
Qed.

Lemma accept_200_spec (sc : Z) : accept_200 sc = true <-> sc = 200.
Proof. unfold accept_200, http_StatusOK. apply Z.eqb_eq. Qed.

Ltac run_exchange Hnew :=
  unfold exchange;
  match goal with
  | |- context [http_NewRequestWithContext ?ctx ?m ?u ?b] =>
    destruct (http_NewRequestWithContext ctx m u b) as [r | e] eqn:Hnew;
    [| reflexivity]
  end;
  run_M;
  first [ rewrite (post_request_built _ _ _ _ Hnew)
        | rewrite (get_request_built _ _ _ Hnew) ];
  match goal with
  | |- context [HTTPClient ?c ?r] =>
    destruct (HTTPClient c r) as [resp | e']; [| reflexivity]
  end;
  unfold status_error, accept_200_204, accept_200;
  repeat match goal with
         | |- context [?a =? ?b] => destruct (a =? b)
         end;
  reflexivity.

Lemma Control_run (c : Client) (ctx : Context) (command : string) (log : list http_Request) :
  Control c ctx command log =
  let url := BaseURL c +:+ "/control" in
  let body := JObject [("command", JString (utf8_coerce command))] in
  exchange c ctx MethodPost url (Some body) (post_request ctx url body)
    "创建控制请求失败: " "控制请求失败: " "控制请求失败，状态码 " accept_200_204 log.
Proof. unfold Control. cbn [json_Marshal ControlRequest_fields json_encode_fields json_encode_value Command]. cbv zeta. run_exchange Hnew. Qed.

Lemma ControlWithGet_run (c : Client) (ctx : Context) (command : string)
    (log : list http_Request) :
  ControlWithGet c ctx command log =
  let url := BaseURL c +:+ "/control?command=" +:+ command in
  exchange c ctx MethodGet url None (get_request ctx url)
    "创建控制请求失败: " "控制请求失败: " "控制请求失败，状态码 " accept_200_204 log.
Proof. unfold ControlWithGet. cbv zeta. run_exchange Hnew. Qed.

Ltac marshal_weights :=
  cbn [json_Marshal SetWeightsRequest_fields json_encode_fields json_encode_value
       WeightsPath]; cbv zeta.

Lemma SetGPTWeights_run (c : Client) (ctx : Context) (weightsPath : string)
    (log : list http_Request) :
  SetGPTWeights c ctx weightsPath log =
  let url := BaseURL c +:+ "/set_gpt_weights" in
  let body := JObject [("weights_path", JString (utf8_coerce weightsPath))] in
  exchange c ctx MethodPost url (Some body) (post_request ctx url body)
    "创建权重请求失败: " "设置GPT权重请求失败: " "设置GPT权重失败，状态码 " accept_200 log.
Proof. unfold SetGPTWeights. marshal_weights. run_exchange Hnew. Qed.

Lemma SetSoVITSWeights_run (c : Client) (ctx : Context) (weightsPath : string)
    (log : list http_Request) :
  SetSoVITSWeights c ctx weightsPath log =
  let url := BaseURL c +:+ "/set_sovits_weights" in
  let body := JObject [("weights_path", JString (utf8_coerce weightsPath))] in
  exchange c ctx MethodPost url (Some body) (post_request ctx url body)
    "创建权重请求失败: " "设置SoVITS权重请求失败: " "设置SoVITS权重失败，状态码 "
    accept_200 log.
Proof. unfold SetSoVITSWeights. marshal_weights. run_exchange Hnew. Qed.

Lemma SetGPTWeightsWithGet_run (c : Client) (ctx : Context) (weightsPath : string)
    (log : list http_Request) :
  SetGPTWeightsWithGet c ctx weightsPath log =
  let url := BaseURL c +:+ "/set_gpt_weights?weights_path=" +:+ weightsPath in
  exchange c ctx MethodGet url None (get_request ctx url)
    "创建权重请求失败: " "设置GPT权重请求失败: " "设置GPT权重失败，状态码 " accept_200 log.
Proof. unfold SetGPTWeightsWithGet. cbv zeta. run_exchange Hnew. Qed.

Lemma SetSoVITSWeightsWithGet_run (c : Client) (ctx : Context) (weightsPath : string)
    (log : list http_Request) :
  SetSoVITSWeightsWithGet c ctx weightsPath log =
  let url := BaseURL c +:+ "/set_sovits_weights?weights_path=" +:+ weightsPath in
  exchange c ctx MethodGet url None (get_request ctx url)
    "创建权重请求失败: " "设置SoVITS权重请求失败: " "设置SoVITS权重失败，状态码 "
    accept_200 log.
Proof. unfold SetSoVITSWeightsWithGet. cbv zeta. run_exchange Hnew. Qed.

Lemma exchange_sent c id method url body sent on_new on_do on_status accept log :
  url_Parse url = None ->
  exchange c (a_Context id) method url body sent on_new on_do on_status accept log
  = (match HTTPClient c sent with
     | Err err => Some (fmt_Errorf_w on_do err)
     | Ok resp => status_error accept on_status resp
     end, (log ++ [sent])%list).
Proof.
  intros H. unfold exchange. rewrite (NewRequest_ok _ _ _ _ H). reflexivity.
Qed.

Lemma exchange_answer c id method url body sent on_new on_do on_status accept
    (accepted : Z -> Prop) log resp :
  (forall sc, accept sc = true <-> accepted sc) ->
  url_Parse url = None ->
  HTTPClient c sent = Ok resp ->
  snd (exchange c (a_Context id) method url body sent
         on_new on_do on_status accept log) = (log ++ [sent])%list /\
  status_outcome accepted resp
    (fst (exchange c (a_Context id) method url body sent
            on_new on_do on_status accept log)).
Proof.
  intros Hacc Hurl Hdo. rewrite (exchange_sent _ _ _ _ _ _ _ _ _ _ _ Hurl), Hdo.
  split; [reflexivity |]. apply status_error_outcome. exact Hacc.
Qed.

(** C4. With a context that is not nil and a URL that [url.Parse]
    accepts, [Control] sends the POST of [{"command": command}] to
    [{base}/control] and [ControlWithGet] the GET of
    [{base}/control?command=...]; whatever the server answers to that
    request, the method returns nil if and only if the status code is 200
    or 204, and for any other status code an error whose message contains
    the status code and the text of the response body. *)
Theorem Control_succeeds_iff_status_200_or_204
    (c : Client) (id : nat) (command : string)
    (log : list http_Request) (resp : http_Response) :
  (let sent :=
     post_request (a_Context id) (BaseURL c +:+ "/control")
       (JObject [("command", JString (utf8_coerce command))]) in
   url_Parse (BaseURL c +:+ "/control") = None ->
   HTTPClient c sent = Ok resp ->
   snd (Control c (a_Context id) command log) = (log ++ [sent])%list /\
   status_outcome (fun sc => sc = 200 \/ sc = 204) resp
     (fst (Control c (a_Context id) command log))) /\
  (let sent :=
     get_request (a_Context id) (BaseURL c +:+ "/control?command=" +:+ command) in
   url_Parse (BaseURL c +:+ "/control?command=" +:+ command) = None ->
   HTTPClient c sent = Ok resp ->
   snd (ControlWithGet c (a_Context id) command log) = (log ++ [sent])%list /\
   status_outcome (fun sc => sc = 200 \/ sc = 204) resp
     (fst (ControlWithGet c (a_Context id) command log))).
Proof.
  split; cbv zeta; intros Hurl Hdo.
  - rewrite Control_run. cbv zeta.
    exact (exchange_answer _ _ _ _ _ _ _ _ _ _ _ _ _ accept_200_204_spec Hurl Hdo).
  - rewrite ControlWithGet_run. cbv zeta.
    exact (exchange_answer _ _ _ _ _ _ _ _ _ _ _ _ _ accept_200_204_spec Hurl Hdo).
Qed.

(** C5. With a context that is not nil and a URL that [url.Parse]
    accepts, [SetGPTWeights] and [SetSoVITSWeights] send the POST of
    [{"weights_path": path}] to their endpoint and
    [SetGPTWeightsWithGet] and [SetSoVITSWeightsWithGet] the GET with the
    query [weights_path=...]; whatever the server answers to that request,
    the method returns nil if and only if the status code is exactly 200,
    and otherwise (for 400 with the body [{"error":"file not found"}] as
    for 204) an error whose message contains the status code and the text
    of the response body. *)
Theorem SetWeights_succeeds_iff_status_200
    (c : Client) (id : nat) (weightsPath : string)
    (log : list http_Request) (resp : http_Response) :
  let body := JObject [("weights_path", JString (utf8_coerce weightsPath))] in
  (let sent := post_request (a_Context id) (BaseURL c +:+ "/set_gpt_weights") body in
   url_Parse (BaseURL c +:+ "/set_gpt_weights") = None ->
   HTTPClient c sent = Ok resp ->
   snd (SetGPTWeights c (a_Context id) weightsPath log) = (log ++ [sent])%list /\
   status_outcome (fun sc => sc = 200) resp
     (fst (SetGPTWeights c (a_Context id) weightsPath log))) /\
  (let sent := post_request (a_Context id) (BaseURL c +:+ "/set_sovits_weights") body in
   url_Parse (BaseURL c +:+ "/set_sovits_weights") = None ->
   HTTPClient c sent = Ok resp ->
   snd (SetSoVITSWeights c (a_Context id) weightsPath log) = (log ++ [sent])%list /\
   status_outcome (fun sc => sc = 200) resp
     (fst (SetSoVITSWeights c (a_Context id) weightsPath log))) /\
  (let url := BaseURL c +:+ "/set_gpt_weights?weights_path=" +:+ weightsPath in
   url_Parse url = None ->
   HTTPClient c (get_request (a_Context id) url) = Ok resp ->
   snd (SetGPTWeightsWithGet c (a_Context id) weightsPath log)
   = (log ++ [get_request (a_Context id) url])%list /\
   status_outcome (fun sc => sc = 200) resp
     (fst (SetGPTWeightsWithGet c (a_Context id) weightsPath log))) /\
  (let url := BaseURL c +:+ "/set_sovits_weights?weights_path=" +:+ weightsPath in
   url_Parse url = None ->
   HTTPClient c (get_request (a_Context id) url) = Ok resp ->
   snd (SetSoVITSWeightsWithGet c (a_Context id) weightsPath log)
   = (log ++ [get_request (a_Context id) url])%list /\
   status_outcome (fun sc => sc = 200) resp
     (fst (SetSoVITSWeightsWithGet c (a_Context id) weightsPath log))).
Proof.
  cbv zeta. split; [| split; [| split]]; intros Hurl Hdo.
  - rewrite SetGPTWeights_run. cbv zeta.
    exact (exchange_answer _ _ _ _ _ _ _ _ _ _ _ _ _ accept_200_spec Hurl Hdo).
  - rewrite SetSoVITSWeights_run. cbv zeta.
    exact (exchange_answer _ _ _ _ _ _ _ _ _ _ _ _ _ accept_200_spec Hurl Hdo).
  - rewrite SetGPTWeightsWithGet_run. cbv zeta.
    exact (exchange_answer _ _ _ _ _ _ _ _ _ _ _ _ _ accept_200_spec Hurl Hdo).
  - rewrite SetSoVITSWeightsWithGet_run. cbv zeta.
    exact (exchange_answer _ _ _ _ _ _ _ _ _ _ _ _ _ accept_200_spec Hurl Hdo).
Qed.

(** ** What is sent *)

Lemma TTS_sends_only (c : Client) (ctx : Context) (req : TTSRequest)
    (log : list http_Request) :
  sends_only
    (fun r => exists jsonData,
         json_Marshal (TTSRequest_fields req) = Ok jsonData /\
         r = post_request ctx (BaseURL c +:+ "/tts") jsonData)
    log (snd (TTS c ctx req log)).
Proof.
  rewrite TTS_run.
  destruct (json_Marshal (TTSRequest_fields req)) as [j | e]; [| left; reflexivity].
  destruct (http_NewRequestWithContext _ _ _ _); [| left; reflexivity].
  right. eexists. split; [reflexivity |]. exists j. split; reflexivity.
Qed.

Lemma GetTTSWithURLParams_sends_only (c : Client) (ctx : Context)
    (visited : list (string * string)) (log : list http_Request) :
  sends_only
    (fun r => r = get_request ctx ((BaseURL c +:+ "/tts") +:+ build_query visited))
    log (snd (GetTTSWithURLParams_visiting c ctx visited log)).
Proof.
  rewrite GetTTSWithURLParams_run. cbv zeta.
  destruct (http_NewRequestWithContext _ _ _ _); [| left; reflexivity].
  right. eexists. split; reflexivity.
Qed.

Lemma post_request_headers (ctx : Context) (url : string) (body : json) :
  json_headers_only (post_request ctx url body).
Proof.
  unfold json_headers_only, post_request. simpl.
  split; [reflexivity |]. split; [apply lookup_singleton_eq |].
  split; [apply lookup_singleton_ne; discriminate |].
  intros key Hkey. apply lookup_singleton_ne. congruence.
Qed.

Lemma get_request_headers (ctx : Context) (url : string) :
  no_headers (get_request ctx url).
Proof.
  unfold no_headers, get_request. simpl.
  split; [reflexivity |]. split; [apply lookup_empty |].
  intros key. apply lookup_empty.
Qed.

Lemma sends_post (P : http_Request -> Prop) log log' :
  sends_only P log log' ->
  (forall r, P r -> exists ctx url body, r = post_request ctx url body) ->
  sends_only json_headers_only log log'.
Proof.
  intros Hs HP. apply (sends_only_impl P); [| exact Hs].
  intros r Hr. destruct (HP r Hr) as [ctx [url [body ->]]].
  apply post_request_headers.
Qed.

Lemma sends_get (P : http_Request -> Prop) log log' :
  sends_only P log log' ->
  (forall r, P r -> exists ctx url, r = get_request ctx url) ->
  sends_only no_headers log log'.
Proof.
  intros Hs HP. apply (sends_only_impl P); [| exact Hs].
  intros r Hr. destruct (HP r Hr) as [ctx [url ->]].
  apply get_request_headers.
Qed.

Ltac post_exchange :=
  cbv zeta; eapply sends_post; [apply exchange_sends_only |];
  intros r ->; eexists _, _, _; reflexivity.

Ltac get_exchange :=
  cbv zeta; eapply sends_get; [apply exchange_sends_only |];
  intros r ->; eexists _, _; reflexivity.

(** C1. When the request serializes to [jsonData], [url.Parse] accepts
    [{base}/tts] and the server answers the POST of [jsonData] to
    [{base}/tts] with [resp], whose body can be read, then [TTS] has sent
    exactly that POST request, and it returns a nil Go error and a
    [TTSResponse] with no [Error], whose [StatusCode] is the status code of
    [resp] and whose [AudioData] is the body of [resp], byte for byte,
    whatever the status code is. *)
Theorem TTS_returns_status_and_body_verbatim
    (c : Client) (id : nat) (req : TTSRequest) (log : list http_Request)
    (jsonData : json) (resp : http_Response) :
  json_Marshal (TTSRequest_fields req) = Ok jsonData ->
  url_Parse (BaseURL c +:+ "/tts") = None ->
  HTTPClient c (post_request (a_Context id) (BaseURL c +:+ "/tts") jsonData) = Ok resp ->
  rc_err (Resp_Body resp) = None ->
  TTS c (a_Context id) req log =
  ({| StatusCode := Resp_StatusCode resp;
      AudioData := rc_data (Resp_Body resp);
      Error := None |},
   None,
   (log ++ [post_request (a_Context id) (BaseURL c +:+ "/tts") jsonData])%list).
Proof.
  intros Hjson Hurl Hdo Hread.
  rewrite TTS_run, Hjson, (NewRequest_ok _ _ _ _ Hurl). cbv zeta.
  rewrite Hdo, Hread. reflexivity.
Qed.

(** The document [TTSSimple] serializes: the literal never fails to
    encode, its numbers being zero or one. *)
Lemma TTSSimple_request_marshal
    (text textLang refAudioPath promptLang promptText : string) :
  json_Marshal
    (TTSRequest_fields
       (TTSSimple_request text textLang refAudioPath promptLang promptText))
  = Ok (JObject
          [ ("text", JString (utf8_coerce text));
            ("text_lang", JString (utf8_coerce textLang));
            ("ref_audio_path", JString (utf8_coerce refAudioPath));
            ("aux_ref_audio_paths", JNull);
            ("prompt_text", JString (utf8_coerce promptText));
            ("prompt_lang", JString (utf8_coerce promptLang));
            ("top_k", JInt 0);
            ("top_p", JFloat 0);
            ("temperature", JFloat 0);
            ("text_split_method", JString "cut5");
            ("batch_size", JInt 1);
            ("batch_threshold", JFloat 0);
            ("split_bucket", JBool false);
            ("speed_factor", JFloat 0);
            ("fragment_interval", JFloat 0);
            ("seed", JInt 0);
            ("media_type", JString "wav");
            ("streaming_mode", JBool false);
            ("parallel_infer", JBool false);
            ("repetition_penalty", JFloat 0);
            ("sample_steps", JInt 0);
            ("super_sampling", JBool false) ]).
Proof. reflexivity. Qed.

(** C3. Whatever the five inputs are, [TTSSimple] is [TTS] on the request
    whose [TextSplitMethod] is "cut5", [BatchSize] is 1, [MediaType] is
    "wav" and [StreamingMode] is false, whose [Text], [TextLang],
    [RefAudioPath], [PromptLang] and [PromptText] are the inputs and whose
    other fields are zero.  With a context that is not nil and a URL that
    [url.Parse] accepts it sends that request: one POST to [{base}/tts]
    whose JSON body carries "cut5", 1, "wav" and false under the keys
    [text_split_method], [batch_size], [media_type] and [streaming_mode],
    and the inputs (coerced to valid UTF-8 by the encoder) under [text],
    [text_lang], [ref_audio_path], [prompt_lang] and [prompt_text]. *)
Theorem TTSSimple_fixed_defaults
    (c : Client) (ctx : Context)
    (text textLang refAudioPath promptLang promptText : string)
    (log : list http_Request) :
  TTSSimple c ctx text textLang refAudioPath promptLang promptText log
  = TTS c ctx
      {| Text := text; TextLang := textLang; RefAudioPath := refAudioPath;
         AuxRefAudioPaths := None; PromptText := promptText;
         PromptLang := promptLang; TopK := 0; TopP := 0; Temperature := 0;
         TextSplitMethod := "cut5"; BatchSize := 1; BatchThreshold := 0;
         SplitBucket := false; SpeedFactor := 0; FragmentInterval := 0;
         Seed := 0; MediaType := "wav"; StreamingMode := false;
         ParallelInfer := false; RepetitionPenalty := 0; SampleSteps := 0;
         SuperSampling := false |} log /\
  (forall id, ctx = a_Context id ->
     url_Parse (BaseURL c +:+ "/tts") = None ->
     exists body : json,
       snd (TTSSimple c ctx text textLang refAudioPath promptLang promptText log)
       = (log ++ [post_request ctx (BaseURL c +:+ "/tts") body])%list /\
       json_member "text_split_method" body = Some (JString "cut5") /\
       json_member "batch_size" body = Some (JInt 1) /\
       json_member "media_type" body = Some (JString "wav") /\
       json_member "streaming_mode" body = Some (JBool false) /\
       json_member "text" body = Some (JString (utf8_coerce text)) /\
       json_member "text_lang" body = Some (JString (utf8_coerce textLang)) /\
       json_member "ref_audio_path" body = Some (JString (utf8_coerce refAudioPath)) /\
       json_member "prompt_lang" body = Some (JString (utf8_coerce promptLang)) /\
       json_member "prompt_text" body = Some (JString (utf8_coerce promptText))).
Proof.
  split; [reflexivity |].
  intros id -> Hurl. eexists. split.
  - unfold TTSSimple. cbv zeta.
    rewrite TTS_run, TTSSimple_request_marshal, (NewRequest_ok _ _ _ _ Hurl).
    reflexivity.
  - repeat split.
Qed.

Lemma TTS_sends (c : Client) (id : nat) (req : TTSRequest) (jsonData : json)
    (log : list http_Request) :
  json_Marshal (TTSRequest_fields req) = Ok jsonData ->
  url_Parse (BaseURL c +:+ "/tts") = None ->
  snd (TTS c (a_Context id) req log)
  = (log ++ [post_request (a_Context id) (BaseURL c +:+ "/tts") jsonData])%list.
Proof.
  intros Hj Hurl. rewrite TTS_run, Hj, (NewRequest_ok _ _ _ _ Hurl). reflexivity.
Qed.

Lemma GetTTSWithURLParams_sends (c : Client) (id : nat)
    (visited : list (string * string)) (log : list http_Request) :
  url_Parse ((BaseURL c +:+ "/tts") +:+ build_query visited) = None ->
  snd (GetTTSWithURLParams_visiting c (a_Context id) visited log)
  = (log ++ [get_request (a_Context id)
               ((BaseURL c +:+ "/tts") +:+ build_query visited)])%list.
Proof.
  intros Hurl. rewrite GetTTSWithURLParams_run. cbv zeta.
  rewrite (NewRequest_ok _ _ _ _ Hurl). reflexivity.
Qed.

Lemma exchange_sends (P : http_Request -> Prop)
    c id method url body sent on_new on_do on_status accept log :
  url_Parse url = None -> P sent ->
  sends P log
    (snd (exchange c (a_Context id) method url body sent
            on_new on_do on_status accept log)).
Proof.
  intros Hurl HP. rewrite (exchange_sent _ _ _ _ _ _ _ _ _ _ _ Hurl).
  exists sent. split; [reflexivity | exact HP].
Qed.

(** C9. With a context that is not nil and a URL that [url.Parse]
    accepts, every POST method ([TTS] on a request that serializes,
    [TTSSimple], [Control], [SetGPTWeights], [SetSoVITSWeights]) sends one
    request, which has the header [Content-Type: application/json] and no
    other header, and every GET method sends one request without any
    header.  On every path, whatever the context and the URL, a method
    sends nothing else: no request with an [Authorization] header, nor
    with any other header that could carry credentials. *)
Theorem POST_sets_content_type_and_nothing_authenticates
    (c : Client) (ctx : Context) (log : list http_Request) :
  ((forall req,
       sends_only json_headers_only log (snd (TTS c ctx req log))) /\
   (forall text textLang refAudioPath promptLang promptText,
       sends_only json_headers_only log
         (snd (TTSSimple c ctx text textLang refAudioPath promptLang promptText log))) /\
   (forall command,
       sends_only json_headers_only log (snd (Control c ctx command log))) /\
   (forall weightsPath,
       sends_only json_headers_only log (snd (SetGPTWeights c ctx weightsPath log))) /\
   (forall weightsPath,
       sends_only json_headers_only log (snd (SetSoVITSWeights c ctx weightsPath log))) /\
   (forall (params : gmap string string) out,
       GetTTSWithURLParams c ctx params log out ->
       sends_only no_headers log (snd out)) /\
   (forall command,
       sends_only no_headers log (snd (ControlWithGet c ctx command log))) /\
   (forall weightsPath,
       sends_only no_headers log (snd (SetGPTWeightsWithGet c ctx weightsPath log))) /\
   (forall weightsPath,
       sends_only no_headers log (snd (SetSoVITSWeightsWithGet c ctx weightsPath log))))
  /\
  (forall id, ctx = a_Context id ->
   (forall req jsonData,
       json_Marshal (TTSRequest_fields req) = Ok jsonData ->
       url_Parse (BaseURL c +:+ "/tts") = None ->
       sends json_headers_only log (snd (TTS c ctx req log))) /\
   (forall text textLang refAudioPath promptLang promptText,
       url_Parse (BaseURL c +:+ "/tts") = None ->
       sends json_headers_only log
         (snd (TTSSimple c ctx text textLang refAudioPath promptLang promptText log))) /\
   (forall command,
       url_Parse (BaseURL c +:+ "/control") = None ->
       sends json_headers_only log (snd (Control c ctx command log))) /\
   (forall weightsPath,
       url_Parse (BaseURL c +:+ "/set_gpt_weights") = None ->
       sends json_headers_only log (snd (SetGPTWeights c ctx weightsPath log))) /\
   (forall weightsPath,
       url_Parse (BaseURL c +:+ "/set_sovits_weights") = None ->
       sends json_headers_only log (snd (SetSoVITSWeights c ctx weightsPath log))) /\
   (forall (params : gmap string string) out,
       (forall visited, map_range params visited ->
          url_Parse ((BaseURL c +:+ "/tts") +:+ build_query visited) = None) ->
       GetTTSWithURLParams c ctx params log out ->
       sends no_headers log (snd out)) /\
   (forall command,
       url_Parse (BaseURL c +:+ "/control?command=" +:+ command) = None ->
       sends no_headers log (snd (ControlWithGet c ctx command log))) /\
   (forall weightsPath,
       url_Parse (BaseURL c +:+ "/set_gpt_weights?weights_path=" +:+ weightsPath) = None ->
       sends no_headers log (snd (SetGPTWeightsWithGet c ctx weightsPath log))) /\
   (forall weightsPath,
       url_Parse (BaseURL c +:+ "/set_sovits_weights?weights_path=" +:+ weightsPath)
       = None ->
       sends no_headers log (snd (SetSoVITSWeightsWithGet c ctx weightsPath log)))).
Proof.
  split.
  - assert (Htts : forall req,
               sends_only json_headers_only log (snd (TTS c ctx req log))).
    { intros req. eapply sends_post; [apply TTS_sends_only |].
      intros r [j [_ ->]]. eexists _, _, _. reflexivity. }
    split; [exact Htts |].
    split; [intros; unfold TTSSimple; apply Htts |].
    split; [intros; rewrite Control_run; post_exchange |].
    split; [intros; rewrite SetGPTWeights_run; post_exchange |].
    split; [intros; rewrite SetSoVITSWeights_run; post_exchange |].
    split.
    { intros params out [visited [_ <-]].
      eapply sends_get; [apply GetTTSWithURLParams_sends_only |].
      intros r ->. eexists _, _. reflexivity. }
    split; [intros; rewrite ControlWithGet_run; get_exchange |].
    split; [intros; rewrite SetGPTWeightsWithGet_run; get_exchange |].
    intros; rewrite SetSoVITSWeightsWithGet_run; get_exchange.
  - intros id ->.
    assert (Htts : forall req jsonData,
               json_Marshal (TTSRequest_fields req) = Ok jsonData ->
               url_Parse (BaseURL c +:+ "/tts") = None ->
               sends json_headers_only log (snd (TTS c (a_Context id) req log))).
    { intros req j Hj Hurl. rewrite (TTS_sends _ _ _ _ _ Hj Hurl).
      eexists. split; [reflexivity | apply post_request_headers]. }
    split; [exact Htts |].
    split.
    { intros text textLang refAudioPath promptLang promptText Hurl.
      unfold TTSSimple. cbv zeta.
      exact (Htts _ _ (TTSSimple_request_marshal _ _ _ _ _) Hurl). }
    split; [intros ? Hurl; rewrite Control_run; cbv zeta;
            apply exchange_sends; [exact Hurl | apply post_request_headers] |].
    split; [intros ? Hurl; rewrite SetGPTWeights_run; cbv zeta;
            apply exchange_sends; [exact Hurl | apply post_request_headers] |].
    split; [intros ? Hurl; rewrite SetSoVITSWeights_run; cbv zeta;
            apply exchange_sends; [exact Hurl | apply post_request_headers] |].
    split.
    { intros params out Hurl [visited [Hrange <-]].
      rewrite (GetTTSWithURLParams_sends _ _ _ _ (Hurl visited Hrange)).
      eexists. split; [reflexivity | apply get_request_headers]. }
    split; [intros ? Hurl; rewrite ControlWithGet_run; cbv zeta;
            apply exchange_sends; [exact Hurl | apply get_request_headers] |].
    split; [intros ? Hurl; rewrite SetGPTWeightsWithGet_run; cbv zeta;
            apply exchange_sends; [exact Hurl | apply get_request_headers] |].
    intros ? Hurl; rewrite SetSoVITSWeightsWithGet_run; cbv zeta;
      apply exchange_sends; [exact Hurl | apply get_request_headers].
Qed.

(** ** The query string *)

Lemma string_length_app (s t : string) :
  String.length (s +:+ t) = (String.length s + String.length t)%nat.
Proof.
  induction s as [| a s IH]; [reflexivity |].
  change (S (String.length (s +:+ t)) = S (String.length s + String.length t)).
  rewrite IH. reflexivity.
Qed.

Lemma substring_prefix (s t : string) :
  substring 0 (String.length s) (s +:+ t) = s.
Proof.
  induction s as [| a s IH].
  - destruct t; reflexivity.
  - change (String a (substring 0 (String.length s) (s +:+ t)) = String a s).
    rewrite IH. reflexivity.
Qed.

(** Dropping the last byte of a text that ends in [&]. *)
Lemma query_trim_amp (s : string) :
  s <> "" -> query_trim (s +:+ "&") = s.
Proof.
  intros Hs. unfold query_trim.
  rewrite string_length_app. simpl String.length.
  destruct s as [| a s]; [congruence |].
  replace (String.length (String a s) + 1 - 1)%nat
    with (String.length (String a s)) by lia.
  rewrite substring_prefix.
  destruct (1 <? String.length (String a s) + 1)%nat eqn:Hlt; [reflexivity |].
  apply Nat.ltb_ge in Hlt. simpl in Hlt. lia.
Qed.

(** The loop appends, to what it starts from, every pair followed by [&]. *)
Lemma query_loop_from (visited : list (string * string)) (acc : string) :
  fold_left (fun query kv => query +:+ fst kv +:+ "=" +:+ snd kv +:+ "&") visited acc
  = acc +:+ String.concat "" (map (fun kv => pair_text kv +:+ "&") visited).
Proof.
  revert acc. induction visited as [| kv rest IH]; intros acc.
  - simpl. rewrite string_app_nil_r. reflexivity.
  - simpl fold_left. rewrite IH. rewrite string_app_assoc. f_equal.
    unfold pair_text. simpl map.
    destruct rest as [| kv' rest'].
    + simpl. rewrite string_app_nil_r, !string_app_assoc. reflexivity.
    + cbn [String.concat map]. rewrite !string_app_assoc. reflexivity.
Qed.

Lemma concat_amp (kv : string * string) (rest : list (string * string)) :
  String.concat "" (map (fun kv => pair_text kv +:+ "&") (kv :: rest))
  = String.concat "&" (map pair_text (kv :: rest)) +:+ "&".
Proof.
  revert kv. induction rest as [| kv' rest IH]; intros kv.
  - reflexivity.
  - change (String.concat "" (map (fun kv => pair_text kv +:+ "&") (kv :: kv' :: rest)))
      with ((pair_text kv +:+ "&") +:+ "" +:+
            String.concat "" (map (fun kv => pair_text kv +:+ "&") (kv' :: rest))).
    change (String.concat "&" (map pair_text (kv :: kv' :: rest)))
      with (pair_text kv +:+ "&" +:+ String.concat "&" (map pair_text (kv' :: rest))).
    rewrite IH. rewrite !string_app_assoc. reflexivity.
Qed.

(** The query string is [?] followed by the pairs in the order visited,
    separated by [&]. *)
Lemma build_query_joined (visited : list (string * string)) :
  build_query visited = "?" +:+ String.concat "&" (map pair_text visited).
Proof.
  unfold build_query, query_loop. rewrite query_loop_from.
  destruct visited as [| kv rest]; [reflexivity |].
  rewrite concat_amp, <- string_app_assoc.
  apply query_trim_amp. discriminate.
Qed.

(** C7 (as amended). For every parameter mapping there is a run of
    [GetTTSWithURLParams], and every run builds the query string from
    some visiting sequence of the map: a permutation of its entries, each
    entry once.  The query string is [?] followed by the [key=value]
    texts of the entries in that sequence, joined by [&]; any request
    sent goes to [{base}/tts] followed by it, and with a context that is
    not nil and a URL that [url.Parse] accepts that request is sent.  The
    sequence need not be the insertion order: the entries "text" and
    "text_lang", inserted in this order, can be visited in the other. *)
Theorem query_lists_entries_in_range_order
    (c : Client) (ctx : Context) (params : gmap string string)
    (log : list http_Request) out :
  (GetTTSWithURLParams c ctx params log out ->
   exists visited : list (string * string),
     visited ≡ₚ map_to_list params /\
     build_query visited = "?" +:+ String.concat "&" (map pair_text visited) /\
     sends_only
       (fun r => Req_Method r = MethodGet /\
                 Req_URL r = (BaseURL c +:+ "/tts") +:+ "?" +:+
                             String.concat "&" (map pair_text visited))
       log (snd out) /\
     (forall id, ctx = a_Context id ->
        url_Parse ((BaseURL c +:+ "/tts") +:+ "?" +:+
                   String.concat "&" (map pair_text visited)) = None ->
        snd out
        = (log ++ [get_request ctx
                     ((BaseURL c +:+ "/tts") +:+ "?" +:+
                      String.concat "&" (map pair_text visited))])%list)) /\
  (exists run, GetTTSWithURLParams c ctx params log run) /\
  (exists inserted visited : list (string * string),
      inserted = [("text", "hi"); ("text_lang", "en")] /\
      map_range (map_of_inserts inserted) visited /\
      build_query visited = "?text_lang=en&text=hi" /\
      build_query visited <> "?" +:+ String.concat "&" (map pair_text inserted)).
Proof.
  split; [| split].
  - intros [visited [Hrange <-]]. exists visited.
    split; [exact Hrange |]. split; [apply build_query_joined |].
    split.
    + eapply sends_only_impl; [| apply GetTTSWithURLParams_sends_only].
      intros r ->. split; [reflexivity |]. simpl.
      rewrite build_query_joined. reflexivity.
    + intros id -> Hurl. rewrite <- build_query_joined in *.
      apply GetTTSWithURLParams_sends. exact Hurl.
  - exists (GetTTSWithURLParams_visiting c ctx (map_to_list params) log).
    exists (map_to_list params). split; [unfold map_range |]; reflexivity.
  - exists [("text", "hi"); ("text_lang", "en")], [("text_lang", "en"); ("text", "hi")].
    split; [reflexivity |]. split; [unfold map_range; vm_compute; reflexivity |].
    split; [reflexivity | vm_compute; discriminate].
Qed.

(** ** The command seen by the server *)

Lemma cut_app_absent (sep : ascii) (base rest : string) :
  forallb (fun a => negb (Ascii.eqb a sep)) (list_ascii_of_string base) = true ->
  cut sep (base +:+ rest) = (base +:+ fst (cut sep rest), snd (cut sep rest)).
Proof.
  induction base as [| a base IH]; intros H.
  - change ("" +:+ rest) with rest. destruct (cut sep rest); reflexivity.
  - simpl in H. apply andb_true_iff in H as [Ha Hbase].
    change (String a base +:+ rest) with (String a (base +:+ rest)).
    simpl cut. apply negb_true_iff in Ha. rewrite Ha, (IH Hbase). reflexivity.
Qed.

Lemma plain_base_no (sep : ascii) (base : string) :
  sep = "?"%char \/ sep = "#"%char ->
  plain_base base = true ->
  forallb (fun a => negb (Ascii.eqb a sep)) (list_ascii_of_string base) = true.
Proof.
  intros Hsep. unfold plain_base.
  induction base as [| a base IH]; [reflexivity |].
  simpl. rewrite !andb_true_iff. intros [[H1 H2] H3].
  split; [| exact (IH H3)].
  destruct Hsep as [-> | ->]; assumption.
Qed.

(** The query component of a URL made of a plain base and a tail. *)
Lemma url_query_plain_base (base tail : string) :
  plain_base base = true ->
  url_query (base +:+ tail) =
  match snd (cut "?" (fst (cut "#" tail))) with
  | Some q => q
  | None => ""
  end.
Proof.
  intros Hbase. unfold url_query.
  rewrite (cut_app_absent "#" base tail (plain_base_no _ _ (or_intror eq_refl) Hbase)).
  simpl fst.
  rewrite (cut_app_absent "?" base _ (plain_base_no _ _ (or_introl eq_refl) Hbase)).
  reflexivity.
Qed.

(** C6. For the commands "restart" and "exit", with a live context, a
    base URL without query and fragment, and URLs that [url.Parse]
    accepts, [Control] sends a POST to [{base}/control] and
    [ControlWithGet] a GET to [{base}/control?command=...], and the server
    observes the same value of the parameter [command] in both requests:
    the command itself. *)
Theorem control_command_same_by_POST_and_GET
    (c : Client) (id : nat) (command : string) (log : list http_Request) :
  command = "restart" \/ command = "exit" ->
  plain_base (BaseURL c) = true ->
  url_Parse (BaseURL c +:+ "/control") = None ->
  url_Parse (BaseURL c +:+ "/control?command=" +:+ command) = None ->
  exists post get : http_Request,
    snd (Control c (a_Context id) command log) = (log ++ [post])%list /\
    snd (ControlWithGet c (a_Context id) command log) = (log ++ [get])%list /\
    Req_Method post = MethodPost /\ Req_URL post = BaseURL c +:+ "/control" /\
    Req_Method get = MethodGet /\
    Req_URL get = BaseURL c +:+ "/control?command=" +:+ command /\
    server_observed "command" post = [command] /\
    server_observed "command" get = server_observed "command" post.
Proof.
  intros Hcmd Hbase Hpost Hget.
  rewrite Control_run, ControlWithGet_run. cbv zeta. unfold exchange.
  rewrite (NewRequest_ok _ _ _ _ Hpost), (NewRequest_ok _ _ _ _ Hget).
  eexists _, _. do 6 (split; [reflexivity |]).
  unfold server_observed, post_request, get_request. simpl.
  rewrite (url_query_plain_base _ _ Hbase).
  destruct Hcmd as [-> | ->]; split; reflexivity.
Qed.

(** ** JSON round trip *)

Lemma utf8_coerce_from_valid (s : string) :
  forall k, utf8_valid_from k s = true -> utf8_coerce_from k s = s.
Proof.
  induction s as [| b r IH]; intros k H; [reflexivity |].
  destruct k as [| k].
  - cbn [utf8_valid_from] in H. cbn [utf8_coerce_from].
    destruct (utf8_seq_len (String b r)) as [| k']; [discriminate |].
    rewrite (IH k' H). reflexivity.
  - cbn [utf8_valid_from] in H. cbn [utf8_coerce_from].
    rewrite (IH k H). reflexivity.
Qed.

(** A valid string passes through the coercion unchanged. *)
Lemma utf8_coerce_valid (s : string) :
  utf8_ValidString s = true -> utf8_coerce s = s.
Proof. apply utf8_coerce_from_valid. Qed.

Lemma decode_string_encoded (s old : string) :
  utf8_ValidString s = true ->
  decode_string (JString (utf8_coerce s)) old = Ok s.
Proof.
  intros H. unfold decode_string. rewrite !(utf8_coerce_valid s H). reflexivity.
Qed.

Lemma decode_strings_encoded (paths : list string) :
  forallb utf8_ValidString paths = true ->
  decode_strings (map (fun s => JString (utf8_coerce s)) paths) = Ok paths.
Proof.
  induction paths as [| s rest IH]; intros H; [reflexivity |].
  simpl in H. apply andb_true_iff in H as [Hs Hrest].
  cbn [map decode_strings]. rewrite (decode_string_encoded s "" Hs), (IH Hrest).
  reflexivity.
Qed.

Lemma decode_int_encoded (n old : Z) :
  int_in_range n = true -> decode_int (JInt n) old = Ok n.
Proof. intros H. unfold decode_int. rewrite H. reflexivity. Qed.

Lemma encode_float64_finite (f : float64) :
  negb (math_IsInfOrNaN f) = true -> json_encode_value (VFloat64 f) = Ok (JFloat f).
Proof.
  intros H. apply negb_true_iff in H. unfold json_encode_value. rewrite H. reflexivity.
Qed.

Lemma decode_slice_encoded (paths old : option (list string)) (j : json) :
  match paths with
  | None => true
  | Some l => forallb utf8_ValidString l
  end = true ->
  json_encode_value (VStringSlice paths) = Ok j ->
  decode_string_slice j old = Ok paths.
Proof.
  intros H Hj. destruct paths as [l |]; simpl in Hj; injection Hj as <-.
  - unfold decode_string_slice. rewrite (decode_strings_encoded l H). reflexivity.
  - reflexivity.
Qed.

Lemma decode_field_selected {A : Type} (dec : json -> A -> result A) (name : string)
    (members : list (string * json)) :
  forall cur,
    decode_field dec name members cur = decode_all dec (selected name members) cur.
Proof.
  induction members as [| [key v] rest IH]; intros cur; [reflexivity |].
  unfold selected. cbn [decode_field List.filter fst].
  destruct (key_selects name key).
  - cbn [map snd decode_all]. destruct (dec v cur); [apply IH | reflexivity].
  - apply IH.
Qed.

Lemma decode_all_one {A : Type} (dec : json -> A -> result A) (j : json) (cur a : A) :
  dec j cur = Ok a -> decode_all dec [j] cur = Ok a.
Proof. intros H. cbn [decode_all]. rewrite H. reflexivity. Qed.

Ltac eval_selected :=
  repeat match goal with
         | |- context [selected ?name ?ms] =>
           let v := eval vm_compute in (selected name ms) in
           change (selected name ms) with v
         end.

(** Decoding an object that has one member per field, under the tags of
    [TTSRequest], member by member. *)
Lemma Unmarshal_members (r : TTSRequest)
    (j1 j2 j3 j4 j5 j6 j7 j8 j9 j10 j11 j12 j13 j14 j15 j16 j17 j18 j19 j20 j21 j22 : json) :
  decode_string j1 "" = Ok (Text r) ->
  decode_string j2 "" = Ok (TextLang r) ->
  decode_string j3 "" = Ok (RefAudioPath r) ->
  decode_string_slice j4 None = Ok (AuxRefAudioPaths r) ->
  decode_string j5 "" = Ok (PromptText r) ->
  decode_string j6 "" = Ok (PromptLang r) ->
  decode_int j7 0 = Ok (TopK r) ->
  decode_float64 j8 0 = Ok (TopP r) ->
  decode_float64 j9 0 = Ok (Temperature r) ->
  decode_string j10 "" = Ok (TextSplitMethod r) ->
  decode_int j11 0 = Ok (BatchSize r) ->
  decode_float64 j12 0 = Ok (BatchThreshold r) ->
  decode_bool j13 false = Ok (SplitBucket r) ->
  decode_float64 j14 0 = Ok (SpeedFactor r) ->
  decode_float64 j15 0 = Ok (FragmentInterval r) ->
  decode_int j16 0 = Ok (Seed r) ->
  decode_string j17 "" = Ok (MediaType r) ->
  decode_bool j18 false = Ok (StreamingMode r) ->
  decode_bool j19 false = Ok (ParallelInfer r) ->
  decode_float64 j20 0 = Ok (RepetitionPenalty r) ->
  decode_int j21 0 = Ok (SampleSteps r) ->
  decode_bool j22 false = Ok (SuperSampling r) ->
  json_Unmarshal_TTSRequest
    (JObject
       [ ("text", j1); ("text_lang", j2); ("ref_audio_path", j3);
         ("aux_ref_audio_paths", j4); ("prompt_text", j5); ("prompt_lang", j6);
         ("top_k", j7); ("top_p", j8); ("temperature", j9);
         ("text_split_method", j10); ("batch_size", j11);
         ("batch_threshold", j12); ("split_bucket", j13); ("speed_factor", j14);
         ("fragment_interval", j15); ("seed", j16); ("media_type", j17);
         ("streaming_mode", j18); ("parallel_infer", j19);
         ("repetition_penalty", j20); ("sample_steps", j21);
         ("super_sampling", j22) ])
  = Ok r.
Proof.
  intros H1 H2 H3 H4 H5 H6 H7 H8 H9 H10 H11 H12 H13 H14 H15 H16 H17 H18 H19 H20 H21 H22.
  unfold json_Unmarshal_TTSRequest.
  rewrite !decode_field_selected.
  eval_selected.
  rewrite (decode_all_one _ _ _ _ H1), (decode_all_one _ _ _ _ H2),
    (decode_all_one _ _ _ _ H3), (decode_all_one _ _ _ _ H4),
    (decode_all_one _ _ _ _ H5), (decode_all_one _ _ _ _ H6),
    (decode_all_one _ _ _ _ H7), (decode_all_one _ _ _ _ H8),
    (decode_all_one _ _ _ _ H9), (decode_all_one _ _ _ _ H10),
    (decode_all_one _ _ _ _ H11), (decode_all_one _ _ _ _ H12),
    (decode_all_one _ _ _ _ H13), (decode_all_one _ _ _ _ H14),
    (decode_all_one _ _ _ _ H15), (decode_all_one _ _ _ _ H16),
    (decode_all_one _ _ _ _ H17), (decode_all_one _ _ _ _ H18),
    (decode_all_one _ _ _ _ H19), (decode_all_one _ _ _ _ H20),
    (decode_all_one _ _ _ _ H21), (decode_all_one _ _ _ _ H22).
  destruct r. reflexivity.
Qed.

(** C8. A valid [TTSRequest] (strings in valid UTF-8, finite floats,
    integers in range) serializes to a JSON object, and deserializing that
    object yields the request again; the keys of the object are the
    snake_case names of the [json] tags, in the order of the fields. *)
Theorem TTSRequest_json_round_trip (r : TTSRequest) :
  TTSRequest_valid r = true ->
  exists j : json,
    json_Marshal (TTSRequest_fields r) = Ok j /\
    json_Unmarshal_TTSRequest j = Ok r /\
    json_keys j =
    [ "text"; "text_lang"; "ref_audio_path"; "aux_ref_audio_paths";
      "prompt_text"; "prompt_lang"; "top_k"; "top_p"; "temperature";
      "text_split_method"; "batch_size"; "batch_threshold"; "split_bucket";
      "speed_factor"; "fragment_interval"; "seed"; "media_type";
      "streaming_mode"; "parallel_infer"; "repetition_penalty";
      "sample_steps"; "super_sampling" ].
Proof.
  unfold TTSRequest_valid. rewrite !andb_true_iff.
  intros [[[[[[[[[[[[[[[[[H1 H2] H3] H4] H5] H6] H7] H8] H9] H10] H11] H12]
                H13] H14] H15] H16] H17] H18].
  destruct (json_encode_value (VStringSlice (AuxRefAudioPaths r)))
    as [jaux | e] eqn:Haux;
    [| destruct (AuxRefAudioPaths r); discriminate].
  unfold json_Marshal, TTSRequest_fields.
  cbn [json_encode_fields].
  rewrite Haux, !encode_float64_finite by assumption.
  cbn [json_encode_value].
  eexists. split; [reflexivity |]. split; [| reflexivity].
  apply Unmarshal_members;
    first [ apply decode_string_encoded; assumption
          | apply decode_int_encoded; assumption
          | apply (decode_slice_encoded _ _ _ H4 Haux)
          | reflexivity ].
Qed.

(** * Further properties *)

(** ** One request per call *)

Lemma exchange_request_of c ctx method url body sent on_new on_do on_status accept log :
  request_of c ctx sent ->
  sends_only (request_of c ctx) log
    (snd (exchange c ctx method url body sent on_new on_do on_status accept log)).
Proof.
  intros Hsent. eapply sends_only_impl; [| apply exchange_sends_only].
  intros r ->. exact Hsent.
Qed.

Lemma post_request_of (c : Client) (ctx : Context) (path : string) (body : json) :
  request_of c ctx (post_request ctx (BaseURL c +:+ path) body).
Proof. split; [reflexivity | exists path; reflexivity]. Qed.

Lemma get_request_of (c : Client) (ctx : Context) (path : string) :
  request_of c ctx (get_request ctx (BaseURL c +:+ path)).
Proof. split; [reflexivity | exists path; reflexivity]. Qed.

Lemma TTS_request_of (c : Client) (ctx : Context) (req : TTSRequest)
    (log : list http_Request) :
  sends_only (request_of c ctx) log (snd (TTS c ctx req log)).
Proof.
  eapply sends_only_impl; [| apply TTS_sends_only].
  intros r [j [_ ->]]. apply post_request_of.
Qed.

Lemma GetTTSWithURLParams_request_of (c : Client) (ctx : Context)
    (visited : list (string * string)) (log : list http_Request) :
  sends_only (request_of c ctx) log
    (snd (GetTTSWithURLParams_visiting c ctx visited log)).
Proof.
  eapply sends_only_impl; [| apply GetTTSWithURLParams_sends_only].
  intros r ->. rewrite string_app_assoc. apply get_request_of.
Qed.

(** X1. A call of any of the nine methods hands at most one request to
    the HTTP client, whatever the answer is (nothing is retried), and
    leaves the requests sent before as they were.  The request carries
    the context of the caller and goes to a URL that starts with the base
    URL of the client. *)
Theorem methods_send_at_most_one_request
    (c : Client) (ctx : Context) (log : list http_Request) :
  (forall req,
      sends_only (request_of c ctx) log (snd (TTS c ctx req log))) /\
  (forall text textLang refAudioPath promptLang promptText,
      sends_only (request_of c ctx) log
        (snd (TTSSimple c ctx text textLang refAudioPath promptLang promptText log))) /\
  (forall command,
      sends_only (request_of c ctx) log (snd (Control c ctx command log))) /\
  (forall weightsPath,
      sends_only (request_of c ctx) log (snd (SetGPTWeights c ctx weightsPath log))) /\
  (forall weightsPath,
      sends_only (request_of c ctx) log (snd (SetSoVITSWeights c ctx weightsPath log))) /\
  (forall (params : gmap string string) out,
      GetTTSWithURLParams c ctx params log out ->
      sends_only (request_of c ctx) log (snd out)) /\
  (forall command,
      sends_only (request_of c ctx) log (snd (ControlWithGet c ctx command log))) /\
  (forall weightsPath,
      sends_only (request_of c ctx) log
        (snd (SetGPTWeightsWithGet c ctx weightsPath log))) /\
  (forall weightsPath,
      sends_only (request_of c ctx) log
        (snd (SetSoVITSWeightsWithGet c ctx weightsPath log))).
Proof.
  split; [intros; apply TTS_request_of |].
  split; [intros; unfold TTSSimple; apply TTS_request_of |].
  split; [intros; rewrite Control_run; cbv zeta;
          apply exchange_request_of, post_request_of |].
  split; [intros; rewrite SetGPTWeights_run; cbv zeta;
          apply exchange_request_of, post_request_of |].
  split; [intros; rewrite SetSoVITSWeights_run; cbv zeta;
          apply exchange_request_of, post_request_of |].
  split; [intros params out [visited [_ <-]];
          apply GetTTSWithURLParams_request_of |].
  split; [intros; rewrite ControlWithGet_run; cbv zeta;
          apply exchange_request_of, get_request_of |].
  split; [intros; rewrite SetGPTWeightsWithGet_run; cbv zeta;
          apply exchange_request_of, get_request_of |].
  intros; rewrite SetSoVITSWeightsWithGet_run; cbv zeta;
    apply exchange_request_of, get_request_of.
Qed.

(** ** Failures before and during the exchange *)

Lemma NewRequest_build_error (ctx : Context) (m : Method) (url : string)
    (body : option json) (err : error) :
  build_error ctx url = Some err ->
  http_NewRequestWithContext ctx m url body = Err err.
Proof.
  unfold build_error, http_NewRequestWithContext.
  destruct ctx; [intros H; injection H as <-; reflexivity |].
  intros ->. reflexivity.
Qed.

Lemma exchange_new_err c ctx method url body sent on_new on_do on_status accept log err :
  build_error ctx url = Some err ->
  exchange c ctx method url body sent on_new on_do on_status accept log
  = (Some (fmt_Errorf_w on_new err), log).
Proof.
  intros H. unfold exchange. rewrite (NewRequest_build_error _ _ _ _ _ H).
  reflexivity.
Qed.

(** X2. When the request of a method cannot be built, because the
    context is nil or [url.Parse] rejects the URL, the method sends
    nothing and returns the error of [http.NewRequestWithContext] wrapped
    under its own prefix: as the Go error for the six methods that return
    an [error], in the [Error] field (with a nil Go error) for [TTS] on a
    request that serializes, for [TTSSimple] and for
    [GetTTSWithURLParams]. *)
Theorem unbuilt_request_sends_nothing
    (c : Client) (ctx : Context) (log : list http_Request) (err : error) :
  (forall req jsonData,
      json_Marshal (TTSRequest_fields req) = Ok jsonData ->
      build_error ctx (BaseURL c +:+ "/tts") = Some err ->
      TTS c ctx req log
      = (TTSResponse_Error (fmt_Errorf_w "创建请求失败: " err), None, log)) /\
  (forall text textLang refAudioPath promptLang promptText,
      build_error ctx (BaseURL c +:+ "/tts") = Some err ->
      TTSSimple c ctx text textLang refAudioPath promptLang promptText log
      = (TTSResponse_Error (fmt_Errorf_w "创建请求失败: " err), None, log)) /\
  (forall visited,
      build_error ctx ((BaseURL c +:+ "/tts") +:+ build_query visited) = Some err ->
      GetTTSWithURLParams_visiting c ctx visited log
      = (TTSResponse_Error (fmt_Errorf_w "创建请求失败: " err), None, log)) /\
  (forall command,
      build_error ctx (BaseURL c +:+ "/control") = Some err ->
      Control c ctx command log
      = (Some (fmt_Errorf_w "创建控制请求失败: " err), log)) /\
  (forall command,
      build_error ctx (BaseURL c +:+ "/control?command=" +:+ command) = Some err ->
      ControlWithGet c ctx command log
      = (Some (fmt_Errorf_w "创建控制请求失败: " err), log)) /\
  (forall weightsPath,
      build_error ctx (BaseURL c +:+ "/set_gpt_weights") = Some err ->
      SetGPTWeights c ctx weightsPath log
      = (Some (fmt_Errorf_w "创建权重请求失败: " err), log)) /\
  (forall weightsPath,
      build_error ctx (BaseURL c +:+ "/set_sovits_weights") = Some err ->
      SetSoVITSWeights c ctx weightsPath log
      = (Some (fmt_Errorf_w "创建权重请求失败: " err), log)) /\
  (forall weightsPath,
      build_error ctx (BaseURL c +:+ "/set_gpt_weights?weights_path=" +:+ weightsPath)
      = Some err ->
      SetGPTWeightsWithGet c ctx weightsPath log
      = (Some (fmt_Errorf_w "创建权重请求失败: " err), log)) /\
  (forall weightsPath,
      build_error ctx (BaseURL c +:+ "/set_sovits_weights?weights_path=" +:+ weightsPath)
      = Some err ->
      SetSoVITSWeightsWithGet c ctx weightsPath log
      = (Some (fmt_Errorf_w "创建权重请求失败: " err), log)).
Proof.
  split.
  { intros req j Hj H. rewrite TTS_run, Hj.
    rewrite (NewRequest_build_error _ _ _ _ _ H). reflexivity. }
  split.
  { intros text textLang refAudioPath promptLang promptText H.
    unfold TTSSimple. cbv zeta.
    rewrite TTS_run, TTSSimple_request_marshal.
    rewrite (NewRequest_build_error _ _ _ _ _ H). reflexivity. }
  split.
  { intros visited H. rewrite GetTTSWithURLParams_run. cbv zeta.
    rewrite (NewRequest_build_error _ _ _ _ _ H). reflexivity. }
  split; [intros ? H; rewrite Control_run; cbv zeta;
          apply exchange_new_err; exact H |].
  split; [intros ? H; rewrite ControlWithGet_run; cbv zeta;
          apply exchange_new_err; exact H |].
  split; [intros ? H; rewrite SetGPTWeights_run; cbv zeta;
          apply exchange_new_err; exact H |].
  split; [intros ? H; rewrite SetSoVITSWeights_run; cbv zeta;
          apply exchange_new_err; exact H |].
  split; [intros ? H; rewrite SetGPTWeightsWithGet_run; cbv zeta;
          apply exchange_new_err; exact H |].
  intros ? H; rewrite SetSoVITSWeightsWithGet_run; cbv zeta;
    apply exchange_new_err; exact H.
Qed.

Lemma NewRequest_spec (ctx : Context) (m : Method) (url : string) (body : option json) :
  http_NewRequestWithContext ctx m url body =
  match build_error ctx url with
  | Some err => Err err
  | None => Ok {| Req_ctx := ctx; Req_Method := m; Req_URL := url;
                  Req_Header := ∅; Req_Body := body |}
  end.
Proof.
  unfold http_NewRequestWithContext, build_error.
  destruct ctx; [reflexivity |]. destruct (url_Parse url); reflexivity.
Qed.

Lemma wraps_Errorf (prefix : string) (err : error) :
  wraps (fmt_Errorf_w prefix err) prefix err.
Proof. split; reflexivity. Qed.

Lemma TTS_sent (c : Client) (id : nat) (req : TTSRequest) (jsonData : json)
    (log : list http_Request) :
  json_Marshal (TTSRequest_fields req) = Ok jsonData ->
  url_Parse (BaseURL c +:+ "/tts") = None ->
  TTS c (a_Context id) req log
  = (TTS_outcome
       (HTTPClient c (post_request (a_Context id) (BaseURL c +:+ "/tts") jsonData)),
     (log ++ [post_request (a_Context id) (BaseURL c +:+ "/tts") jsonData])%list).
Proof.
  intros Hj Hurl. rewrite TTS_run, Hj, (NewRequest_ok _ _ _ _ Hurl). reflexivity.
Qed.

Lemma GetTTSWithURLParams_sent (c : Client) (id : nat)
    (visited : list (string * string)) (log : list http_Request) :
  url_Parse ((BaseURL c +:+ "/tts") +:+ build_query visited) = None ->
  GetTTSWithURLParams_visiting c (a_Context id) visited log
  = (TTS_outcome
       (HTTPClient c (get_request (a_Context id)
                        ((BaseURL c +:+ "/tts") +:+ build_query visited))),
     (log ++ [get_request (a_Context id)
                ((BaseURL c +:+ "/tts") +:+ build_query visited)])%list).
Proof.
  intros Hurl. rewrite GetTTSWithURLParams_run. cbv zeta.
  rewrite (NewRequest_ok _ _ _ _ Hurl). reflexivity.
Qed.

Lemma exchange_refuses c id method url body sent on_new on_do on_status accept log err :
  url_Parse url = None ->
  HTTPClient c sent = Err err ->
  exists e,
    exchange c (a_Context id) method url body sent on_new on_do on_status accept log
    = (Some e, (log ++ [sent])%list) /\
    wraps e on_do err.
Proof.
  intros Hurl Hdo. rewrite (exchange_sent _ _ _ _ _ _ _ _ _ _ _ Hurl), Hdo.
  eexists. split; [reflexivity | apply wraps_Errorf].
Qed.

(** X3. With a context that is not nil and a URL that [url.Parse]
    accepts, a method hands its request to the HTTP client; when the
    client fails on it (no connection, a cancelled context, the timeout),
    the method has sent that one request and returns an error made with
    [%w] from its own prefix and the error of the client: [errors.Unwrap]
    gives the client's error back.  The six methods that return an
    [error] return it as such; [TTS] (on a request that serializes),
    [TTSSimple] and [GetTTSWithURLParams] (whatever the sequence the map
    is visited in) put it into the [Error] field of a response without
    status and data, beside a nil Go error. *)
Theorem transport_error_is_wrapped
    (c : Client) (id : nat) (log : list http_Request) (err : error) :
  (forall req jsonData,
      let sent := post_request (a_Context id) (BaseURL c +:+ "/tts") jsonData in
      json_Marshal (TTSRequest_fields req) = Ok jsonData ->
      url_Parse (BaseURL c +:+ "/tts") = None ->
      HTTPClient c sent = Err err ->
      exists e,
        TTS c (a_Context id) req log
        = (TTSResponse_Error e, None, (log ++ [sent])%list) /\
        wraps e "请求失败: " err) /\
  (forall text textLang refAudioPath promptLang promptText jsonData,
      let sent := post_request (a_Context id) (BaseURL c +:+ "/tts") jsonData in
      json_Marshal
        (TTSRequest_fields
           (TTSSimple_request text textLang refAudioPath promptLang promptText))
      = Ok jsonData ->
      url_Parse (BaseURL c +:+ "/tts") = None ->
      HTTPClient c sent = Err err ->
      exists e,
        TTSSimple c (a_Context id) text textLang refAudioPath promptLang promptText log
        = (TTSResponse_Error e, None, (log ++ [sent])%list) /\
        wraps e "请求失败: " err) /\
  (forall (params : gmap string string) visited,
      let sent :=
        get_request (a_Context id) ((BaseURL c +:+ "/tts") +:+ build_query visited) in
      map_range params visited ->
      url_Parse ((BaseURL c +:+ "/tts") +:+ build_query visited) = None ->
      HTTPClient c sent = Err err ->
      exists e,
        GetTTSWithURLParams c (a_Context id) params log
          (TTSResponse_Error e, None, (log ++ [sent])%list) /\
        GetTTSWithURLParams_visiting c (a_Context id) visited log
        = (TTSResponse_Error e, None, (log ++ [sent])%list) /\
        wraps e "请求失败: " err) /\
  (forall command,
      let sent :=
        post_request (a_Context id) (BaseURL c +:+ "/control")
          (JObject [("command", JString (utf8_coerce command))]) in
      url_Parse (BaseURL c +:+ "/control") = None ->
      HTTPClient c sent = Err err ->
      exists e,
        Control c (a_Context id) command log = (Some e, (log ++ [sent])%list) /\
        wraps e "控制请求失败: " err) /\
  (forall command,
      let sent :=
        get_request (a_Context id) (BaseURL c +:+ "/control?command=" +:+ command) in
      url_Parse (BaseURL c +:+ "/control?command=" +:+ command) = None ->
      HTTPClient c sent = Err err ->
      exists e,
        ControlWithGet c (a_Context id) command log = (Some e, (log ++ [sent])%list) /\
        wraps e "控制请求失败: " err) /\
  (forall weightsPath,
      let sent :=
        post_request (a_Context id) (BaseURL c +:+ "/set_gpt_weights")
          (JObject [("weights_path", JString (utf8_coerce weightsPath))]) in
      url_Parse (BaseURL c +:+ "/set_gpt_weights") = None ->
      HTTPClient c sent = Err err ->
      exists e,
        SetGPTWeights c (a_Context id) weightsPath log
        = (Some e, (log ++ [sent])%list) /\
        wraps e "设置GPT权重请求失败: " err) /\
  (forall weightsPath,
      let sent :=
        get_request (a_Context id)
          (BaseURL c +:+ "/set_gpt_weights?weights_path=" +:+ weightsPath) in
      url_Parse (BaseURL c +:+ "/set_gpt_weights?weights_path=" +:+ weightsPath) = None ->
      HTTPClient c sent = Err err ->
      exists e,
        SetGPTWeightsWithGet c (a_Context id) weightsPath log
        = (Some e, (log ++ [sent])%list) /\
        wraps e "设置GPT权重请求失败: " err) /\
  (forall weightsPath,
      let sent :=
        post_request (a_Context id) (BaseURL c +:+ "/set_sovits_weights")
          (JObject [("weights_path", JString (utf8_coerce weightsPath))]) in
      url_Parse (BaseURL c +:+ "/set_sovits_weights") = None ->
      HTTPClient c sent = Err err ->
      exists e,
        SetSoVITSWeights c (a_Context id) weightsPath log
        = (Some e, (log ++ [sent])%list) /\
        wraps e "设置SoVITS权重请求失败: " err) /\
  (forall weightsPath,
      let sent :=
        get_request (a_Context id)
          (BaseURL c +:+ "/set_sovits_weights?weights_path=" +:+ weightsPath) in
      url_Parse (BaseURL c +:+ "/set_sovits_weights?weights_path=" +:+ weightsPath)
      = None ->
      HTTPClient c sent = Err err ->
      exists e,
        SetSoVITSWeightsWithGet c (a_Context id) weightsPath log
        = (Some e, (log ++ [sent])%list) /\
        wraps e "设置SoVITS权重请求失败: " err).
Proof.
  assert (Htts : forall req jsonData,
             json_Marshal (TTSRequest_fields req) = Ok jsonData ->
             url_Parse (BaseURL c +:+ "/tts") = None ->
             HTTPClient c (post_request (a_Context id) (BaseURL c +:+ "/tts") jsonData)
             = Err err ->
             exists e,
               TTS c (a_Context id) req log
               = (TTSResponse_Error e, None,
                  (log ++ [post_request (a_Context id) (BaseURL c +:+ "/tts")
                             jsonData])%list) /\
               wraps e "请求失败: " err).
  { intros req j Hj Hurl Hdo. rewrite (TTS_sent _ _ _ _ _ Hj Hurl), Hdo.
    eexists. split; [reflexivity | apply wraps_Errorf]. }
  split; [exact Htts |].
  split; [intros text textLang refAudioPath promptLang promptText j; cbv zeta;
          intros Hj Hurl Hdo; unfold TTSSimple; cbv zeta;
          exact (Htts _ _ Hj Hurl Hdo) |].
  split.
  { intros params visited. cbv zeta. intros Hrange Hurl Hdo.
    pose proof (GetTTSWithURLParams_sent c id visited log Hurl) as Hrun.
    rewrite Hdo in Hrun. eexists. split; [| split; [exact Hrun | apply wraps_Errorf]].
    exists visited. split; [exact Hrange | exact Hrun]. }
  split; [intros command; cbv zeta; intros Hurl Hdo; rewrite Control_run; cbv zeta;
          exact (exchange_refuses _ _ _ _ _ _ _ _ _ _ _ _ Hurl Hdo) |].
  split; [intros command; cbv zeta; intros Hurl Hdo; rewrite ControlWithGet_run;
          cbv zeta; exact (exchange_refuses _ _ _ _ _ _ _ _ _ _ _ _ Hurl Hdo) |].
  split; [intros w; cbv zeta; intros Hurl Hdo; rewrite SetGPTWeights_run; cbv zeta;
          exact (exchange_refuses _ _ _ _ _ _ _ _ _ _ _ _ Hurl Hdo) |].
  split; [intros w; cbv zeta; intros Hurl Hdo; rewrite SetGPTWeightsWithGet_run;
          cbv zeta; exact (exchange_refuses _ _ _ _ _ _ _ _ _ _ _ _ Hurl Hdo) |].
  split; [intros w; cbv zeta; intros Hurl Hdo; rewrite SetSoVITSWeights_run; cbv zeta;
          exact (exchange_refuses _ _ _ _ _ _ _ _ _ _ _ _ Hurl Hdo) |].
  intros w; cbv zeta; intros Hurl Hdo; rewrite SetSoVITSWeightsWithGet_run; cbv zeta;
    exact (exchange_refuses _ _ _ _ _ _ _ _ _ _ _ _ Hurl Hdo).
Qed.

(** ** Errors while reading the body *)

Lemma sent_read_error (c : Client) (log : list http_Request) (sent : http_Request)
    (resp : http_Response) (err : error) :
  answered c log (log ++ [sent])%list resp ->
  rc_err (Resp_Body resp) = Some err ->
  match HTTPClient c sent with
  | Err e0 => (TTSResponse_Error (fmt_Errorf_w "请求失败: " e0), @None error)
  | Ok r0 =>
    match rc_err (Resp_Body r0) with
    | Some e0 =>
      (TTSResponse_Error (fmt_Errorf_w "读取响应体失败: " e0), @None error)
    | None => ({| StatusCode := Resp_StatusCode r0;
                  AudioData := rc_data (Resp_Body r0);
                  Error := None |}, None)
    end
  end = (TTSResponse_Error (fmt_Errorf_w "读取响应体失败: " err), None).
Proof.
  intros Ha Hr. apply answered_sent in Ha. rewrite Ha, Hr. reflexivity.
Qed.

(** X4. When the server answers but the body cannot be read to its end,
    [TTS], [TTSSimple] and [GetTTSWithURLParams] report the read error
    (wrapped, in the [Error] field) and drop what they had: the status
    code of the answer and the bytes read so far are not returned.  With
    a context that is not nil, a request that serializes and a URL that
    [url.Parse] accepts, against a client that answers the request with
    such a body, each of them sends its request and returns just that. *)
Theorem read_error_drops_status_and_data
    (c : Client) (ctx : Context) (log : list http_Request)
    (resp : http_Response) (err : error) :
  rc_err (Resp_Body resp) = Some err ->
  (forall req,
      answered c log (snd (TTS c ctx req log)) resp ->
      fst (TTS c ctx req log)
      = ({| StatusCode := 0; AudioData := [];
            Error := Some (fmt_Errorf_w "读取响应体失败: " err) |}, None)) /\
  (forall text textLang refAudioPath promptLang promptText,
      answered c log
        (snd (TTSSimple c ctx text textLang refAudioPath promptLang promptText log))
        resp ->
      fst (TTSSimple c ctx text textLang refAudioPath promptLang promptText log)
      = ({| StatusCode := 0; AudioData := [];
            Error := Some (fmt_Errorf_w "读取响应体失败: " err) |}, None)) /\
  (forall (params : gmap string string) out,
      GetTTSWithURLParams c ctx params log out ->
      answered c log (snd out) resp ->
      fst out
      = ({| StatusCode := 0; AudioData := [];
            Error := Some (fmt_Errorf_w "读取响应体失败: " err) |}, None)) /\
  (forall id, ctx = a_Context id ->
     (forall req jsonData,
         let sent := post_request ctx (BaseURL c +:+ "/tts") jsonData in
         json_Marshal (TTSRequest_fields req) = Ok jsonData ->
         url_Parse (BaseURL c +:+ "/tts") = None ->
         HTTPClient c sent = Ok resp ->
         TTS c ctx req log
         = ({| StatusCode := 0; AudioData := [];
               Error := Some (fmt_Errorf_w "读取响应体失败: " err) |}, None,
            (log ++ [sent])%list)) /\
     (forall text textLang refAudioPath promptLang promptText jsonData,
         let sent := post_request ctx (BaseURL c +:+ "/tts") jsonData in
         json_Marshal
           (TTSRequest_fields
              (TTSSimple_request text textLang refAudioPath promptLang promptText))
         = Ok jsonData ->
         url_Parse (BaseURL c +:+ "/tts") = None ->
         HTTPClient c sent = Ok resp ->
         TTSSimple c ctx text textLang refAudioPath promptLang promptText log
         = ({| StatusCode := 0; AudioData := [];
               Error := Some (fmt_Errorf_w "读取响应体失败: " err) |}, None,
            (log ++ [sent])%list)) /\
     (forall (params : gmap string string) visited,
         let sent := get_request ctx ((BaseURL c +:+ "/tts") +:+ build_query visited) in
         let out :=
           ({| StatusCode := 0; AudioData := [];
               Error := Some (fmt_Errorf_w "读取响应体失败: " err) |}, @None error,
            (log ++ [sent])%list) in
         map_range params visited ->
         url_Parse ((BaseURL c +:+ "/tts") +:+ build_query visited) = None ->
         HTTPClient c sent = Ok resp ->
         GetTTSWithURLParams c ctx params log out /\
         GetTTSWithURLParams_visiting c ctx visited log = out)).
Proof.
  intros Hr.
  assert (Hsent : forall id, ctx = a_Context id ->
            forall req jsonData,
              json_Marshal (TTSRequest_fields req) = Ok jsonData ->
              url_Parse (BaseURL c +:+ "/tts") = None ->
              HTTPClient c (post_request ctx (BaseURL c +:+ "/tts") jsonData) = Ok resp ->
              TTS c ctx req log
              = (TTSResponse_Error (fmt_Errorf_w "读取响应体失败: " err), None,
                 (log ++ [post_request ctx (BaseURL c +:+ "/tts") jsonData])%list)).
  { intros id -> req j Hj Hurl Hdo.
    rewrite (TTS_sent _ _ _ _ _ Hj Hurl), Hdo. simpl. rewrite Hr. reflexivity. }
  assert (Htts : forall req,
             answered c log (snd (TTS c ctx req log)) resp ->
             fst (TTS c ctx req log)
             = (TTSResponse_Error (fmt_Errorf_w "读取响应体失败: " err), None)).
  { intros req. rewrite TTS_run.
    destruct (json_Marshal _);
      [| intros H; exfalso; exact (not_answered_unsent _ _ _ H)].
    destruct (http_NewRequestWithContext _ _ _ _);
      [| intros H; exfalso; exact (not_answered_unsent _ _ _ H)].
    cbv zeta. simpl. intros Ha. exact (sent_read_error _ _ _ _ _ Ha Hr). }
  split; [exact Htts |].
  split; [intros; unfold TTSSimple in *; apply Htts; assumption |].
  split.
  { intros params out [visited [_ <-]]. rewrite GetTTSWithURLParams_run. cbv zeta.
    destruct (http_NewRequestWithContext _ _ _ _);
      [| intros H; exfalso; exact (not_answered_unsent _ _ _ H)].
    simpl. intros Ha. exact (sent_read_error _ _ _ _ _ Ha Hr). }
  intros id Hctx.
  split; [intros req j; cbv zeta; apply (Hsent id Hctx) |].
  split; [intros text textLang refAudioPath promptLang promptText j; cbv zeta;
          intros Hj Hurl Hdo; unfold TTSSimple; cbv zeta;
          exact (Hsent id Hctx _ _ Hj Hurl Hdo) |].
  intros params visited. cbv zeta. subst ctx. intros Hrange Hurl Hdo.
  pose proof (GetTTSWithURLParams_sent c id visited log Hurl) as Hrun.
  rewrite Hdo in Hrun. simpl in Hrun. rewrite Hr in Hrun.
  split; [| exact Hrun].
  exists visited. split; [exact Hrange | exact Hrun].
Qed.

Lemma exchange_forget_read_error c ctx method url body sent
    on_new on_do on_status accept log :
  exchange (forget_read_error c) ctx method url body sent
    on_new on_do on_status accept log
  = exchange c ctx method url body sent on_new on_do on_status accept log.
Proof.
  unfold exchange. destruct (http_NewRequestWithContext ctx method url body);
    [| reflexivity].
  f_equal. simpl. destruct (HTTPClient c sent); reflexivity.
Qed.

(** X5. The six methods that return an [error] never report a failure
    to read the body: they return the same result, and send the same
    request, as against a client whose bodies read without error.  The
    body they quote in a status error is what was read, complete or not. *)
Theorem status_methods_ignore_read_errors
    (c : Client) (ctx : Context) (arg : string) (log : list http_Request) :
  Control (forget_read_error c) ctx arg log = Control c ctx arg log /\
  ControlWithGet (forget_read_error c) ctx arg log = ControlWithGet c ctx arg log /\
  SetGPTWeights (forget_read_error c) ctx arg log = SetGPTWeights c ctx arg log /\
  SetGPTWeightsWithGet (forget_read_error c) ctx arg log
  = SetGPTWeightsWithGet c ctx arg log /\
  SetSoVITSWeights (forget_read_error c) ctx arg log = SetSoVITSWeights c ctx arg log /\
  SetSoVITSWeightsWithGet (forget_read_error c) ctx arg log
  = SetSoVITSWeightsWithGet c ctx arg log.
Proof.
  rewrite !Control_run, !ControlWithGet_run, !SetGPTWeights_run,
    !SetGPTWeightsWithGet_run, !SetSoVITSWeights_run, !SetSoVITSWeightsWithGet_run.
  cbv zeta. change (BaseURL (forget_read_error c)) with (BaseURL c).
  rewrite !exchange_forget_read_error. repeat split.
Qed.

(** ** Serialization *)

Lemma encode_float64_not_finite (f : float64) :
  math_IsInfOrNaN f = true ->
  json_encode_value (VFloat64 f)
  = Err (errorString ("json: unsupported value: " +:+ format_non_finite f)).
Proof. intros H. unfold json_encode_value. rewrite H. reflexivity. Qed.




(** X7. [TTSSimple] cannot fail to serialize: whatever the five strings
    are, with a context that is not nil and a URL that [url.Parse]
    accepts it sends exactly one request, a POST to [{base}/tts] whose
    body is the serialized request. *)
Theorem TTSSimple_always_sends
    (c : Client) (id : nat)
    (text textLang refAudioPath promptLang promptText : string)
    (log : list http_Request) :
  url_Parse (BaseURL c +:+ "/tts") = None ->
  exists body : json,
    json_Marshal
      (TTSRequest_fields
         (TTSSimple_request text textLang refAudioPath promptLang promptText))
    = Ok body /\
    snd (TTSSimple c (a_Context id) text textLang refAudioPath promptLang promptText log)
    = (log ++ [post_request (a_Context id) (BaseURL c +:+ "/tts") body])%list.
Proof.
  intros Hurl. eexists. split; [apply TTSSimple_request_marshal |].
  unfold TTSSimple. cbv zeta.
  rewrite TTS_run, TTSSimple_request_marshal, (NewRequest_ok _ _ _ _ Hurl).
  reflexivity.
Qed.

(** ** The GET and the POST variants *)

Lemma exchange_alike c ctx m1 m2 url1 url2 body1 body2 sent1 sent2
    on_new on_do on_status accept log :
  build_error ctx url1 = build_error ctx url2 ->
  HTTPClient c sent1 = HTTPClient c sent2 ->
  fst (exchange c ctx m1 url1 body1 sent1 on_new on_do on_status accept log)
  = fst (exchange c ctx m2 url2 body2 sent2 on_new on_do on_status accept log).
Proof.
  intros Hb Hc. unfold exchange. rewrite !NewRequest_spec, Hb.
  destruct (build_error ctx url2); [reflexivity |]. simpl. rewrite Hc. reflexivity.
Qed.

(** X8. A POST method and its GET variant treat the answer alike: when
    both URLs are accepted or rejected alike and the client answers both
    requests in the same way, [Control] and [ControlWithGet] return the
    same error or both nil, and so do the two pairs of weight methods and,
    for a request that serializes, [TTS] and [GetTTSWithURLParams] with
    their responses. *)
Theorem GET_variant_returns_as_POST
    (c : Client) (ctx : Context) (log : list http_Request) :
  (forall command,
      let post_url := BaseURL c +:+ "/control" in
      let get_url := BaseURL c +:+ "/control?command=" +:+ command in
      build_error ctx post_url = build_error ctx get_url ->
      HTTPClient c (post_request ctx post_url
                      (JObject [("command", JString (utf8_coerce command))]))
      = HTTPClient c (get_request ctx get_url) ->
      fst (Control c ctx command log) = fst (ControlWithGet c ctx command log)) /\
  (forall weightsPath,
      let post_url := BaseURL c +:+ "/set_gpt_weights" in
      let get_url := BaseURL c +:+ "/set_gpt_weights?weights_path=" +:+ weightsPath in
      build_error ctx post_url = build_error ctx get_url ->
      HTTPClient c (post_request ctx post_url
                      (JObject [("weights_path", JString (utf8_coerce weightsPath))]))
      = HTTPClient c (get_request ctx get_url) ->
      fst (SetGPTWeights c ctx weightsPath log)
      = fst (SetGPTWeightsWithGet c ctx weightsPath log)) /\
  (forall weightsPath,
      let post_url := BaseURL c +:+ "/set_sovits_weights" in
      let get_url := BaseURL c +:+ "/set_sovits_weights?weights_path=" +:+ weightsPath in
      build_error ctx post_url = build_error ctx get_url ->
      HTTPClient c (post_request ctx post_url
                      (JObject [("weights_path", JString (utf8_coerce weightsPath))]))
      = HTTPClient c (get_request ctx get_url) ->
      fst (SetSoVITSWeights c ctx weightsPath log)
      = fst (SetSoVITSWeightsWithGet c ctx weightsPath log)) /\
  (forall req jsonData visited,
      let post_url := BaseURL c +:+ "/tts" in
      let get_url := (BaseURL c +:+ "/tts") +:+ build_query visited in
      json_Marshal (TTSRequest_fields req) = Ok jsonData ->
      build_error ctx post_url = build_error ctx get_url ->
      HTTPClient c (post_request ctx post_url jsonData)
      = HTTPClient c (get_request ctx get_url) ->
      fst (TTS c ctx req log) = fst (GetTTSWithURLParams_visiting c ctx visited log)).
Proof.
  split; [intros command post_url get_url Hb Hc;
          rewrite Control_run, ControlWithGet_run; cbv zeta;
          apply exchange_alike; assumption |].
  split; [intros w post_url get_url Hb Hc;
          rewrite SetGPTWeights_run, SetGPTWeightsWithGet_run; cbv zeta;
          apply exchange_alike; assumption |].
  split; [intros w post_url get_url Hb Hc;
          rewrite SetSoVITSWeights_run, SetSoVITSWeightsWithGet_run; cbv zeta;
          apply exchange_alike; assumption |].
  intros req j visited post_url get_url Hj Hb Hc. subst post_url get_url.
  rewrite TTS_run, GetTTSWithURLParams_run, Hj. cbv zeta.
  rewrite !NewRequest_spec, Hb.
  destruct (build_error ctx ((BaseURL c +:+ "/tts") +:+ build_query visited));
    [reflexivity |].
  simpl. rewrite Hc. reflexivity.
Qed.

(** ** The empty parameter map *)

(** X9. For an empty parameter map [GetTTSWithURLParams] keeps the lone
    question mark: the loop adds nothing, the query string "?" is too
    short to be trimmed, and any request sent is a GET of
    [{base}/tts?]. *)
Theorem empty_params_query_is_question_mark
    (c : Client) (ctx : Context) (log : list http_Request) out :
  GetTTSWithURLParams c ctx ∅ log out ->
  sends_only (fun r => r = get_request ctx (BaseURL c +:+ "/tts?")) log (snd out).
Proof.
  intros [visited [Hrange <-]]. unfold map_range in Hrange.
  rewrite map_to_list_empty in Hrange. apply Permutation_nil_r in Hrange. subst visited.
  eapply sends_only_impl; [| apply GetTTSWithURLParams_sends_only].
  intros r ->. rewrite string_app_assoc. reflexivity.
Qed.

(** ** What the server reads from a query string *)

Lemma free_of_cons (chars : string) (a : ascii) (s : string) :
  free_of chars (String a s)
  = negb (existsb (Ascii.eqb a) (list_ascii_of_string chars)) && free_of chars s.
Proof. reflexivity. Qed.

Lemma free_of_app (chars s t : string) :
  free_of chars (s +:+ t) = free_of chars s && free_of chars t.
Proof.
  induction s as [| a s IH]; [reflexivity |].
  change (String a s +:+ t) with (String a (s +:+ t)).
  rewrite !free_of_cons, IH, andb_assoc. reflexivity.
Qed.

Lemma free_of_absent (chars : string) (sep : ascii) (s : string) :
  existsb (Ascii.eqb sep) (list_ascii_of_string chars) = true ->
  free_of chars s = true ->
  forallb (fun a => negb (Ascii.eqb a sep)) (list_ascii_of_string s) = true.
Proof.
  intros Hsep. induction s as [| a s IH]; [reflexivity |].
  rewrite free_of_cons, andb_true_iff. intros [Ha Hs]. simpl.
  rewrite (IH Hs), andb_true_r.
  destruct (Ascii.eqb a sep) eqn:He; [| reflexivity].
  apply Ascii.eqb_eq in He. subst a. rewrite Hsep in Ha. discriminate.
Qed.

Lemma cut_absent (sep : ascii) (s : string) :
  forallb (fun a => negb (Ascii.eqb a sep)) (list_ascii_of_string s) = true ->
  cut sep s = (s, None).
Proof.
  induction s as [| a s IH]; [reflexivity |].
  simpl. rewrite andb_true_iff. intros [Ha Hs]. apply negb_true_iff in Ha.
  rewrite Ha, (IH Hs). reflexivity.
Qed.

Lemma cut_at_sep (sep : ascii) (s t : string) :
  forallb (fun a => negb (Ascii.eqb a sep)) (list_ascii_of_string s) = true ->
  cut sep (s +:+ String sep t) = (s, Some t).
Proof.
  intros Hs. rewrite (cut_app_absent sep s _ Hs). simpl.
  rewrite Ascii.eqb_refl. simpl. rewrite string_app_nil_r. reflexivity.
Qed.

Lemma split_absent (sep : ascii) (s : string) :
  forallb (fun a => negb (Ascii.eqb a sep)) (list_ascii_of_string s) = true ->
  split sep s = [s].
Proof.
  induction s as [| a s IH]; [reflexivity |].
  simpl. rewrite andb_true_iff. intros [Ha Hs]. apply negb_true_iff in Ha.
  rewrite Ha, (IH Hs). reflexivity.
Qed.

Lemma split_at_sep (sep : ascii) (s t : string) :
  forallb (fun a => negb (Ascii.eqb a sep)) (list_ascii_of_string s) = true ->
  split sep (s +:+ String sep t) = s :: split sep t.
Proof.
  induction s as [| a s IH].
  - intros _. change ("" +:+ String sep t) with (String sep t).
    simpl. rewrite Ascii.eqb_refl. reflexivity.
  - simpl list_ascii_of_string. simpl forallb. rewrite andb_true_iff. intros [Ha Hs].
    apply negb_true_iff in Ha.
    change (String a s +:+ String sep t) with (String a (s +:+ String sep t)).
    simpl. rewrite Ha, (IH Hs). reflexivity.
Qed.

Lemma unquote_plus_plain (s : string) :
  free_of "+%" s = true -> unquote_plus s = s.
Proof.
  induction s as [| a s IH]; [reflexivity |].
  rewrite free_of_cons, andb_true_iff. intros [Ha Hs].
  simpl in Ha. rewrite !orb_false_r in Ha. apply negb_true_iff in Ha.
  apply orb_false_iff in Ha as [H1 H2].
  cbn [unquote_plus]. rewrite H1, H2, (IH Hs). reflexivity.
Qed.

Lemma free_of_mono (chars chars' s : string) :
  (forall a, existsb (Ascii.eqb a) (list_ascii_of_string chars') = true ->
             existsb (Ascii.eqb a) (list_ascii_of_string chars) = true) ->
  free_of chars s = true -> free_of chars' s = true.
Proof.
  intros Hsub. induction s as [| a s IH]; [reflexivity |].
  rewrite !free_of_cons, !andb_true_iff. intros [Ha Hs].
  split; [| exact (IH Hs)].
  apply negb_true_iff. apply negb_true_iff in Ha.
  destruct (existsb (Ascii.eqb a) (list_ascii_of_string chars')) eqn:He; [| reflexivity].
  rewrite (Hsub a He) in Ha. discriminate.
Qed.

Ltac chars_subset :=
  let a := fresh "a" in
  intros a; simpl;
  repeat match goal with
         | |- context [Ascii.eqb a ?ch] => destruct (Ascii.eqb a ch)
         end;
  simpl; congruence.

(** The plain bytes are ASCII and none of them is special in a query
    string. *)
Lemma query_plain_byte (a : ascii) :
  query_plain a || Ascii.eqb a "=" = true ->
  (byte_code a <? 128) = true /\
  existsb (Ascii.eqb a) (list_ascii_of_string "&+%#") = false /\
  (query_plain a = true -> Ascii.eqb a "=" = false).
Proof.
  destruct a as [[] [] [] [] [] [] [] []]; vm_compute; intros H;
    repeat split; congruence.
Qed.

Lemma safe_value_free (s : string) :
  query_safe_value s = true -> free_of "&+%#" s = true.
Proof.
  unfold query_safe_value. induction s as [| a s IH]; [reflexivity |].
  simpl forallb. rewrite andb_true_iff. intros [Ha Hs].
  rewrite free_of_cons, (IH Hs), andb_true_r.
  destruct (query_plain_byte a Ha) as (_ & H & _). rewrite H. reflexivity.
Qed.

Lemma safe_name_free (s : string) :
  query_safe_name s = true -> free_of "&=+%#" s = true.
Proof.
  unfold query_safe_name. induction s as [| a s IH]; [reflexivity |].
  simpl forallb. rewrite andb_true_iff. intros [Ha Hs].
  rewrite free_of_cons, (IH Hs), andb_true_r.
  assert (Ha' : query_plain a || Ascii.eqb a "=" = true) by (rewrite Ha; reflexivity).
  destruct (query_plain_byte a Ha') as (_ & H & Heq).
  simpl in H. simpl. rewrite (Heq Ha).
  destruct (Ascii.eqb a "&"); [discriminate |]. simpl in *. rewrite H. reflexivity.
Qed.

(** A safe value is ASCII: [encoding/json] leaves it as it is. *)
Lemma safe_value_coerce (s : string) :
  query_safe_value s = true -> utf8_coerce s = s.
Proof.
  unfold query_safe_value, utf8_coerce. induction s as [| a s IH]; [reflexivity |].
  simpl forallb. rewrite andb_true_iff. intros [Ha Hs].
  destruct (query_plain_byte a Ha) as (Hlow & _ & _).
  cbn [utf8_coerce_from utf8_seq_len]. cbv zeta. rewrite Hlow, (IH Hs). reflexivity.
Qed.

Lemma name_no (sep : ascii) (s : string) :
  existsb (Ascii.eqb sep) (list_ascii_of_string "&=+%#") = true ->
  query_safe_name s = true ->
  forallb (fun a => negb (Ascii.eqb a sep)) (list_ascii_of_string s) = true.
Proof. intros H Hs. exact (free_of_absent _ _ _ H (safe_name_free _ Hs)). Qed.

Lemma value_no (sep : ascii) (s : string) :
  existsb (Ascii.eqb sep) (list_ascii_of_string "&+%#") = true ->
  query_safe_value s = true ->
  forallb (fun a => negb (Ascii.eqb a sep)) (list_ascii_of_string s) = true.
Proof. intros H Hs. exact (free_of_absent _ _ _ H (safe_value_free _ Hs)). Qed.

Lemma pair_text_cons (kv : string * string) :
  pair_text kv = fst kv +:+ String "=" (snd kv).
Proof. reflexivity. Qed.

Lemma forallb_app_string (P : ascii -> bool) (s t : string) :
  forallb P (list_ascii_of_string (s +:+ t))
  = forallb P (list_ascii_of_string s) && forallb P (list_ascii_of_string t).
Proof.
  induction s as [| a s IH]; [reflexivity |].
  change (String a s +:+ t) with (String a (s +:+ t)).
  simpl. rewrite IH, andb_assoc. reflexivity.
Qed.

Lemma pair_text_no (sep : ascii) (kv : string * string) :
  existsb (Ascii.eqb sep) (list_ascii_of_string "&#") = true ->
  query_safe kv = true ->
  forallb (fun a => negb (Ascii.eqb a sep)) (list_ascii_of_string (pair_text kv)) = true.
Proof.
  intros Hsep. unfold query_safe. rewrite andb_true_iff. intros [Hn Hv].
  rewrite pair_text_cons, forallb_app_string. simpl.
  assert (H1 : existsb (Ascii.eqb sep) (list_ascii_of_string "&=+%#") = true).
  { simpl in *. destruct (Ascii.eqb sep "&"), (Ascii.eqb sep "#"); simpl in *;
      rewrite ?orb_true_r; congruence. }
  assert (H2 : existsb (Ascii.eqb sep) (list_ascii_of_string "&+%#") = true).
  { simpl in *. destruct (Ascii.eqb sep "&"), (Ascii.eqb sep "#"); simpl in *;
      rewrite ?orb_true_r; congruence. }
  rewrite (name_no sep _ H1 Hn), (value_no sep _ H2 Hv), andb_true_r. simpl.
  simpl in Hsep. rewrite orb_false_r in Hsep.
  destruct (Ascii.eqb sep "&") eqn:E1.
  - apply Ascii.eqb_eq in E1. subst sep. reflexivity.
  - simpl in Hsep. apply Ascii.eqb_eq in Hsep. subst sep. reflexivity.
Qed.

Lemma parse_pair_text (kv : string * string) :
  query_safe kv = true -> parse_pair (pair_text kv) = kv.
Proof.
  unfold query_safe. rewrite andb_true_iff. intros [Hn Hv].
  unfold parse_pair. rewrite pair_text_cons.
  rewrite (cut_at_sep "=" _ _ (name_no "=" _ eq_refl Hn)).
  rewrite (unquote_plus_plain (fst kv)), (unquote_plus_plain (snd kv)).
  - destruct kv; reflexivity.
  - generalize (safe_value_free _ Hv). apply free_of_mono. chars_subset.
  - generalize (safe_name_free _ Hn). apply free_of_mono. chars_subset.
Qed.

Lemma split_pairs (kv : string * string) (rest : list (string * string)) :
  forallb query_safe (kv :: rest) = true ->
  split "&" (String.concat "&" (map pair_text (kv :: rest)))
  = map pair_text (kv :: rest).
Proof.
  revert kv. induction rest as [| kv' rest IH]; intros kv H.
  - simpl in H. rewrite andb_true_r in H. simpl.
    apply split_absent. apply pair_text_no; [reflexivity | exact H].
  - simpl in H. apply andb_true_iff in H as [Hkv Hrest].
    change (String.concat "&" (map pair_text (kv :: kv' :: rest)))
      with (pair_text kv +:+ String "&" (String.concat "&" (map pair_text (kv' :: rest)))).
    rewrite split_at_sep by (apply pair_text_no; [reflexivity | exact Hkv]).
    rewrite (IH kv' Hrest). reflexivity.
Qed.

Lemma concat_pairs_no_hash (l : list (string * string)) :
  forallb query_safe l = true ->
  forallb (fun a => negb (Ascii.eqb a "#"))
          (list_ascii_of_string (String.concat "&" (map pair_text l))) = true.
Proof.
  induction l as [| kv rest IH]; [reflexivity |].
  simpl forallb at 1. rewrite andb_true_iff. intros [Hkv Hrest].
  destruct rest as [| kv' rest'].
  - simpl. apply pair_text_no; [reflexivity | exact Hkv].
  - change (String.concat "&" (map pair_text (kv :: kv' :: rest')))
      with (pair_text kv +:+ String "&" (String.concat "&" (map pair_text (kv' :: rest')))).
    rewrite forallb_app_string, (pair_text_no "#" kv eq_refl Hkv). simpl.
    exact (IH Hrest).
Qed.

Lemma pair_text_nonempty (kv : string * string) : pair_text kv <> "".
Proof. rewrite pair_text_cons. destruct (fst kv); discriminate. Qed.

Lemma filter_pairs (l : list (string * string)) :
  filter (fun piece => piece <> "") (map pair_text l) = map pair_text l.
Proof.
  induction l as [| kv rest IH]; [reflexivity |].
  simpl map. rewrite filter_cons_True by apply pair_text_nonempty.
  rewrite IH. reflexivity.
Qed.

Lemma parse_query_pairs (l : list (string * string)) :
  forallb query_safe l = true ->
  parse_query (String.concat "&" (map pair_text l)) = l.
Proof.
  intros H. unfold parse_query. destruct l as [| kv rest]; [reflexivity |].
  rewrite (split_pairs kv rest H), filter_pairs.
  clear -H. induction (kv :: rest) as [| x l IH]; [reflexivity |].
  simpl in H. apply andb_true_iff in H as [Hx Hl].
  simpl. rewrite (parse_pair_text x Hx), (IH Hl). reflexivity.
Qed.

(** The server's view of the query string of [GetTTSWithURLParams]. *)
Lemma url_query_tts (base : string) (visited : list (string * string)) :
  plain_base base = true ->
  forallb query_safe visited = true ->
  parse_query (url_query ((base +:+ "/tts") +:+ build_query visited)) = visited.
Proof.
  intros Hbase Hsafe.
  rewrite build_query_joined, string_app_assoc, (url_query_plain_base _ _ Hbase).
  set (Q := String.concat "&" (map pair_text visited)).
  change ("/tts" +:+ "?" +:+ Q)
    with (String "/" (String "t" (String "t" (String "s" (String "?" Q))))).
  rewrite (cut_absent "#") by (simpl; apply concat_pairs_no_hash; exact Hsafe).
  simpl. apply parse_query_pairs. exact Hsafe.
Qed.

Lemma values_of_unique (k v : string) (l : list (string * string)) :
  NoDup (l.*1) -> (k, v) ∈ l -> values_of k l = [v].
Proof.
  unfold values_of. induction l as [| [k' v'] rest IH]; intros Hnd Hin.
  - apply elem_of_nil in Hin. destruct Hin.
  - simpl in Hnd. apply NoDup_cons in Hnd as [Hk' Hrest].
    apply elem_of_cons in Hin as [Heq | Hin].
    + injection Heq as <- <-. rewrite filter_cons_True by reflexivity. simpl.
      f_equal. clear IH Hrest. induction rest as [| [k2 v2] rest IH2]; [reflexivity |].
      simpl in Hk'. rewrite filter_cons_False.
      * apply IH2. intros H. apply Hk'. apply list_elem_of_further. exact H.
      * simpl. intros ->. apply Hk'. apply list_elem_of_here.
    + rewrite filter_cons_False.
      * apply IH; assumption.
      * simpl. intros ->. apply Hk'.
        exact (list_elem_of_fmap_2 fst _ _ Hin).
Qed.

(** X10. When the base URL has no query and no fragment and every key
    and value of the parameter map is made of letters, digits and the
    bytes [-], [.], [_], [~], [/], [:], [,] (and, in a value, [=]), the
    query string of [GetTTSWithURLParams] carries the map intact: with a
    context that is not nil and a URL that [url.Parse] accepts, the run
    for any visiting sequence of the map sends one GET request, from
    whose URL the server reads back exactly the entries of the map, and
    for every key exactly its value. *)
Theorem safe_params_reach_server
    (c : Client) (id : nat) (params : gmap string string)
    (visited : list (string * string)) (log : list http_Request) :
  let url := (BaseURL c +:+ "/tts") +:+ build_query visited in
  let out := GetTTSWithURLParams_visiting c (a_Context id) visited log in
  plain_base (BaseURL c) = true ->
  (forall k v, params !! k = Some v -> query_safe (k, v) = true) ->
  map_range params visited ->
  url_Parse url = None ->
  GetTTSWithURLParams c (a_Context id) params log out /\
  snd out = (log ++ [get_request (a_Context id) url])%list /\
  parse_query (url_query url) ≡ₚ map_to_list params /\
  (forall k v, params !! k = Some v ->
     server_observed k (get_request (a_Context id) url) = [v]).
Proof.
  cbv zeta. intros Hbase Hsafe Hrange Hurl.
  split; [exists visited; split; [exact Hrange | reflexivity] |].
  split; [exact (GetTTSWithURLParams_sends _ _ _ _ Hurl) |].
  unfold map_range in Hrange.
  assert (Hall : forallb query_safe visited = true).
  { apply forallb_forall. intros [k v] Hin. apply Hsafe.
    apply elem_of_map_to_list. rewrite <- Hrange. apply list_elem_of_In. exact Hin. }
  unfold server_observed. simpl.
  rewrite (url_query_tts _ _ Hbase Hall).
  split; [exact Hrange |].
  intros k v Hkv. apply values_of_unique.
  - rewrite Hrange. apply NoDup_fst_map_to_list.
  - rewrite Hrange. apply elem_of_map_to_list. exact Hkv.
Qed.

(** The server's view of a URL with one parameter. *)
Lemma url_query_one_param (base path name value : string) :
  plain_base base = true ->
  free_of "?#" path = true ->
  query_safe (name, value) = true ->
  parse_query (url_query (base +:+ path +:+ String "?" (name +:+ String "=" value)))
  = [(name, value)].
Proof.
  intros Hbase Hpath Hsafe.
  rewrite (url_query_plain_base _ _ Hbase).
  assert (Hq : forallb (fun a => negb (Ascii.eqb a "#"))
                 (list_ascii_of_string (name +:+ String "=" value)) = true)
    by exact (pair_text_no "#" (name, value) eq_refl Hsafe).
  rewrite (cut_absent "#").
  - simpl fst.
    rewrite (cut_at_sep "?" path _ (free_of_absent "?#" "?" path eq_refl Hpath)).
    simpl snd.
    exact (parse_query_pairs [(name, value)]
             ltac:(simpl; rewrite Hsafe; reflexivity)).
  - rewrite forallb_app_string, (free_of_absent "?#" "#" path eq_refl Hpath).
    simpl. exact Hq.
Qed.

Lemma observed_one_param (ctx : Context) (base path name value : string) :
  plain_base base = true ->
  free_of "?#" path = true ->
  query_safe (name, value) = true ->
  server_observed name
    (get_request ctx (base +:+ path +:+ String "?" (name +:+ String "=" value)))
  = [value].
Proof.
  intros Hbase Hpath Hsafe. unfold server_observed. simpl.
  rewrite (url_query_one_param _ _ _ _ Hbase Hpath Hsafe).
  unfold values_of. rewrite filter_cons_True by reflexivity. reflexivity.
Qed.

Lemma observed_body (ctx : Context) (url name value : string) :
  query_safe_value value = true ->
  server_observed name
    (post_request ctx url (JObject [(name, JString (utf8_coerce value))]))
  = [value].
Proof.
  intros Hv. unfold server_observed. simpl.
  rewrite String.eqb_refl, (safe_value_coerce _ Hv). reflexivity.
Qed.

Ltac observed_get Hbase Hsafe :=
  match goal with
  | |- server_observed ?name (get_request ?ctx (?base +:+ ?tail +:+ ?value)) = _ =>
    let path := eval vm_compute in (fst (cut "?" tail)) in
    change (base +:+ tail +:+ value)
      with (base +:+ path +:+ String "?" (name +:+ String "=" value))
  end;
  apply observed_one_param;
  [exact Hbase | reflexivity | unfold query_safe; simpl fst; simpl snd;
                                rewrite Hsafe; reflexivity].

(** X11. A command or a weights path made of letters, digits and the
    bytes [-], [.], [_], [~], [/], [:], [,], [=] reaches the server the
    same way by POST and by GET: with a base URL without query and
    fragment, a context that is not nil and a URL that [url.Parse]
    accepts, [Control], [SetGPTWeights] and [SetSoVITSWeights] send one
    POST request, from whose JSON body the server reads the value itself,
    and their GET variants send one GET request, from whose query string
    it reads the same. *)
Theorem safe_value_same_by_POST_and_GET
    (c : Client) (id : nat) (value : string) (log : list http_Request) :
  let ctx := a_Context id in
  plain_base (BaseURL c) = true ->
  query_safe_value value = true ->
  (let sent :=
     post_request ctx (BaseURL c +:+ "/control")
       (JObject [("command", JString (utf8_coerce value))]) in
   url_Parse (BaseURL c +:+ "/control") = None ->
   snd (Control c ctx value log) = (log ++ [sent])%list /\
   server_observed "command" sent = [value]) /\
  (let sent := get_request ctx (BaseURL c +:+ "/control?command=" +:+ value) in
   url_Parse (BaseURL c +:+ "/control?command=" +:+ value) = None ->
   snd (ControlWithGet c ctx value log) = (log ++ [sent])%list /\
   server_observed "command" sent = [value]) /\
  (let sent :=
     post_request ctx (BaseURL c +:+ "/set_gpt_weights")
       (JObject [("weights_path", JString (utf8_coerce value))]) in
   url_Parse (BaseURL c +:+ "/set_gpt_weights") = None ->
   snd (SetGPTWeights c ctx value log) = (log ++ [sent])%list /\
   server_observed "weights_path" sent = [value]) /\
  (let sent :=
     get_request ctx (BaseURL c +:+ "/set_gpt_weights?weights_path=" +:+ value) in
   url_Parse (BaseURL c +:+ "/set_gpt_weights?weights_path=" +:+ value) = None ->
   snd (SetGPTWeightsWithGet c ctx value log) = (log ++ [sent])%list /\
   server_observed "weights_path" sent = [value]) /\
  (let sent :=
     post_request ctx (BaseURL c +:+ "/set_sovits_weights")
       (JObject [("weights_path", JString (utf8_coerce value))]) in
   url_Parse (BaseURL c +:+ "/set_sovits_weights") = None ->
   snd (SetSoVITSWeights c ctx value log) = (log ++ [sent])%list /\
   server_observed "weights_path" sent = [value]) /\
  (let sent :=
     get_request ctx (BaseURL c +:+ "/set_sovits_weights?weights_path=" +:+ value) in
   url_Parse (BaseURL c +:+ "/set_sovits_weights?weights_path=" +:+ value) = None ->
   snd (SetSoVITSWeightsWithGet c ctx value log) = (log ++ [sent])%list /\
   server_observed "weights_path" sent = [value]).
Proof.
  cbv zeta. intros Hbase Hsafe.
  split; [intros Hurl; rewrite Control_run; cbv zeta;
          rewrite (exchange_sent _ _ _ _ _ _ _ _ _ _ _ Hurl);
          split; [reflexivity | apply observed_body; exact Hsafe] |].
  split; [intros Hurl; rewrite ControlWithGet_run; cbv zeta;
          rewrite (exchange_sent _ _ _ _ _ _ _ _ _ _ _ Hurl);
          split; [reflexivity | observed_get Hbase Hsafe] |].
  split; [intros Hurl; rewrite SetGPTWeights_run; cbv zeta;
          rewrite (exchange_sent _ _ _ _ _ _ _ _ _ _ _ Hurl);
          split; [reflexivity | apply observed_body; exact Hsafe] |].
  split; [intros Hurl; rewrite SetGPTWeightsWithGet_run; cbv zeta;
          rewrite (exchange_sent _ _ _ _ _ _ _ _ _ _ _ Hurl);
          split; [reflexivity | observed_get Hbase Hsafe] |].
  split; [intros Hurl; rewrite SetSoVITSWeights_run; cbv zeta;
          rewrite (exchange_sent _ _ _ _ _ _ _ _ _ _ _ Hurl);
          split; [reflexivity | apply observed_body; exact Hsafe] |].
  intros Hurl; rewrite SetSoVITSWeightsWithGet_run; cbv zeta;
    rewrite (exchange_sent _ _ _ _ _ _ _ _ _ _ _ Hurl);
    split; [reflexivity | observed_get Hbase Hsafe].
Qed.

(** ** Strings on the way through JSON *)

(** The sequence found at the head of a string is still there after the
    coercion of what follows its first byte. *)
Lemma utf8_seq_len_coerce (b : ascii) (r : string) (k : nat) :
  utf8_seq_len (String b r) = S k ->
  utf8_seq_len (String b (utf8_coerce_from k r)) = S k.
Proof.
  unfold utf8_seq_len. cbv zeta.
  destruct (byte_code b <? 128); [intros H; exact H |].
  destruct (in_range 194 223 (byte_code b)).
  { destruct r as [| b1 r1]; [discriminate |].
    destruct (is_cont b1) eqn:H1; [| discriminate].
    intros H. injection H as <-. cbn [utf8_coerce_from]. rewrite H1. reflexivity. }
  destruct (in_range 224 239 (byte_code b)).
  { destruct r as [| b1 [| b2 r2]]; try discriminate.
    match goal with
    | |- (if ?cond then _ else _) = _ -> _ => destruct cond eqn:Hc; [| discriminate]
    end.
    intros H. injection H as <-. cbn [utf8_coerce_from]. rewrite Hc. reflexivity. }
  destruct (in_range 240 244 (byte_code b)); [| discriminate].
  destruct r as [| b1 [| b2 [| b3 r3]]]; try discriminate.
  match goal with
  | |- (if ?cond then _ else _) = _ -> _ => destruct cond eqn:Hc; [| discriminate]
  end.
  intros H. injection H as <-. cbn [utf8_coerce_from]. rewrite Hc. reflexivity.
Qed.

Lemma utf8_coerce_from_is_valid (s : string) :
  forall k, utf8_valid_from k (utf8_coerce_from k s) = true.
Proof.
  induction s as [| b r IH]; intros k; [destruct k; reflexivity |].
  destruct k as [| k].
  - cbn [utf8_coerce_from].
    destruct (utf8_seq_len (String b r)) as [| k'] eqn:Hlen.
    + change (RuneError +:+ utf8_coerce_from 0 r)
        with (String (ascii_of_nat 239)
                (String (ascii_of_nat 191)
                   (String (ascii_of_nat 189) (utf8_coerce_from 0 r)))).
      exact (IH 0%nat).
    + cbn [utf8_valid_from].
      rewrite (utf8_seq_len_coerce b r k' Hlen). apply IH.
  - cbn [utf8_coerce_from utf8_valid_from]. apply IH.
Qed.

(** X12. The coercion that [encoding/json] applies to the strings of a
    request always yields valid UTF-8, applying it twice changes nothing
    more, and it leaves a string as it is exactly when the string is
    valid UTF-8: the strings of a POST body are always valid, and only
    invalid ones are altered on the way. *)
Theorem utf8_coerce_is_valid (s : string) :
  utf8_ValidString (utf8_coerce s) = true /\
  utf8_coerce (utf8_coerce s) = utf8_coerce s /\
  (utf8_coerce s = s <-> utf8_ValidString s = true).
Proof.
  assert (Hv : utf8_ValidString (utf8_coerce s) = true)
    by apply utf8_coerce_from_is_valid.
  split; [exact Hv |]. split; [apply utf8_coerce_valid; exact Hv |].
  split; [intros H; rewrite <- H; exact Hv | apply utf8_coerce_valid].
Qed.

Lemma decode_string_coerced (s old : string) :
  decode_string (JString (utf8_coerce s)) old = Ok (utf8_coerce s).
Proof.
  unfold decode_string. f_equal. apply utf8_coerce_valid, utf8_coerce_from_is_valid.
Qed.

Lemma decode_strings_coerced (paths : list string) :
  decode_strings (map (fun s => JString (utf8_coerce s)) paths)
  = Ok (map utf8_coerce paths).
Proof.
  induction paths as [| s rest IH]; [reflexivity |].
  cbn [map decode_strings]. rewrite decode_string_coerced, IH. reflexivity.
Qed.

Lemma decode_slice_coerced (paths old : option (list string)) (j : json) :
  json_encode_value (VStringSlice paths) = Ok j ->
  decode_string_slice j old = Ok (map utf8_coerce <$> paths).
Proof.
  intros Hj. destruct paths as [l |]; simpl in Hj; injection Hj as <-.
  - unfold decode_string_slice. rewrite decode_strings_coerced. reflexivity.
  - reflexivity.
Qed.

Lemma map_coerce_idem (l : list string) :
  map utf8_coerce (map utf8_coerce l) = map utf8_coerce l.
Proof.
  induction l as [| s rest IH]; [reflexivity |].
  simpl. rewrite IH. f_equal. apply utf8_coerce_valid, utf8_coerce_from_is_valid.
Qed.

(** X13. For every [TTSRequest] with finite floats and integers in
    range, valid UTF-8 or not, serializing and deserializing yields the
    request with its strings coerced to valid UTF-8 and everything else
    unchanged; a second round trip changes nothing more. *)
Theorem TTSRequest_round_trip_coerces (r : TTSRequest) :
  floats_finite r = true ->
  ints_in_range r = true ->
  (exists j : json,
      json_Marshal (TTSRequest_fields r) = Ok j /\
      json_Unmarshal_TTSRequest j = Ok (TTSRequest_coerce r)) /\
  TTSRequest_coerce (TTSRequest_coerce r) = TTSRequest_coerce r.
Proof.
  unfold floats_finite, ints_in_range. rewrite !andb_true_iff.
  intros [[[[[F1 F2] F3] F4] F5] F6] [[[I1 I2] I3] I4].
  split.
  - destruct (json_encode_value (VStringSlice (AuxRefAudioPaths r)))
      as [jaux | e] eqn:Haux;
      [| destruct (AuxRefAudioPaths r); discriminate].
    unfold json_Marshal, TTSRequest_fields. cbn [json_encode_fields].
    rewrite Haux, !encode_float64_finite by assumption.
    cbn [json_encode_value].
    eexists. split; [reflexivity |].
    apply Unmarshal_members;
      first [ apply decode_string_coerced
            | apply decode_int_encoded; assumption
            | apply (decode_slice_coerced _ _ _ Haux)
            | reflexivity ].
  - assert (Hidem : forall s, utf8_coerce (utf8_coerce s) = utf8_coerce s)
      by (intros s; apply utf8_coerce_valid, utf8_coerce_from_is_valid).
    unfold TTSRequest_coerce. cbn -[utf8_coerce].
    rewrite !Hidem.
    destruct (AuxRefAudioPaths r) as [l |]; cbn -[utf8_coerce];
      rewrite ?map_coerce_idem; reflexivity.
Qed.

(** ** The text of a status error *)

Lemma exchange_status_text c id method url body sent on_new on_do on_status accept
    log resp :
  url_Parse url = None ->
  HTTPClient c sent = Ok resp ->
  accept (Resp_StatusCode resp) = false ->
  exchange c (a_Context id) method url body sent on_new on_do on_status accept log
  = (Some (errorString
             (on_status +:+ fmt_d (Resp_StatusCode resp) +:+ ": " +:+
              string_of_bytes (rc_data (Resp_Body resp)))),
     (log ++ [sent])%list).
Proof.
  intros Hurl Hdo Ha. rewrite (exchange_sent _ _ _ _ _ _ _ _ _ _ _ Hurl), Hdo.
  unfold status_error. rewrite Ha. reflexivity.
Qed.

Lemma reject_200_204 (sc : Z) : sc <> 200 -> sc <> 204 -> accept_200_204 sc = false.
Proof.
  intros H1 H2. destruct (accept_200_204 sc) eqn:H; [| reflexivity].
  apply accept_200_204_spec in H. destruct H; contradiction.
Qed.

Lemma reject_200 (sc : Z) : sc <> 200 -> accept_200 sc = false.
Proof.
  intros H1. destruct (accept_200 sc) eqn:H; [| reflexivity].
  apply accept_200_spec in H. contradiction.
Qed.

(** X15. With a context that is not nil and a URL that [url.Parse]
    accepts, against a client that answers the request of the method with
    a status code the method does not accept, the method sends that one
    request and returns a plain error without a wrapped cause, whose text
    is exactly the prefix of the method, the status code in decimal, a
    colon, a space and the body as read: for the control methods on any
    status but 200 and 204, for the weight methods on any status but 200
    (204 included). *)
Theorem status_error_text
    (c : Client) (id : nat) (arg : string)
    (log : list http_Request) (resp : http_Response) :
  let ctx := a_Context id in
  let said prefix :=
    Some (errorString
            (prefix +:+ fmt_d (Resp_StatusCode resp) +:+ ": " +:+
             string_of_bytes (rc_data (Resp_Body resp)))) in
  (Resp_StatusCode resp <> 200 -> Resp_StatusCode resp <> 204 ->
   (let sent :=
      post_request ctx (BaseURL c +:+ "/control")
        (JObject [("command", JString (utf8_coerce arg))]) in
    url_Parse (BaseURL c +:+ "/control") = None ->
    HTTPClient c sent = Ok resp ->
    Control c ctx arg log = (said "控制请求失败，状态码 ", (log ++ [sent])%list)) /\
   (let sent := get_request ctx (BaseURL c +:+ "/control?command=" +:+ arg) in
    url_Parse (BaseURL c +:+ "/control?command=" +:+ arg) = None ->
    HTTPClient c sent = Ok resp ->
    ControlWithGet c ctx arg log
    = (said "控制请求失败，状态码 ", (log ++ [sent])%list))) /\
  (Resp_StatusCode resp <> 200 ->
   (let sent :=
      post_request ctx (BaseURL c +:+ "/set_gpt_weights")
        (JObject [("weights_path", JString (utf8_coerce arg))]) in
    url_Parse (BaseURL c +:+ "/set_gpt_weights") = None ->
    HTTPClient c sent = Ok resp ->
    SetGPTWeights c ctx arg log
    = (said "设置GPT权重失败，状态码 ", (log ++ [sent])%list)) /\
   (let sent :=
      get_request ctx (BaseURL c +:+ "/set_gpt_weights?weights_path=" +:+ arg) in
    url_Parse (BaseURL c +:+ "/set_gpt_weights?weights_path=" +:+ arg) = None ->
    HTTPClient c sent = Ok resp ->
    SetGPTWeightsWithGet c ctx arg log
    = (said "设置GPT权重失败，状态码 ", (log ++ [sent])%list)) /\
   (let sent :=
      post_request ctx (BaseURL c +:+ "/set_sovits_weights")
        (JObject [("weights_path", JString (utf8_coerce arg))]) in
    url_Parse (BaseURL c +:+ "/set_sovits_weights") = None ->
    HTTPClient c sent = Ok resp ->
    SetSoVITSWeights c ctx arg log
    = (said "设置SoVITS权重失败，状态码 ", (log ++ [sent])%list)) /\
   (let sent :=
      get_request ctx (BaseURL c +:+ "/set_sovits_weights?weights_path=" +:+ arg) in
    url_Parse (BaseURL c +:+ "/set_sovits_weights?weights_path=" +:+ arg) = None ->
    HTTPClient c sent = Ok resp ->
    SetSoVITSWeightsWithGet c ctx arg log
    = (said "设置SoVITS权重失败，状态码 ", (log ++ [sent])%list))).
Proof.
  cbv zeta. split.
  - intros H1 H2. pose proof (reject_200_204 _ H1 H2) as Hr.
    split; intros Hurl Hdo.
    + rewrite Control_run. cbv zeta.
      exact (exchange_status_text _ _ _ _ _ _ _ _ _ _ _ _ Hurl Hdo Hr).
    + rewrite ControlWithGet_run. cbv zeta.
      exact (exchange_status_text _ _ _ _ _ _ _ _ _ _ _ _ Hurl Hdo Hr).
  - intros H1. pose proof (reject_200 _ H1) as Hr.
    split; [| split; [| split]]; intros Hurl Hdo.
    + rewrite SetGPTWeights_run. cbv zeta.
      exact (exchange_status_text _ _ _ _ _ _ _ _ _ _ _ _ Hurl Hdo Hr).
    + rewrite SetGPTWeightsWithGet_run. cbv zeta.
      exact (exchange_status_text _ _ _ _ _ _ _ _ _ _ _ _ Hurl Hdo Hr).
    + rewrite SetSoVITSWeights_run. cbv zeta.
      exact (exchange_status_text _ _ _ _ _ _ _ _ _ _ _ _ Hurl Hdo Hr).
    + rewrite SetSoVITSWeightsWithGet_run. cbv zeta.
      exact (exchange_status_text _ _ _ _ _ _ _ _ _ _ _ _ Hurl Hdo Hr).
Qed.

End SDK.

(** * Examples *)

(** The scenario of the specification: a request for the text "hello"
    against a server that answers 200 with the first bytes of a WAV file
    yields status 200 and these bytes; and an answer with status 400 is
    handed back the same way, with its body and no error. *)
Lemma TTS_example_wav_header :
  TTS any_url (local_client (answer 200 [x52; x49; x46; x46])) (a_Context 0)
      (TTSSimple_request "hello" "en" "ref.wav" "en" "") []
  = ({| StatusCode := 200; AudioData := [x52; x49; x46; x46]; Error := None |},
     None,
     [post_request (a_Context 0) "http://127.0.0.1:9880/tts"
        (JObject
          [ ("text", JString "hello");
            ("text_lang", JString "en");
            ("ref_audio_path", JString "ref.wav");
            ("aux_ref_audio_paths", JNull);
            ("prompt_text", JString "");
            ("prompt_lang", JString "en");
            ("top_k", JInt 0);
            ("top_p", JFloat 0);
            ("temperature", JFloat 0);
            ("text_split_method", JString "cut5");
            ("batch_size", JInt 1);
            ("batch_threshold", JFloat 0);
            ("split_bucket", JBool false);
            ("speed_factor", JFloat 0);
            ("fragment_interval", JFloat 0);
            ("seed", JInt 0);
            ("media_type", JString "wav");
            ("streaming_mode", JBool false);
            ("parallel_infer", JBool false);
            ("repetition_penalty", JFloat 0);
            ("sample_steps", JInt 0);
            ("super_sampling", JBool false) ])])
  /\
  fst (TTS any_url (local_client (answer 400 (list_byte_of_string file_not_found)))
         (a_Context 0) (TTSSimple_request "hello" "en" "ref.wav" "en" "") [])
  = ({| StatusCode := 400;
        AudioData := list_byte_of_string file_not_found;
        Error := None |}, None).
Proof.
  split.
  - refine (TTS_returns_status_and_body_verbatim any_url
              (local_client (answer 200 [x52; x49; x46; x46])) 0
              (TTSSimple_request "hello" "en" "ref.wav" "en" "") [] _
              {| Resp_StatusCode := 200;
                 Resp_Body := {| rc_data := [x52; x49; x46; x46];
                                 rc_err := None |} |}
              _ _ _ _);
      reflexivity.
  - rewrite (TTS_returns_status_and_body_verbatim any_url
               (local_client (answer 400 (list_byte_of_string file_not_found))) 0
               (TTSSimple_request "hello" "en" "ref.wav" "en" "") [] _
               {| Resp_StatusCode := 400;
                  Resp_Body := {| rc_data := list_byte_of_string file_not_found;
                                  rc_err := None |} |}
               (TTSSimple_request_marshal "hello" "en" "ref.wav" "en" "")
               eq_refl eq_refl eq_refl).
    reflexivity.
Defined.

(** [TTSSimple] on the inputs of the example: the request sent carries the
    four defaults and the five inputs. *)
Lemma TTSSimple_example_defaults :
  exists body : json,
    snd (TTSSimple any_url (local_client (answer 200 [])) (a_Context 0)
           "hello" "en" "ref.wav" "zh" "你好" [])
    = [post_request (a_Context 0) "http://127.0.0.1:9880/tts" body] /\
    json_member "text_split_method" body = Some (JString "cut5") /\
    json_member "batch_size" body = Some (JInt 1) /\
    json_member "media_type" body = Some (JString "wav") /\
    json_member "streaming_mode" body = Some (JBool false) /\
    json_member "text" body = Some (JString "hello") /\
    json_member "text_lang" body = Some (JString "en") /\
    json_member "ref_audio_path" body = Some (JString "ref.wav") /\
    json_member "prompt_lang" body = Some (JString "zh") /\
    json_member "prompt_text" body = Some (JString "你好").
Proof.
  exact (proj2 (TTSSimple_fixed_defaults any_url (local_client (answer 200 []))
                  (a_Context 0) "hello" "en" "ref.wav" "zh" "你好" [])
           0%nat eq_refl eq_refl).
Defined.

(** [Control] and [ControlWithGet] against the local server: each sends
    its one request; against an answer 500 it fails with the status code
    and the body in the error, against an answer 204 it succeeds. *)
Lemma Control_example_500_and_204 :
  let boom := local_client (answer 500 (list_byte_of_string "boom")) in
  let no_content := local_client (answer 204 []) in
  let post :=
    post_request (a_Context 0) "http://127.0.0.1:9880/control"
      (JObject [("command", JString "restart")]) in
  let get := get_request (a_Context 0) "http://127.0.0.1:9880/control?command=exit" in
  (snd (Control any_url boom (a_Context 0) "restart" []) = [post] /\
   exists e,
     fst (Control any_url boom (a_Context 0) "restart" []) = Some e /\
     contains (Error_msg e) "500" /\ contains (Error_msg e) "boom") /\
  Control any_url no_content (a_Context 0) "restart" [] = (None, [post]) /\
  (snd (ControlWithGet any_url boom (a_Context 0) "exit" []) = [get] /\
   exists e,
     fst (ControlWithGet any_url boom (a_Context 0) "exit" []) = Some e /\
     contains (Error_msg e) "500" /\ contains (Error_msg e) "boom") /\
  ControlWithGet any_url no_content (a_Context 0) "exit" [] = (None, [get]).
Proof.
  cbv zeta.
  pose (r500 := {| Resp_StatusCode := 500;
                   Resp_Body := {| rc_data := list_byte_of_string "boom";
                                   rc_err := None |} |}).
  pose (r204 := {| Resp_StatusCode := 204;
                   Resp_Body := {| rc_data := []; rc_err := None |} |}).
  destruct (Control_succeeds_iff_status_200_or_204 any_url
              (local_client (Ok r500)) 0 "restart" [] r500) as [Hpost500 _].
  destruct (Control_succeeds_iff_status_200_or_204 any_url
              (local_client (Ok r204)) 0 "restart" [] r204) as [Hpost204 _].
  destruct (Control_succeeds_iff_status_200_or_204 any_url
              (local_client (Ok r500)) 0 "exit" [] r500) as [_ Hget500].
  destruct (Control_succeeds_iff_status_200_or_204 any_url
              (local_client (Ok r204)) 0 "exit" [] r204) as [_ Hget204].
  destruct (Hpost500 eq_refl eq_refl) as [S1 [_ E1]].
  destruct (Hpost204 eq_refl eq_refl) as [S2 [N2 _]].
  destruct (Hget500 eq_refl eq_refl) as [S3 [_ E3]].
  destruct (Hget204 eq_refl eq_refl) as [S4 [N4 _]].
  split; [split; [exact S1 | eexists; split; [reflexivity | apply E1; reflexivity]] |].
  split; [apply injective_projections; [apply N2; right; reflexivity | exact S2] |].
  split; [split; [exact S3 | eexists; split; [reflexivity | apply E3; reflexivity]] |].
  apply injective_projections; [apply N4; right; reflexivity | exact S4].
Defined.

(** The scenario of the specification: [SetGPTWeights] against a server
    that answers 400 with the body [{"error":"file not found"}] sends its
    request and yields an error that contains 400 and that message; so do
    [SetSoVITSWeights] and the two GET variants.  Against an answer 204,
    which the control methods accept, the weight methods fail too, and
    against 200 they succeed. *)
Lemma SetGPTWeights_example_file_not_found :
  let missing := local_client (answer 400 (list_byte_of_string file_not_found)) in
  let no_content := local_client (answer 204 []) in
  let ok := local_client (answer 200 []) in
  let body := JObject [("weights_path", JString "missing.ckpt")] in
  let gpt := post_request (a_Context 0) "http://127.0.0.1:9880/set_gpt_weights" body in
  let sovits :=
    post_request (a_Context 0) "http://127.0.0.1:9880/set_sovits_weights" body in
  let gpt_get :=
    get_request (a_Context 0)
      "http://127.0.0.1:9880/set_gpt_weights?weights_path=missing.ckpt" in
  let sovits_get :=
    get_request (a_Context 0)
      "http://127.0.0.1:9880/set_sovits_weights?weights_path=missing.ckpt" in
  (snd (SetGPTWeights any_url missing (a_Context 0) "missing.ckpt" []) = [gpt] /\
   exists e,
     fst (SetGPTWeights any_url missing (a_Context 0) "missing.ckpt" []) = Some e /\
     contains (Error_msg e) "400" /\ contains (Error_msg e) file_not_found) /\
  (snd (SetSoVITSWeights any_url missing (a_Context 0) "missing.ckpt" []) = [sovits] /\
   exists e,
     fst (SetSoVITSWeights any_url missing (a_Context 0) "missing.ckpt" []) = Some e /\
     contains (Error_msg e) "400" /\ contains (Error_msg e) file_not_found) /\
  (snd (SetGPTWeightsWithGet any_url missing (a_Context 0) "missing.ckpt" [])
   = [gpt_get] /\
   exists e,
     fst (SetGPTWeightsWithGet any_url missing (a_Context 0) "missing.ckpt" [])
     = Some e /\
     contains (Error_msg e) "400" /\ contains (Error_msg e) file_not_found) /\
  (snd (SetSoVITSWeightsWithGet any_url missing (a_Context 0) "missing.ckpt" [])
   = [sovits_get] /\
   exists e,
     fst (SetSoVITSWeightsWithGet any_url missing (a_Context 0) "missing.ckpt" [])
     = Some e /\
     contains (Error_msg e) "400" /\ contains (Error_msg e) file_not_found) /\
  (snd (SetSoVITSWeights any_url no_content (a_Context 0) "missing.ckpt" [])
   = [sovits] /\
   fst (SetSoVITSWeights any_url no_content (a_Context 0) "missing.ckpt" []) <> None) /\
  SetGPTWeights any_url ok (a_Context 0) "missing.ckpt" [] = (None, [gpt]) /\
  SetSoVITSWeightsWithGet any_url ok (a_Context 0) "missing.ckpt" []
  = (None, [sovits_get]).
Proof.
  cbv zeta.
  pose (r400 := {| Resp_StatusCode := 400;
                   Resp_Body := {| rc_data := list_byte_of_string file_not_found;
                                   rc_err := None |} |}).
  pose (r204 := {| Resp_StatusCode := 204;
                   Resp_Body := {| rc_data := []; rc_err := None |} |}).
  pose (r200 := {| Resp_StatusCode := 200;
                   Resp_Body := {| rc_data := []; rc_err := None |} |}).
  destruct (SetWeights_succeeds_iff_status_200 any_url
              (local_client (Ok r400)) 0 "missing.ckpt" [] r400)
    as (H1 & H2 & H3 & H4).
  destruct (SetWeights_succeeds_iff_status_200 any_url
              (local_client (Ok r204)) 0 "missing.ckpt" [] r204)
    as (_ & H5 & _ & _).
  destruct (SetWeights_succeeds_iff_status_200 any_url
              (local_client (Ok r200)) 0 "missing.ckpt" [] r200)
    as (H6 & _ & _ & H7).
  destruct (H1 eq_refl eq_refl) as [S1 [_ E1]].
  destruct (H2 eq_refl eq_refl) as [S2 [_ E2]].
  destruct (H3 eq_refl eq_refl) as [S3 [_ E3]].
  destruct (H4 eq_refl eq_refl) as [S4 [_ E4]].
  destruct (H5 eq_refl eq_refl) as [S5 [N5 _]].
  destruct (H6 eq_refl eq_refl) as [S6 [N6 _]].
  destruct (H7 eq_refl eq_refl) as [S7 [N7 _]].
  split; [split; [exact S1 | eexists; split; [reflexivity | apply E1; reflexivity]] |].
  split; [split; [exact S2 | eexists; split; [reflexivity | apply E2; reflexivity]] |].
  split; [split; [exact S3 | eexists; split; [reflexivity | apply E3; reflexivity]] |].
  split; [split; [exact S4 | eexists; split; [reflexivity | apply E4; reflexivity]] |].
  split.
  { split; [exact S5 |]. intros Hnil. apply N5 in Hnil. discriminate Hnil. }
  split; [apply injective_projections; [apply N6; reflexivity | exact S6] |].
  apply injective_projections; [apply N7; reflexivity | exact S7].
Defined.

(** "restart" by POST and by GET against the local server: the server
    observes the same command. *)
Lemma control_example_restart :
  exists post get : http_Request,
    snd (Control any_url (local_client (answer 200 [])) (a_Context 0) "restart" [])
    = [post] /\
    snd (ControlWithGet any_url (local_client (answer 200 [])) (a_Context 0)
           "restart" [])
    = [get] /\
    Req_URL post = "http://127.0.0.1:9880/control" /\
    Req_URL get = "http://127.0.0.1:9880/control?command=restart" /\
    server_observed "command" post = ["restart"] /\
    server_observed "command" get = ["restart"].
Proof.
  destruct (control_command_same_by_POST_and_GET any_url
              (local_client (answer 200 [])) 0 "restart" []
              (or_introl eq_refl) eq_refl eq_refl eq_refl)
    as (post & get & H1 & H2 & _ & H4 & _ & H6 & H7 & H8).
  exists post, get.
  split; [exact H1 |]. split; [exact H2 |]. split; [exact H4 |].
  split; [exact H6 |]. split; [exact H7 |].
  rewrite H8. exact H7.
Defined.

(** A run of [GetTTSWithURLParams] on a map with two entries: the request
    sent lists them in the sequence the run visited them in. *)
Lemma query_example_two_entries :
  exists visited : list (string * string),
    visited ≡ₚ map_to_list (map_of_inserts [("text", "hi"); ("text_lang", "en")]) /\
    build_query visited = "?" +:+ String.concat "&" (map pair_text visited) /\
    snd (GetTTSWithURLParams_visiting any_url (local_client (answer 200 []))
           (a_Context 0) [("text", "hi"); ("text_lang", "en")] [])
    = [get_request (a_Context 0)
         ("http://127.0.0.1:9880/tts" +:+ "?" +:+
          String.concat "&" (map pair_text visited))].
Proof.
  destruct (query_lists_entries_in_range_order any_url (local_client (answer 200 []))
              (a_Context 0) (map_of_inserts [("text", "hi"); ("text_lang", "en")]) []
              (GetTTSWithURLParams_visiting any_url (local_client (answer 200 []))
                 (a_Context 0) [("text", "hi"); ("text_lang", "en")] []))
    as (Hrun & _ & _).
  destruct Hrun as (visited & Hperm & Hquery & _ & Hsent).
  - exists [("text", "hi"); ("text_lang", "en")]. split; [| reflexivity].
    unfold map_range. vm_compute. apply perm_swap.
  - exists visited. split; [exact Hperm |]. split; [exact Hquery |].
    exact (Hsent 0%nat eq_refl eq_refl).
Defined.

(** The entries "text" and "text_lang", inserted in this order, can be
    visited in the other order: that run sends [text_lang] first, which
    is not the insertion order. *)
Lemma query_need_not_follow_insertion_order :
  let inserted := [("text", "hi"); ("text_lang", "en")] in
  let visited := [("text_lang", "en"); ("text", "hi")] in
  let c := local_client (answer 200 []) in
  let out := GetTTSWithURLParams_visiting any_url c (a_Context 0) visited [] in
  GetTTSWithURLParams any_url c (a_Context 0) (map_of_inserts inserted) [] out /\
  snd out
  = [get_request (a_Context 0) "http://127.0.0.1:9880/tts?text_lang=en&text=hi"] /\
  build_query visited <> "?" +:+ String.concat "&" (map pair_text inserted).
Proof.
  cbv zeta. split; [| split].
  - exists [("text_lang", "en"); ("text", "hi")].
    split; [| reflexivity].
    unfold map_range. vm_compute. reflexivity.
  - reflexivity.
  - vm_compute. discriminate.
Qed.

(** A request with Chinese text survives the round trip. *)
Lemma round_trip_example :
  exists j : json,
    json_Marshal (TTSRequest_fields (TTSSimple_request "你好" "zh" "ref.wav" "zh" ""))
    = Ok j /\
    json_Unmarshal_TTSRequest j = Ok (TTSSimple_request "你好" "zh" "ref.wav" "zh" "") /\
    json_keys j =
    [ "text"; "text_lang"; "ref_audio_path"; "aux_ref_audio_paths";
      "prompt_text"; "prompt_lang"; "top_k"; "top_p"; "temperature";
      "text_split_method"; "batch_size"; "batch_threshold"; "split_bucket";
      "speed_factor"; "fragment_interval"; "seed"; "media_type";
      "streaming_mode"; "parallel_infer"; "repetition_penalty";
      "sample_steps"; "super_sampling" ].
Proof.
  exact (TTSRequest_json_round_trip
           (TTSSimple_request "你好" "zh" "ref.wav" "zh" "") eq_refl).
Defined.

(** The headers of the requests sent against the local server: the five
    POST methods send one request with the content type and nothing else,
    the GET methods one request with no header. *)
Lemma headers_example :
  let c := local_client (answer 200 []) in
  let ctx := a_Context 0 in
  sends json_headers_only []
    (snd (TTS any_url c ctx (TTSSimple_request "hello" "en" "ref.wav" "en" "") [])) /\
  sends json_headers_only []
    (snd (TTSSimple any_url c ctx "hello" "en" "ref.wav" "en" "" [])) /\
  sends json_headers_only [] (snd (Control any_url c ctx "restart" [])) /\
  sends json_headers_only [] (snd (SetGPTWeights any_url c ctx "gpt.ckpt" [])) /\
  sends json_headers_only [] (snd (SetSoVITSWeights any_url c ctx "sovits.pth" [])) /\
  sends no_headers []
    (snd (GetTTSWithURLParams_visiting any_url c ctx [("text", "hi")] [])) /\
  sends no_headers [] (snd (ControlWithGet any_url c ctx "restart" [])) /\
  sends no_headers [] (snd (SetGPTWeightsWithGet any_url c ctx "gpt.ckpt" [])) /\
  sends no_headers [] (snd (SetSoVITSWeightsWithGet any_url c ctx "sovits.pth" [])).
Proof.
  cbv zeta.
  destruct (POST_sets_content_type_and_nothing_authenticates any_url
              (local_client (answer 200 [])) (a_Context 0) [])
    as [_ Hsent].
  destruct (Hsent 0%nat eq_refl)
    as (Htts & Hsimple & Hcontrol & Hgpt & Hsovits & Hget & Hcget & Hgget & Hsget).
  split; [exact (Htts _ _ (TTSSimple_request_marshal "hello" "en" "ref.wav" "en" "")
                   eq_refl) |].
  split; [exact (Hsimple "hello" "en" "ref.wav" "en" "" eq_refl) |].
  split; [exact (Hcontrol "restart" eq_refl) |].
  split; [exact (Hgpt "gpt.ckpt" eq_refl) |].
  split; [exact (Hsovits "sovits.pth" eq_refl) |].
  split.
  { apply (Hget {[ "text" := "hi" ]}).
    - intros visited _. reflexivity.
    - exists [("text", "hi")]. split; [| reflexivity].
      unfold map_range. rewrite map_to_list_singleton. reflexivity. }
  split; [exact (Hcget "restart" eq_refl) |].
  split; [exact (Hgget "gpt.ckpt" eq_refl) |].
  exact (Hsget "sovits.pth" eq_refl).
Defined.


(** C2. On the parameter [text] with the value "你好&世界",
    [GetTTSWithURLParams] puts the value into the URL as it is.  The URL
    then holds bytes that a URI may not contain, nothing is
    percent-encoded, and the server reads "你好" as the text and a second
    parameter "世界".  The percent-encoded URL holds URI characters only
    and carries the value intact. *)
Theorem query_values_are_sent_raw :
  let c := local_client (answer 200 []) in
  let ctx := a_Context 0 in
  let visited := [("text", "你好&世界")] in
  let sent := get_request ctx "http://127.0.0.1:9880/tts?text=你好&世界" in
  let encoded :=
    get_request ctx
      "http://127.0.0.1:9880/tts?text=%E4%BD%A0%E5%A5%BD%26%E4%B8%96%E7%95%8C" in
  map_range {[ "text" := "你好&世界" ]} visited /\
  snd (GetTTSWithURLParams_visiting any_url c ctx visited []) = [sent] /\
  uri_text (Req_URL sent) = false /\
  server_observed "text" sent = ["你好"] /\
  parse_query (url_query (Req_URL sent)) = [("text", "你好"); ("世界", "")] /\
  uri_text (Req_URL encoded) = true /\
  server_observed "text" encoded = ["你好&世界"].
Proof.
  cbv zeta. split.
  - unfold map_range. rewrite map_to_list_singleton. reflexivity.
  - repeat split; reflexivity.
Qed.

(** Outside validity the round trip is lost: a byte that is not UTF-8
    comes back as U+FFFD, and a NaN is refused by the encoder. *)
Lemma round_trip_needs_valid_utf8 :
  let text := String (ascii_of_nat 255) "" in
  let r := TTSSimple_request text "en" "ref.wav" "en" "" in
  TTSRequest_valid r = false /\
  exists j : json,
    json_Marshal (TTSRequest_fields r) = Ok j /\
    json_Unmarshal_TTSRequest j
    = Ok (TTSSimple_request RuneError "en" "ref.wav" "en" "").
Proof.
  cbv zeta. split; [reflexivity |].
  eexists. split; [apply TTSSimple_request_marshal |].
  apply Unmarshal_members; reflexivity.
Qed.

Lemma Marshal_refuses_NaN :
  let nan : float64 := 9221120237041090560 in
  json_encode_value (VFloat64 nan)
  = Err (errorString "json: unsupported value: NaN").
Proof. reflexivity. Qed.

(** * Further examples *)

(** A call of [GetTTSWithURLParams] sends one request, with the context
    of the caller, under the base URL. *)
Lemma one_request_example :
  sends_only (request_of (local_client (answer 200 [])) (a_Context 7)) []
    (snd (GetTTSWithURLParams_visiting any_url (local_client (answer 200 []))
            (a_Context 7) [("text", "hi")] [])).
Proof.
  destruct (methods_send_at_most_one_request any_url
              (local_client (answer 200 [])) (a_Context 7) [])
    as (_ & _ & _ & _ & _ & Hget & _).
  apply (Hget {[ "text" := "hi" ]}).
  exists [("text", "hi")]. split; [| reflexivity].
  unfold map_range. rewrite map_to_list_singleton. reflexivity.
Defined.

(** With a nil context [Control] sends nothing; with a URL that does not
    parse, [SetGPTWeightsWithGet] sends nothing either. *)
Lemma unbuilt_request_example :
  Control any_url (local_client (answer 200 [])) nil_Context "restart" []
  = (Some (fmt_Errorf_w "创建控制请求失败: " (errorString "net/http: nil Context")), [])
  /\
  SetGPTWeightsWithGet no_url (local_client (answer 200 [])) (a_Context 0) "a b" []
  = (Some (fmt_Errorf_w "创建权重请求失败: " (errorString "parse: invalid URL")), []).
Proof.
  split.
  - destruct (unbuilt_request_sends_nothing any_url (local_client (answer 200 []))
                nil_Context [] (errorString "net/http: nil Context"))
      as (_ & _ & _ & Hcontrol & _).
    apply Hcontrol. reflexivity.
  - destruct (unbuilt_request_sends_nothing no_url (local_client (answer 200 []))
                (a_Context 0) [] (errorString "parse: invalid URL"))
      as (_ & _ & _ & _ & _ & _ & _ & Hget & _).
    apply Hget. reflexivity.
Defined.

(** A refused connection comes back wrapped by each of the nine methods,
    after the one request was handed to the client. *)
Lemma transport_error_example :
  let refusing := local_client (Err (errorString "connection refused")) in
  let err := errorString "connection refused" in
  let ctx := a_Context 0 in
  let post path name value :=
    post_request ctx ("http://127.0.0.1:9880" +:+ path)
      (JObject [(name, JString value)]) in
  let get path := get_request ctx ("http://127.0.0.1:9880" +:+ path) in
  (exists e sent,
      TTS any_url refusing ctx (TTSSimple_request "hello" "en" "ref.wav" "en" "") []
      = (TTSResponse_Error e, None, [sent]) /\
      wraps e "请求失败: " err) /\
  (exists e sent,
      TTSSimple any_url refusing ctx "hello" "en" "ref.wav" "en" "" []
      = (TTSResponse_Error e, None, [sent]) /\
      wraps e "请求失败: " err) /\
  (exists e,
      GetTTSWithURLParams any_url refusing ctx {[ "text" := "hi" ]} []
        (TTSResponse_Error e, None, [get "/tts?text=hi"]) /\
      GetTTSWithURLParams_visiting any_url refusing ctx [("text", "hi")] []
      = (TTSResponse_Error e, None, [get "/tts?text=hi"]) /\
      wraps e "请求失败: " err) /\
  (exists e,
      Control any_url refusing ctx "exit" []
      = (Some e, [post "/control" "command" "exit"]) /\
      wraps e "控制请求失败: " err) /\
  (exists e,
      ControlWithGet any_url refusing ctx "exit" []
      = (Some e, [get "/control?command=exit"]) /\
      wraps e "控制请求失败: " err) /\
  (exists e,
      SetGPTWeights any_url refusing ctx "gpt.ckpt" []
      = (Some e, [post "/set_gpt_weights" "weights_path" "gpt.ckpt"]) /\
      wraps e "设置GPT权重请求失败: " err) /\
  (exists e,
      SetGPTWeightsWithGet any_url refusing ctx "gpt.ckpt" []
      = (Some e, [get "/set_gpt_weights?weights_path=gpt.ckpt"]) /\
      wraps e "设置GPT权重请求失败: " err) /\
  (exists e,
      SetSoVITSWeights any_url refusing ctx "sovits.pth" []
      = (Some e, [post "/set_sovits_weights" "weights_path" "sovits.pth"]) /\
      wraps e "设置SoVITS权重请求失败: " err) /\
  (exists e,
      SetSoVITSWeightsWithGet any_url refusing ctx "sovits.pth" []
      = (Some e, [get "/set_sovits_weights?weights_path=sovits.pth"]) /\
      wraps e "设置SoVITS权重请求失败: " err).
Proof.
  cbv zeta.
  destruct (transport_error_is_wrapped any_url
              (local_client (Err (errorString "connection refused")))
              0%nat [] (errorString "connection refused"))
    as (Htts & Hsimple & Hget & Hcontrol & Hcget & Hgpt & Hgget & Hsovits & Hsget).
  split.
  { destruct (Htts _ _ (TTSSimple_request_marshal "hello" "en" "ref.wav" "en" "")
                eq_refl eq_refl) as (e & He & Hw).
    exists e. eexists. split; [exact He | exact Hw]. }
  split.
  { destruct (Hsimple _ _ _ _ _ _
                (TTSSimple_request_marshal "hello" "en" "ref.wav" "en" "")
                eq_refl eq_refl) as (e & He & Hw).
    exists e. eexists. split; [exact He | exact Hw]. }
  split.
  { refine (Hget {[ "text" := "hi" ]} [("text", "hi")] _ eq_refl eq_refl).
    unfold map_range. rewrite map_to_list_singleton. reflexivity. }
  split; [exact (Hcontrol "exit" eq_refl eq_refl) |].
  split; [exact (Hcget "exit" eq_refl eq_refl) |].
  split; [exact (Hgpt "gpt.ckpt" eq_refl eq_refl) |].
  split; [exact (Hgget "gpt.ckpt" eq_refl eq_refl) |].
  split; [exact (Hsovits "sovits.pth" eq_refl eq_refl) |].
  exact (Hsget "sovits.pth" eq_refl eq_refl).
Defined.

(** An answer 200 whose body breaks off after two bytes: [TTS],
    [TTSSimple] and [GetTTSWithURLParams] send their request and return
    neither the status code nor the two bytes. *)
Lemma read_error_example :
  let broken :=
    {| Resp_StatusCode := 200;
       Resp_Body := {| rc_data := [x52; x49];
                       rc_err := Some (errorString "unexpected EOF") |} |} in
  let dropped :=
    {| StatusCode := 0; AudioData := [];
       Error := Some (fmt_Errorf_w "读取响应体失败: " (errorString "unexpected EOF")) |} in
  fst (TTS any_url (local_client (Ok broken)) (a_Context 0)
         (TTSSimple_request "hello" "en" "ref.wav" "en" "") [])
  = (dropped, None) /\
  (exists sent,
      TTS any_url (local_client (Ok broken)) (a_Context 0)
        (TTSSimple_request "hello" "en" "ref.wav" "en" "") []
      = (dropped, None, [sent])) /\
  (exists sent,
      TTSSimple any_url (local_client (Ok broken)) (a_Context 0)
        "hello" "en" "ref.wav" "en" "" []
      = (dropped, None, [sent])) /\
  GetTTSWithURLParams_visiting any_url (local_client (Ok broken)) (a_Context 0)
    [("text", "hi")] []
  = (dropped, None, [get_request (a_Context 0) "http://127.0.0.1:9880/tts?text=hi"]).
Proof.
  cbv zeta.
  pose (broken := {| Resp_StatusCode := 200;
                     Resp_Body := {| rc_data := [x52; x49];
                                     rc_err := Some (errorString "unexpected EOF") |} |}).
  destruct (read_error_drops_status_and_data any_url
              (local_client (Ok broken)) (a_Context 0) [] broken
              (errorString "unexpected EOF") eq_refl)
    as (Hfst & _ & _ & Hsent).
  destruct (Hsent 0%nat eq_refl) as (Htts & Hsimple & Hget).
  split; [apply Hfst; eexists; split; reflexivity |].
  split.
  { eexists.
    exact (Htts _ _ (TTSSimple_request_marshal "hello" "en" "ref.wav" "en" "")
             eq_refl eq_refl). }
  split.
  { eexists.
    exact (Hsimple _ _ _ _ _ _
             (TTSSimple_request_marshal "hello" "en" "ref.wav" "en" "")
             eq_refl eq_refl). }
  refine (proj2 (Hget {[ "text" := "hi" ]} [("text", "hi")] _ eq_refl eq_refl)).
  unfold map_range. rewrite map_to_list_singleton. reflexivity.
Defined.


(** [TTSSimple] sends a text that is not UTF-8 all the same. *)
Lemma TTSSimple_sends_example :
  exists body : json,
    json_Marshal (TTSRequest_fields (TTSSimple_request not_utf8 "en" "ref.wav" "en" ""))
    = Ok body /\
    snd (TTSSimple any_url (local_client (answer 200 [])) (a_Context 0)
           not_utf8 "en" "ref.wav" "en" "" [])
    = ([] ++ [post_request (a_Context 0)
                (BaseURL (local_client (answer 200 [])) +:+ "/tts") body])%list.
Proof.
  exact (TTSSimple_always_sends any_url (local_client (answer 200 [])) 0
           not_utf8 "en" "ref.wav" "en" "" [] eq_refl).
Defined.

(** Against a server that answers 503 to everything, [Control] and
    [ControlWithGet] return the same error. *)
Lemma variants_example :
  fst (Control any_url (local_client (answer 503 [])) (a_Context 0) "restart" [])
  = fst (ControlWithGet any_url (local_client (answer 503 [])) (a_Context 0)
           "restart" []).
Proof.
  destruct (GET_variant_returns_as_POST any_url (local_client (answer 503 []))
              (a_Context 0) []) as (Hcontrol & _).
  apply Hcontrol; reflexivity.
Defined.

(** The empty map. *)
Lemma empty_params_example :
  sends_only
    (fun r => r = get_request (a_Context 0) ("http://127.0.0.1:9880" +:+ "/tts?")) []
    (snd (GetTTSWithURLParams_visiting any_url (local_client (answer 200 []))
            (a_Context 0) [] [])).
Proof.
  apply (empty_params_query_is_question_mark any_url (local_client (answer 200 []))
           (a_Context 0) []).
  exists []. split; [| reflexivity].
  unfold map_range. rewrite map_to_list_empty. reflexivity.
Defined.

(** Two parameters of plain text reach the server, in whichever order
    they are visited. *)
Lemma safe_params_example :
  let params : gmap string string := <[ "text_lang" := "en" ]> {[ "text" := "hello" ]} in
  let visited := [("text_lang", "en"); ("text", "hello")] in
  let sent :=
    get_request (a_Context 0) "http://127.0.0.1:9880/tts?text_lang=en&text=hello" in
  GetTTSWithURLParams any_url (local_client (answer 200 [])) (a_Context 0) params []
    (GetTTSWithURLParams_visiting any_url (local_client (answer 200 []))
       (a_Context 0) visited []) /\
  snd (GetTTSWithURLParams_visiting any_url (local_client (answer 200 []))
         (a_Context 0) visited [])
  = [sent] /\
  parse_query (url_query (Req_URL sent)) ≡ₚ map_to_list params /\
  (forall k v, params !! k = Some v -> server_observed k sent = [v]).
Proof.
  cbv zeta.
  apply (safe_params_reach_server any_url (local_client (answer 200 [])) 0%nat
           (<[ "text_lang" := "en" ]> {[ "text" := "hello" ]})
           [("text_lang", "en"); ("text", "hello")] []).
  - reflexivity.
  - intros k v H. apply lookup_insert_Some in H as [[<- <-] | [_ H]]; [reflexivity |].
    apply lookup_singleton_Some in H as [<- <-]. reflexivity.
  - unfold map_range.
    assert (Hl : map_to_list (<[ "text_lang" := "en" ]> {[ "text" := "hello" ]}
                              : gmap string string)
                 ≡ₚ [("text_lang", "en"); ("text", "hello")]).
    { rewrite map_to_list_insert by reflexivity.
      rewrite map_to_list_singleton. reflexivity. }
    symmetry. exact Hl.
  - reflexivity.
Defined.

(** The checkpoint path of the API documentation, with its two [=], by
    the three POST methods and their GET variants. *)
Lemma documented_checkpoint_example :
  let c := local_client (answer 200 []) in
  let ctx := a_Context 0 in
  let post path name :=
    post_request ctx ("http://127.0.0.1:9880" +:+ path)
      (JObject [(name, JString documented_checkpoint)]) in
  let get path :=
    get_request ctx ("http://127.0.0.1:9880" +:+ path +:+ documented_checkpoint) in
  (snd (Control any_url c ctx documented_checkpoint []) = [post "/control" "command"] /\
   server_observed "command" (post "/control" "command") = [documented_checkpoint]) /\
  (snd (ControlWithGet any_url c ctx documented_checkpoint [])
   = [get "/control?command="] /\
   server_observed "command" (get "/control?command=") = [documented_checkpoint]) /\
  (snd (SetGPTWeights any_url c ctx documented_checkpoint [])
   = [post "/set_gpt_weights" "weights_path"] /\
   server_observed "weights_path" (post "/set_gpt_weights" "weights_path")
   = [documented_checkpoint]) /\
  (snd (SetGPTWeightsWithGet any_url c ctx documented_checkpoint [])
   = [get "/set_gpt_weights?weights_path="] /\
   server_observed "weights_path" (get "/set_gpt_weights?weights_path=")
   = [documented_checkpoint]) /\
  (snd (SetSoVITSWeights any_url c ctx documented_checkpoint [])
   = [post "/set_sovits_weights" "weights_path"] /\
   server_observed "weights_path" (post "/set_sovits_weights" "weights_path")
   = [documented_checkpoint]) /\
  (snd (SetSoVITSWeightsWithGet any_url c ctx documented_checkpoint [])
   = [get "/set_sovits_weights?weights_path="] /\
   server_observed "weights_path" (get "/set_sovits_weights?weights_path=")
   = [documented_checkpoint]).
Proof.
  cbv zeta.
  destruct (safe_value_same_by_POST_and_GET any_url (local_client (answer 200 []))
              0%nat documented_checkpoint [] eq_refl eq_refl)
    as (H1 & H2 & H3 & H4 & H5 & H6).
  split; [exact (H1 eq_refl) |]. split; [exact (H2 eq_refl) |].
  split; [exact (H3 eq_refl) |]. split; [exact (H4 eq_refl) |].
  split; [exact (H5 eq_refl) |]. exact (H6 eq_refl).
Defined.

(** The coercion of a string that is not UTF-8. *)
Lemma coerce_example :
  utf8_ValidString (utf8_coerce not_utf8) = true /\
  utf8_coerce (utf8_coerce not_utf8) = utf8_coerce not_utf8 /\
  (utf8_coerce not_utf8 = not_utf8 <-> utf8_ValidString not_utf8 = true).
Proof. exact (utf8_coerce_is_valid not_utf8). Defined.

(** The round trip of a request whose text is not UTF-8. *)
Lemma coercing_round_trip_example :
  (exists j : json,
      json_Marshal (TTSRequest_fields (TTSSimple_request not_utf8 "en" "ref.wav" "en" ""))
      = Ok j /\
      json_Unmarshal_TTSRequest j
      = Ok (TTSRequest_coerce (TTSSimple_request not_utf8 "en" "ref.wav" "en" ""))) /\
  TTSRequest_coerce (TTSRequest_coerce (TTSSimple_request not_utf8 "en" "ref.wav" "en" ""))
  = TTSRequest_coerce (TTSSimple_request not_utf8 "en" "ref.wav" "en" "").
Proof.
  exact (TTSRequest_round_trip_coerces
           (TTSSimple_request not_utf8 "en" "ref.wav" "en" "") eq_refl eq_refl).
Defined.

(** The weight methods take 204 for a failure, the control methods 404:
    each sends its request and returns the text of the status error. *)
Lemma status_204_example :
  let no_content := local_client (answer 204 []) in
  let missing := local_client (answer 404 (list_byte_of_string "not found")) in
  let ctx := a_Context 0 in
  let post path name value :=
    post_request ctx ("http://127.0.0.1:9880" +:+ path)
      (JObject [(name, JString value)]) in
  let get path := get_request ctx ("http://127.0.0.1:9880" +:+ path) in
  Control any_url missing ctx "restart" []
  = (Some (errorString "控制请求失败，状态码 404: not found"),
     [post "/control" "command" "restart"]) /\
  ControlWithGet any_url missing ctx "restart" []
  = (Some (errorString "控制请求失败，状态码 404: not found"),
     [get "/control?command=restart"]) /\
  SetGPTWeights any_url no_content ctx "gpt.ckpt" []
  = (Some (errorString "设置GPT权重失败，状态码 204: "),
     [post "/set_gpt_weights" "weights_path" "gpt.ckpt"]) /\
  SetGPTWeightsWithGet any_url no_content ctx "gpt.ckpt" []
  = (Some (errorString "设置GPT权重失败，状态码 204: "),
     [get "/set_gpt_weights?weights_path=gpt.ckpt"]) /\
  SetSoVITSWeights any_url no_content ctx "sovits.pth" []
  = (Some (errorString "设置SoVITS权重失败，状态码 204: "),
     [post "/set_sovits_weights" "weights_path" "sovits.pth"]) /\
  SetSoVITSWeightsWithGet any_url no_content ctx "sovits.pth" []
  = (Some (errorString "设置SoVITS权重失败，状态码 204: "),
     [get "/set_sovits_weights?weights_path=sovits.pth"]).
Proof.
  cbv zeta.
  pose (r404 := {| Resp_StatusCode := 404;
                   Resp_Body := {| rc_data := list_byte_of_string "not found";
                                   rc_err := None |} |}).
  pose (r204 := {| Resp_StatusCode := 204;
                   Resp_Body := {| rc_data := []; rc_err := None |} |}).
  destruct (status_error_text any_url (local_client (Ok r404)) 0%nat "restart" [] r404)
    as [Hcontrol _].
  destruct Hcontrol as [Hpost Hget]; [discriminate | discriminate |].
  destruct (status_error_text any_url (local_client (Ok r204)) 0%nat "gpt.ckpt" [] r204)
    as [_ Hgpt].
  destruct Hgpt as (Hgpt & Hgget & _ & _); [discriminate |].
  destruct (status_error_text any_url (local_client (Ok r204)) 0%nat "sovits.pth" [] r204)
    as [_ Hsovits].
  destruct Hsovits as (_ & _ & Hsovits & Hsget); [discriminate |].
  split; [exact (Hpost eq_refl eq_refl) |].
  split; [exact (Hget eq_refl eq_refl) |].
  split; [exact (Hgpt eq_refl eq_refl) |].
  split; [exact (Hgget eq_refl eq_refl) |].
  split; [exact (Hsovits eq_refl eq_refl) |].
  exact (Hsget eq_refl eq_refl).
Defined.
